(** * Battlefield Portal MCP server: a shallow embedding of build/index.js

    The development follows the class [GodotServer] of
    [godot-mcp/build/index.js]: parameter-name normalisation, command-line
    quoting, detection of the Godot executable and of the Portal SDK
    directories, supervision of the running child process and the tool
    handlers.

    Conventions.
    - A JavaScript string is a [string]: one [ascii] per code unit (code
      units below 256).
    - A JavaScript value that came in as JSON is a [JSON]; an object is the
      list of its own enumerable properties in enumeration order.
    - [null]/[undefined] fields of the server are [option string]; the
      JavaScript truth test of such a field is [truthy].
    - Node's [path] module, the file system, the environment and the child
      processes are not code of the repository: they are the fields of a
      [Host] record, and the state of the machine is threaded through every
      call. *)

From Stdlib Require Import String Ascii List Bool Arith NArith Lia DecimalString.
From Stdlib Require Import DecimalN DecimalPos.
From stdpp Require Import base strings gmap list.

Local Open Scope string_scope.
Local Open Scope list_scope.
Set Warnings "-register-all".
#[local] Arguments String.append !s1 s2 : simpl nomatch.

(** ** Strings *)

Module Str.

Definition dq : string := String (ascii_of_nat 34) EmptyString.
Definition nl : string := String (ascii_of_nat 10) EmptyString.

(** [s.includes(needle)] *)
Fixpoint includes (needle s : string) : bool :=
  String.prefix needle s ||
  match s with
  | EmptyString => false
  | String _ s' => includes needle s'
  end.

(** [s.startsWith(p)] *)
Definition startsWith (p s : string) : bool := String.prefix p s.

(** [s.replace(/[class]/g, f)] for a character class [cls] and a
    replacement computed from the matched character. *)
Fixpoint replaceAll (cls : ascii -> bool) (f : ascii -> string) (s : string) : string :=
  match s with
  | EmptyString => EmptyString
  | String c s' =>
      (if cls c then f c else String c EmptyString) +:+ replaceAll cls f s'
  end.

Definition isUpper (c : ascii) : bool :=
  let n := nat_of_ascii c in (65 <=? n)%nat && (n <=? 90)%nat.

Definition toLowerChar (c : ascii) : ascii :=
  if isUpper c then ascii_of_nat (nat_of_ascii c + 32) else c.

(** White space of [String.prototype.trim] among the code units below 256. *)
Definition isSpace (c : ascii) : bool :=
  let n := nat_of_ascii c in
  ((9 <=? n)%nat && (n <=? 13)%nat) || (n =? 32)%nat || (n =? 160)%nat.

Fixpoint trimStart (s : string) : string :=
  match s with
  | String c s' => if isSpace c then trimStart s' else s
  | EmptyString => EmptyString
  end.

Fixpoint rev_acc (s acc : string) : string :=
  match s with
  | EmptyString => acc
  | String c s' => rev_acc s' (String c acc)
  end.

Definition rev (s : string) : string := rev_acc s EmptyString.

Definition trim (s : string) : string := rev (trimStart (rev (trimStart s))).

(** [s.split(sep)] for a one-character separator: never the empty list. *)
Fixpoint split_go (sep : ascii) (s cur : string) : list string :=
  match s with
  | EmptyString => [rev cur]
  | String c s' =>
      if Ascii.eqb c sep then rev cur :: split_go sep s' EmptyString
      else split_go sep s' (String c cur)
  end.

Definition split (sep : ascii) (s : string) : list string :=
  split_go sep s EmptyString.

(** [xs.join(sep)] *)
Definition join (sep : string) (xs : list string) : string := String.concat sep xs.

Definition ofN (n : N) : string := NilZero.string_of_uint (N.to_uint n).

End Str.

(** The truth test [if (x)] on a field that holds a string, [null] or
    [undefined]: the empty string is false. *)
Definition truthy (o : option string) : bool :=
  match o with
  | Some s => negb (String.eqb s "")
  | None => false
  end.

(** ** JSON values and JavaScript objects *)

Inductive JSON : Type :=
| JNull
| JBool (b : bool)
| JNum (repr : string)   (* the number, as the text [String(n)] of it *)
| JStr (s : string)
| JArr (items : list JSON)
| JObj (props : list (string * JSON)).

Module Obj.

(** A property name that is an array index: the canonical decimal text of
    an integer below 2^32 - 1. Such names are enumerated first, in
    numeric order. *)
Definition indexOf (k : string) : option N :=
  match NilZero.uint_of_string k with
  | Some u =>
      let n := N.of_uint u in
      if String.eqb (Str.ofN n) k && (n <? 4294967295)%N then Some n else None
  | None => None
  end.

Fixpoint has {A} (k : string) (o : list (string * A)) : bool :=
  match o with
  | [] => false
  | (k', _) :: o' => String.eqb k k' || has k o'
  end.

(** [o[k]] on own properties *)
Fixpoint get {A} (k : string) (o : list (string * A)) : option A :=
  match o with
  | [] => None
  | (k', v) :: o' => if String.eqb k k' then Some v else get k o'
  end.

Fixpoint replace {A} (k : string) (v : A) (o : list (string * A)) : list (string * A) :=
  match o with
  | [] => []
  | (k', v') :: o' =>
      if String.eqb k k' then (k', v) :: o' else (k', v') :: replace k v o'
  end.

(** A new index property goes before the first property that is not an
    index or is a larger one. *)
Fixpoint insertIndex {A} (n : N) (k : string) (v : A) (o : list (string * A))
  : list (string * A) :=
  match o with
  | [] => [(k, v)]
  | (k', v') :: o' =>
      match indexOf k' with
      | Some n' =>
          if (n' <? n)%N then (k', v') :: insertIndex n k v o'
          else (k, v) :: o
      | None => (k, v) :: o
      end
  end.

(** [o[k] = v]: an existing property keeps its place, a new one is
    enumerated after the others (index names apart). *)
Definition set {A} (o : list (string * A)) (k : string) (v : A) : list (string * A) :=
  if has k o then replace k v o
  else match indexOf k with
       | Some n => insertIndex n k v o
       | None => o ++ [(k, v)]
       end.

(** [o[k] = v] on an object made by an object literal: the name
    [__proto__] is the accessor of [Object.prototype], so that assignment
    creates no property. *)
Definition assign {A} (o : list (string * A)) (k : string) (v : A) : list (string * A) :=
  if String.eqb k "__proto__" then o else set o k v.

(** The properties of an array that [for (key in a)] visits. *)
Fixpoint ofArray_go (i : N) (items : list JSON) : list (string * JSON) :=
  match items with
  | [] => []
  | x :: items' => (Str.ofN i, x) :: ofArray_go (i + 1)%N items'
  end.

Definition ofArray (items : list JSON) : list (string * JSON) := ofArray_go 0%N items.

(** What a lookup on a plain object finds on [Object.prototype] when the
    object has no own property of that name, as the property name the
    value turns into when it is used as a key: a native function prints
    as its source text, the prototype object as [[object Object]]. *)
Definition nativeFn (name : string) : string :=
  "function " +:+ name +:+ "() { [native code] }".

Definition inherited (k : string) : option string :=
  if String.eqb k "__proto__" then Some "[object Object]"
  else if String.eqb k "constructor" then Some (nativeFn "Object")
  else if existsb (String.eqb k)
            ["__defineGetter__"; "__defineSetter__"; "__lookupGetter__";
             "__lookupSetter__"; "hasOwnProperty"; "isPrototypeOf";
             "propertyIsEnumerable"; "toLocaleString"; "toString"; "valueOf"]
       then Some (nativeFn k)
  else None.

(** [table[k]] on a plain object whose own values are strings, when the
    result is truthy, as a property name. *)
Definition lookupKey (table : list (string * string)) (k : string) : option string :=
  match get k table with
  | Some v => if String.eqb v "" then None else Some v
  | None => inherited k
  end.

End Obj.

(** ** Parameter names *)

Definition parameterMappings : list (string * string) :=
  [ ("project_path", "projectPath");
    ("scene_path", "scenePath");
    ("root_node_type", "rootNodeType");
    ("parent_node_path", "parentNodePath");
    ("node_type", "nodeType");
    ("node_name", "nodeName");
    ("texture_path", "texturePath");
    ("node_path", "nodePath");
    ("output_path", "outputPath");
    ("mesh_item_names", "meshItemNames");
    ("new_path", "newPath");
    ("file_path", "filePath");
    ("directory", "directory");
    ("recursive", "recursive");
    ("scene", "scene") ].

(** The constructor's loop
    [for ([snake, camel] of Object.entries(parameterMappings)) reverse[camel] = snake]. *)
Definition reverseParameterMappings : list (string * string) :=
  fold_left (fun rev '(snakeCase, camelCase) => Obj.assign rev camelCase snakeCase)
            parameterMappings [].

Definition normalizedKey (key : string) : string :=
  if Str.includes "_" key then
    match Obj.lookupKey parameterMappings key with
    | Some k => k
    | None => key
    end
  else key.

Definition isPlainObject (v : JSON) : bool :=
  match v with JObj _ => true | _ => false end.

(** The loop of both conversions,
    [for (key in params) result[keyOf(key)] = conv(params[key])]. *)
Fixpoint renameProps (keyOf : string -> string) (conv : JSON -> JSON)
    (props : list (string * JSON)) (result : list (string * JSON))
  : list (string * JSON) :=
  match props with
  | [] => result
  | (key, v) :: rest =>
      renameProps keyOf conv rest (Obj.assign result (keyOf key) (conv v))
  end.

(** [normalizeParameters] on a property value: it recurses into a value
    that is an object, not [null] and not an array; any other value is
    stored as it is. *)
Fixpoint normalizeNested (v : JSON) : JSON :=
  match v with
  | JObj props => JObj (renameProps normalizedKey normalizeNested props [])
  | _ => v
  end.

(** [normalizeParameters(params)]: [null], [undefined] and values that are
    not objects are returned as they are; an array given as [params] is an
    object too, and the loop visits its indices. *)
Definition normalizeParameters (params : JSON) : JSON :=
  match params with
  | JObj props => JObj (renameProps normalizedKey normalizeNested props [])
  | JArr items => JObj (renameProps normalizedKey normalizeNested (Obj.ofArray items) [])
  | _ => params
  end.

Definition snakeKey (key : string) : string :=
  match Obj.lookupKey reverseParameterMappings key with
  | Some k => k
  | None =>
      Str.replaceAll Str.isUpper
        (fun letter => "_" +:+ String (Str.toLowerChar letter) EmptyString) key
  end.

Fixpoint convertNested (v : JSON) : JSON :=
  match v with
  | JObj props => JObj (renameProps snakeKey convertNested props [])
  | _ => v
  end.

(** [convertCamelToSnakeCase(params)]: the handlers call it on objects. *)
Definition convertCamelToSnakeCase (params : list (string * JSON)) : JSON :=
  JObj (renameProps snakeKey convertNested params []).

(** ** JSON.stringify *)

Module Json.

Definition hexDigit (n : nat) : ascii :=
  ascii_of_nat (if (n <? 10)%nat then 48 + n else 87 + n).

(** One character inside a JSON string literal. *)
Definition escapeChar (c : ascii) : string :=
  let n := nat_of_ascii c in
  if (n =? 34)%nat then "\" +:+ Str.dq
  else if (n =? 92)%nat then "\\"
  else if (n =? 8)%nat then "\b"
  else if (n =? 9)%nat then "\t"
  else if (n =? 10)%nat then "\n"
  else if (n =? 12)%nat then "\f"
  else if (n =? 13)%nat then "\r"
  else if (n <? 32)%nat then
    "\u00" +:+ String (hexDigit (n / 16)) (String (hexDigit (n mod 16)) EmptyString)
  else String c EmptyString.

Definition quote (s : string) : string :=
  Str.dq +:+ Str.replaceAll (fun _ => true) escapeChar s +:+ Str.dq.

(** [JSON.stringify(v, null, gap)] with [indent] the current indentation;
    [gap] is empty when no third argument is given. *)
Fixpoint stringifyAt (gap indent : string) (v : JSON) : string :=
  let inner := indent +:+ gap in
  let wrap (open close : string) (parts : list string) : string :=
    match parts with
    | [] => open +:+ close
    | _ =>
        if String.eqb gap "" then open +:+ Str.join "," parts +:+ close
        else open +:+ Str.nl +:+ inner
             +:+ Str.join ("," +:+ Str.nl +:+ inner) parts
             +:+ Str.nl +:+ indent +:+ close
    end in
  match v with
  | JNull => "null"
  | JBool true => "true"
  | JBool false => "false"
  | JNum repr => repr
  | JStr s => quote s
  | JArr items => wrap "[" "]" (map (stringifyAt gap inner) items)
  | JObj props =>
      wrap "{" "}"
        (map (fun kv : string * JSON =>
                quote (fst kv) +:+ (if String.eqb gap "" then ":" else ": ")
                +:+ stringifyAt gap inner (snd kv)) props)
  end.

(** [JSON.stringify(v)] *)
Definition stringify (v : JSON) : string := stringifyAt "" "" v.

(** [JSON.stringify(v, null, 2)] *)
Definition stringify2 (v : JSON) : string := stringifyAt "  " "" v.

Definition ofOption (o : option string) : JSON :=
  match o with Some s => JStr s | None => JNull end.

End Json.

(** ** Quoting of the JSON argument in [executeOperation] *)

Definition isSingleQuote (c : ascii) : bool := (nat_of_ascii c =? 39)%nat.
Definition isDoubleQuote (c : ascii) : bool := (nat_of_ascii c =? 34)%nat.

(** [paramsJson.replace(/'/g, "'\\''")] *)
Definition escapedParams (paramsJson : string) : string :=
  Str.replaceAll isSingleQuote (fun _ => "'\''") paramsJson.

Definition quotedParams (isWindows : bool) (paramsJson : string) : string :=
  if isWindows
  then Str.dq +:+ Str.replaceAll isDoubleQuote (fun _ => "\" +:+ Str.dq) paramsJson +:+ Str.dq
  else "'" +:+ escapedParams paramsJson +:+ "'".

Definition GODOT_DEBUG_MODE : bool := true.

(** The array of [executeOperation] that is joined with spaces into the
    command. *)
Definition operationArgv (platform godotPath projectPath operationsScriptPath operation : string)
    (params : list (string * JSON)) : list string :=
  let snakeCaseParams := convertCamelToSnakeCase params in
  let paramsJson := Json.stringify snakeCaseParams in
  let isWindows := String.eqb platform "win32" in
  let debugArgs := if GODOT_DEBUG_MODE then ["--debug-godot"] else [] in
  [ Str.dq +:+ godotPath +:+ Str.dq;
    "--headless";
    "--path";
    Str.dq +:+ projectPath +:+ Str.dq;
    "--script";
    Str.dq +:+ operationsScriptPath +:+ Str.dq;
    operation;
    quotedParams isWindows paramsJson ] ++ debugArgs.

Definition operationCommand (platform godotPath projectPath operationsScriptPath operation : string)
    (params : list (string * JSON)) : string :=
  Str.join " " (operationArgv platform godotPath projectPath operationsScriptPath operation params).

(** ** The host: Node, the operating system and the environment *)

(** Outcome of [execAsync(command)]: the promise resolves with the two
    output texts, or rejects with an error that carries them. *)
Inductive ExecResult : Type :=
| ExecOk (stdout stderr : string)
| ExecError (message stdout stderr : string).

(** Outcome of a spawned Python child in [runPythonScript]: its [close]
    event, with the exit code or [null], or its [error] event. *)
Inductive PythonResult : Type :=
| PyClosed (stdout stderr : string) (code : option nat)
| PyError (message : string).

Record Config : Type := mkConfig {
  cfg_godotPath : option string;
  cfg_portalSdkPath : option string;
  cfg_portalProjectPath : option string;
  cfg_fbExportDataPath : option string;
  cfg_pythonPath : option string;
  cfg_strictPathValidation : option bool;
  cfg_debugMode : option bool;
}.

Class Host : Type := {
  OS : Type;                                   (* files and processes of the machine *)
  platform : string;                           (* process.platform *)
  getenv : string -> option string;            (* process.env *)
  cwd : string;                                (* process.cwd() *)
  scriptDir : string;                          (* __dirname *)
  normalize : string -> string;                (* path.normalize *)
  join : list string -> string;                (* path.join *)
  dirname : string -> string;                  (* path.dirname *)
  basename : string -> string;                 (* path.basename *)
  existsSync : OS -> string -> bool;
  mkdirSync : OS -> string -> string + OS;     (* { recursive: true }; inl: it throws *)
  execAsync : OS -> string -> ExecResult * OS;
  execFileVersion : OS -> string -> bool;      (* execFileAsync(command, ['--version']) resolves *)
  spawnPython : OS -> string -> list string -> PythonResult * OS;
  (* the directory scans: findGodotProjects(directory, recursive),
     getProjectStructureAsync(projectPath), the project name that
     handleGetProjectInfo reads from the project file (or the default), and
     the sorted levels that the loop of handleListPortalLevels collects from
     the levels directory for a project path and this.portalProjectPath
     (inl: reading the directory throws) *)
  scanProjects : OS -> string -> bool -> JSON;
  scanStructure : OS -> string -> JSON;
  scanProjectName : OS -> string -> string -> string;
  scanLevels : OS -> string -> option string -> option string -> string + list JSON;
}.

(** What the server did to the machine, in order. *)
Inductive Event : Type :=
| EvExists (path : string)
| EvMkdir (path : string)
| EvScan (path : string)
| EvExec (command : string)
| EvExecFile (file : string) (args : list string)
| EvSpawn (file : string) (args : list string)
| EvKill (handle : nat).

(** A child started by [handleRunProject]: the two arrays its listeners
    push to, and whether [kill()] was called on it. The handle of a child
    is its index in [children]. *)
Record Child : Type := mkChild {
  output : list string;
  errors : list string;
  killed : bool;
  argv : list string;
}.

(** What a method call ends with: a value, or an exception and its message. *)
Inductive Result (A : Type) : Type :=
| Ok (a : A)
| Throw (message : string).
Arguments Ok {A} a.
Arguments Throw {A} message.

Section Server.

Context `{H : Host}.

(** The fields of [GodotServer], then the machine. [activeProcess] is the
    object [{ process, output, errors }]: the handle of the child, whose
    arrays are those of [children]. *)
Record St : Type := mkSt {
  activeProcess : option nat;
  godotPath : option string;
  validatedPaths : gmap string bool;
  strictPathValidation : bool;
  portalSdkPath : option string;
  portalProjectPath : option string;
  fbExportDataPath : option string;
  pythonCommand : option string;
  initialConfig : option Config;
  children : list Child;
  os : OS;
  trace : list Event;
  console : list string;
}.

(** [console] holds, in order, the lines that the constructor,
    [isValidGodotPathSync], [isValidGodotPath], [detectPortalPaths],
    [detectGodotPath] and [run] write to the console, their debug lines
    included. What the other methods write is not recorded: the debug
    lines of [setGodotPath], of the Python check and of the handlers, and
    the lines of [createErrorResponse] and of the listeners of a child. *)

Definition set_activeProcess (v : option nat) (s : St) : St :=
  mkSt v (godotPath s) (validatedPaths s) (strictPathValidation s) (portalSdkPath s)
       (portalProjectPath s) (fbExportDataPath s) (pythonCommand s) (initialConfig s)
       (children s) (os s) (trace s) (console s).
Definition set_strictPathValidation (v : bool) (s : St) : St :=
  mkSt (activeProcess s) (godotPath s) (validatedPaths s) v (portalSdkPath s)
       (portalProjectPath s) (fbExportDataPath s) (pythonCommand s) (initialConfig s)
       (children s) (os s) (trace s) (console s).
Definition set_initialConfig (v : option Config) (s : St) : St :=
  mkSt (activeProcess s) (godotPath s) (validatedPaths s) (strictPathValidation s)
       (portalSdkPath s) (portalProjectPath s) (fbExportDataPath s) (pythonCommand s) v
       (children s) (os s) (trace s) (console s).
Definition set_godotPath (v : option string) (s : St) : St :=
  mkSt (activeProcess s) v (validatedPaths s) (strictPathValidation s) (portalSdkPath s)
       (portalProjectPath s) (fbExportDataPath s) (pythonCommand s) (initialConfig s)
       (children s) (os s) (trace s) (console s).
Definition set_validatedPaths (v : gmap string bool) (s : St) : St :=
  mkSt (activeProcess s) (godotPath s) v (strictPathValidation s) (portalSdkPath s)
       (portalProjectPath s) (fbExportDataPath s) (pythonCommand s) (initialConfig s)
       (children s) (os s) (trace s) (console s).
Definition set_portalSdkPath (v : option string) (s : St) : St :=
  mkSt (activeProcess s) (godotPath s) (validatedPaths s) (strictPathValidation s) v
       (portalProjectPath s) (fbExportDataPath s) (pythonCommand s) (initialConfig s)
       (children s) (os s) (trace s) (console s).
Definition set_portalProjectPath (v : option string) (s : St) : St :=
  mkSt (activeProcess s) (godotPath s) (validatedPaths s) (strictPathValidation s)
       (portalSdkPath s) v (fbExportDataPath s) (pythonCommand s) (initialConfig s)
       (children s) (os s) (trace s) (console s).
Definition set_fbExportDataPath (v : option string) (s : St) : St :=
  mkSt (activeProcess s) (godotPath s) (validatedPaths s) (strictPathValidation s)
       (portalSdkPath s) (portalProjectPath s) v (pythonCommand s) (initialConfig s)
       (children s) (os s) (trace s) (console s).
Definition set_pythonCommand (v : option string) (s : St) : St :=
  mkSt (activeProcess s) (godotPath s) (validatedPaths s) (strictPathValidation s)
       (portalSdkPath s) (portalProjectPath s) (fbExportDataPath s) v (initialConfig s)
       (children s) (os s) (trace s) (console s).
Definition set_children (v : list Child) (s : St) : St :=
  mkSt (activeProcess s) (godotPath s) (validatedPaths s) (strictPathValidation s)
       (portalSdkPath s) (portalProjectPath s) (fbExportDataPath s) (pythonCommand s)
       (initialConfig s) v (os s) (trace s) (console s).
Definition set_os (v : OS) (s : St) : St :=
  mkSt (activeProcess s) (godotPath s) (validatedPaths s) (strictPathValidation s)
       (portalSdkPath s) (portalProjectPath s) (fbExportDataPath s) (pythonCommand s)
       (initialConfig s) (children s) v (trace s) (console s).
Definition emit (evs : list Event) (s : St) : St :=
  mkSt (activeProcess s) (godotPath s) (validatedPaths s) (strictPathValidation s)
       (portalSdkPath s) (portalProjectPath s) (fbExportDataPath s) (pythonCommand s)
       (initialConfig s) (children s) (os s) (trace s ++ evs) (console s).
Definition print (lines : list string) (s : St) : St :=
  mkSt (activeProcess s) (godotPath s) (validatedPaths s) (strictPathValidation s)
       (portalSdkPath s) (portalProjectPath s) (fbExportDataPath s) (pythonCommand s)
       (initialConfig s) (children s) (os s) (trace s) (console s ++ lines).

(** *** A state and exception monad for the methods *)

Definition M (A : Type) : Type := St -> Result A * St.

Definition ret {A} (a : A) : M A := fun s => (Ok a, s).
Definition throw {A} (message : string) : M A := fun s => (Throw message, s).
Definition bind {A B} (m : M A) (k : A -> M B) : M B :=
  fun s => match m s with
           | (Ok a, s') => k a s'
           | (Throw e, s') => (Throw e, s')
           end.
Definition gets {A} (f : St -> A) : M A := fun s => (Ok (f s), s).
Definition modify (f : St -> St) : M unit := fun s => (Ok tt, f s).
(** [try { body } catch (error) { handler(error.message) }] *)
Definition tryCatch {A} (body : M A) (handler : string -> M A) : M A :=
  fun s => match body s with
           | (Ok a, s') => (Ok a, s')
           | (Throw e, s') => handler e s'
           end.

#[export] Instance M_ret : MRet M := @ret.
#[export] Instance M_bind : MBind M := fun A B k m => bind m k.

(** *** Debug lines *)

(** [const DEBUG_MODE = process.env.DEBUG === 'true'] *)
Definition DEBUG_MODE : bool :=
  match getenv "DEBUG" with
  | Some value => String.eqb value "true"
  | None => false
  end.

(** What [logDebug(message)] writes: one line when [DEBUG_MODE] holds. *)
Definition debugLines (message : string) : list string :=
  if DEBUG_MODE then ["[DEBUG] " +:+ message] else [].

(** [logDebug(message)] *)
Definition logDebug (message : string) : M unit :=
  modify (print (debugLines message)).

(** [`${error}`] for an [Error] with this message *)
Definition errorText (message : string) : string :=
  if String.eqb message "" then "Error" else "Error: " +:+ message.

(** *** Reading the file system

    A method that only reads the file system returns its value together
    with the reads it made, in order. *)

Definition Logged (A : Type) : Type := A * list Event.

Definition exists_ (o : OS) (path : string) : Logged bool :=
  (existsSync o path, [EvExists path]).

(** [a && b]: [b] is evaluated only when [a] holds. *)
Definition andAlso (a b : Logged bool) : Logged bool :=
  if fst a then (fst b, snd a ++ snd b) else (false, snd a).

Definition opt (o : option string) : string :=
  match o with Some s => s | None => EmptyString end.

(** [config?.field] *)
Definition cfg (c : option Config) (field : Config -> option string) : option string :=
  match c with Some c => field c | None => None end.

(** ** Portal SDK directories *)

Definition isValidPortalSdkRoot (o : OS) (pathToCheck : string) : Logged bool :=
  if String.eqb pathToCheck "" then (false, [])
  else
    let sdkDir := join [pathToCheck; "SDK"] in
    let projectDir := join [pathToCheck; "GodotProject"] in
    let fbExportDir := join [pathToCheck; "SDK"; "deps"; "FbExportData"] in
    andAlso (andAlso (andAlso (exists_ o sdkDir) (exists_ o projectDir))
                     (exists_ o (join [projectDir; "project.godot"])))
            (exists_ o fbExportDir).

(** The loop of [resolvePortalSdkRootFrom]; [fuel] bounds its iterations. *)
Fixpoint walkUp (fuel : nat) (o : OS) (current : string) (visited : list string)
  : Logged (option string) :=
  match fuel with
  | 0 => (None, [])
  | S fuel' =>
      if existsb (String.eqb current) visited then (None, [])
      else
        let v1 := isValidPortalSdkRoot o current in
        if fst v1 then (Some current, snd v1)
        else
          let candidate := join [current; "PortalSDK"] in
          let v2 := isValidPortalSdkRoot o candidate in
          if fst v2 then (Some candidate, snd v1 ++ snd v2)
          else
            let parent := dirname current in
            if String.eqb parent current then (None, snd v1 ++ snd v2)
            else
              let r := walkUp fuel' o parent (current :: visited) in
              (fst r, snd v1 ++ snd v2 ++ snd r)
  end.

(** [resolvePortalSdkRootFrom(startDir)]. Every step to the parent removes
    a character of the path, the last step to ["."] or ["/"] apart, so the
    loop ends within the length of the path plus two iterations. *)
Definition resolvePortalSdkRootFrom (o : OS) (startDir : string) : Logged (option string) :=
  if String.eqb startDir "" then (None, [])
  else
    let current := normalize startDir in
    walkUp (String.length current + 2) o current [].

(** [addCandidate(candidate)] on the array [candidateRoots] *)
Definition addCandidate (candidateRoots : list string) (candidate : option string)
  : list string :=
  if truthy candidate then
    let normalized := normalize (opt candidate) in
    if existsb (String.eqb normalized) candidateRoots then candidateRoots
    else candidateRoots ++ [normalized]
  else candidateRoots.

(** [for (const dir of searchDirs) { resolved = ...; if (resolved) addCandidate(resolved) }] *)
Fixpoint searchCandidates (o : OS) (searchDirs : list string) (candidateRoots : list string)
  : Logged (list string) :=
  match searchDirs with
  | [] => (candidateRoots, [])
  | dir :: rest =>
      let resolved := resolvePortalSdkRootFrom o dir in
      let r := searchCandidates o rest (addCandidate candidateRoots (fst resolved)) in
      (fst r, snd resolved ++ snd r)
  end.

(** [for (const candidate of candidateRoots) if (isValid(candidate)) { ...; break }] *)
Fixpoint firstValidRoot (o : OS) (candidateRoots : list string) : Logged (option string) :=
  match candidateRoots with
  | [] => (None, [])
  | candidate :: rest =>
      let v := isValidPortalSdkRoot o candidate in
      if fst v then (Some candidate, snd v)
      else let r := firstValidRoot o rest in (fst r, snd v ++ snd r)
  end.

(** The candidate roots of [detectPortalPaths], in the order they are
    tried. *)
Definition candidateRoots (s : St) : Logged (list string) :=
  let config := initialConfig s in
  let c1 :=
    if negb (truthy (portalSdkPath s)) && truthy (cfg config cfg_portalSdkPath)
    then addCandidate [] (cfg config cfg_portalSdkPath)
    else if truthy (portalSdkPath s) then addCandidate [] (portalSdkPath s)
    else [] in
  let c2 :=
    if truthy (getenv "PORTAL_SDK_PATH") then addCandidate c1 (getenv "PORTAL_SDK_PATH")
    else c1 in
  searchCandidates (os s) [cwd; scriptDir; dirname scriptDir] c2.

(** A field that is taken from the configuration, then from the
    environment, when it is not set. *)
Definition overridden (field fromConfig fromEnv : option string) : option string :=
  let f1 := if negb (truthy field) && truthy fromConfig
            then Some (normalize (opt fromConfig)) else field in
  if negb (truthy f1) && truthy fromEnv then Some (normalize (opt fromEnv)) else f1.

Definition renormalized (field : option string) : option string :=
  if truthy field then Some (normalize (opt field)) else field.

(** [detectPortalPaths()]: always called without an argument, so that
    [config] is [this.initialConfig]. *)
Definition detectPortalPaths (s : St) : St :=
  let config := initialConfig s in
  let roots := candidateRoots s in
  let project1 := overridden (portalProjectPath s)
                    (cfg config cfg_portalProjectPath) (getenv "PORTAL_PROJECT_PATH") in
  let fb1 := overridden (fbExportDataPath s)
               (cfg config cfg_fbExportDataPath) (getenv "PORTAL_FB_EXPORT_PATH") in
  let found := firstValidRoot (os s) (fst roots) in
  let sdk := match fst found with Some c => Some c | None => portalSdkPath s end in
  let projectCandidate := normalize (join [opt sdk; "GodotProject"]) in
  let projectProbe :=
    if truthy sdk && negb (truthy project1)
    then exists_ (os s) (join [projectCandidate; "project.godot"]) else (false, []) in
  let project2 := if fst projectProbe then Some projectCandidate else project1 in
  let fbCandidate := normalize (join [opt sdk; "SDK"; "deps"; "FbExportData"]) in
  let fbProbe :=
    if truthy sdk && negb (truthy fb1) then exists_ (os s) fbCandidate else (false, []) in
  let fb2 := if fst fbProbe then Some fbCandidate else fb1 in
  let debugged :=
    match fst found with
    | Some candidate =>
        if negb (truthy (portalSdkPath s))
           || negb (String.eqb (opt (portalSdkPath s)) candidate)
        then debugLines ("Detected Portal SDK path: " +:+ candidate) else []
    | None => []
    end
    ++ (if fst projectProbe
        then debugLines ("Detected Portal project path: " +:+ projectCandidate) else [])
    ++ (if fst fbProbe
        then debugLines ("Detected Portal FbExportData path: " +:+ fbCandidate) else []) in
  print debugged
    (emit (snd roots ++ snd found ++ snd projectProbe ++ snd fbProbe)
       (set_fbExportDataPath (renormalized fb2)
          (set_portalProjectPath (renormalized project2)
             (set_portalSdkPath sdk s)))).

(** ** The Godot executable *)

(** [existsSync(path)] inside a method that also writes; recorded. *)
Definition existsM (path : string) : M bool :=
  fun s => (Ok (existsSync (os s) path), emit [EvExists path] s).

(** [isValidGodotPathSync(path)] *)
Definition isValidGodotPathSync (path : string) : M bool :=
  logDebug ("Quick-validating Godot path: " +:+ path) ;;
  if String.eqb path "godot" then mret true else existsM path.

(** [await execAsync(command)], recorded *)
Definition exec (command : string) : M ExecResult :=
  fun s => let r := execAsync (os s) command in
           (Ok (fst r), emit [EvExec command] (set_os (snd r) s)).

Definition cacheVerdict (path : string) (valid : bool) : M bool :=
  modify (fun s => set_validatedPaths (<[path := valid]> (validatedPaths s)) s) ;;
  mret valid.

(** [isValidGodotPath(path)] *)
Definition isValidGodotPath (path : string) : M bool :=
  cache ← gets validatedPaths;
  match cache !! path with
  | Some verdict => mret verdict
  | None =>
      logDebug ("Validating Godot path: " +:+ path) ;;
      missing ← (if negb (String.eqb path "godot")
                 then fun s => (Ok (negb (existsSync (os s) path)), emit [EvExists path] s)
                 else mret false);
      if missing : bool then
        logDebug ("Path does not exist: " +:+ path) ;;
        cacheVerdict path false
      else
        let command := if String.eqb path "godot" then "godot --version"
                       else Str.dq +:+ path +:+ Str.dq +:+ " --version" in
        r ← exec command;
        match r with
        | ExecOk _ _ =>
            logDebug ("Valid Godot path: " +:+ path) ;;
            cacheVerdict path true
        | ExecError message _ _ =>
            logDebug ("Invalid Godot path: " +:+ path +:+ ", error: " +:+ errorText message) ;;
            cacheVerdict path false
        end
  end.

(** [`${process.env.NAME}`] *)
Definition envText (name : string) : string :=
  match getenv name with Some v => v | None => "undefined" end.

(** The array [possiblePaths] of [detectGodotPath] *)
Definition possiblePaths : list string :=
  "godot" ::
  (if String.eqb platform "darwin" then
     [ "/Applications/Godot.app/Contents/MacOS/Godot";
       "/Applications/Godot_4.app/Contents/MacOS/Godot";
       envText "HOME" +:+ "/Applications/Godot.app/Contents/MacOS/Godot";
       envText "HOME" +:+ "/Applications/Godot_4.app/Contents/MacOS/Godot";
       envText "HOME" +:+ "/Library/Application Support/Steam/steamapps/common/Godot Engine/Godot.app/Contents/MacOS/Godot" ]
   else if String.eqb platform "win32" then
     [ "C:\Program Files\Godot\Godot.exe";
       "C:\Program Files (x86)\Godot\Godot.exe";
       "C:\Program Files\Godot_4\Godot.exe";
       "C:\Program Files (x86)\Godot_4\Godot.exe";
       envText "USERPROFILE" +:+ "\Godot\Godot.exe" ]
   else if String.eqb platform "linux" then
     [ "/usr/bin/godot";
       "/usr/local/bin/godot";
       "/snap/bin/godot";
       envText "HOME" +:+ "/.local/bin/godot" ]
   else []).

(** The fallback of the non-strict mode *)
Definition defaultGodotPath : string :=
  if String.eqb platform "win32" then normalize "C:\Program Files\Godot\Godot.exe"
  else if String.eqb platform "darwin" then normalize "/Applications/Godot.app/Contents/MacOS/Godot"
  else normalize "/usr/bin/godot".

(** [for (const path of possiblePaths) { if (valid) { this.godotPath = ...; return } }]:
    [true] when the method returned from inside the loop. *)
Fixpoint tryPaths (paths : list string) : M bool :=
  match paths with
  | [] => mret false
  | path :: rest =>
      let normalizedPath := normalize path in
      valid ← isValidGodotPath normalizedPath;
      if valid : bool then
        modify (set_godotPath (Some normalizedPath)) ;;
        logDebug ("Found Godot at: " +:+ normalizedPath) ;;
        mret true
      else tryPaths rest
  end.

Definition notFoundError : string :=
  "Could not find a valid Godot executable. Set GODOT_PATH or provide a valid path in config.".

Definition notFoundWarnings : list string :=
  [ "[SERVER] Could not find Godot in common locations for " +:+ platform;
    "[SERVER] Set GODOT_PATH=/path/to/godot environment variable or pass { godotPath: '/path/to/godot' } in the config to specify the correct path." ].

Definition fallbackWarnings : list string :=
  [ "[SERVER] Using default path: " +:+ defaultGodotPath +:+ ", but this may not work.";
    "[SERVER] This fallback behavior will be removed in a future version. Set strictPathValidation: true to opt-in to the new behavior." ].

(** [detectGodotPath()] *)
Definition detectGodotPath : M unit :=
  current ← gets godotPath;
  kept ← (if truthy current then isValidGodotPath (opt current) else mret false);
  if kept : bool then logDebug ("Using existing Godot path: " +:+ opt current)
  else
    fromEnv ← (if truthy (getenv "GODOT_PATH") then
                 let normalizedPath := normalize (opt (getenv "GODOT_PATH")) in
                 logDebug ("Checking GODOT_PATH environment variable: " +:+ normalizedPath) ;;
                 valid ← isValidGodotPath normalizedPath;
                 if valid : bool
                 then
                   modify (set_godotPath (Some normalizedPath)) ;;
                   logDebug ("Using Godot path from environment: " +:+ normalizedPath) ;;
                   mret true
                 else
                   logDebug "GODOT_PATH environment variable is invalid" ;;
                   mret false
               else mret false);
    if fromEnv : bool then mret tt
    else
      logDebug ("Auto-detecting Godot path for platform: " +:+ platform) ;;
      found ← tryPaths possiblePaths;
      if found : bool then mret tt
      else
        logDebug ("Warning: Could not find Godot in common locations for " +:+ platform) ;;
        modify (print notFoundWarnings) ;;
        strict ← gets strictPathValidation;
        if strict : bool then throw notFoundError
        else
          modify (set_godotPath (Some defaultGodotPath)) ;;
          logDebug ("Using default path: " +:+ defaultGodotPath +:+ ", but this may not work.") ;;
          modify (print fallbackWarnings).

(** [setGodotPath(customPath)]; its own two debug lines are left out. *)
Definition setGodotPath (customPath : string) : M bool :=
  if String.eqb customPath "" then mret false
  else
    let normalizedPath := normalize customPath in
    valid ← isValidGodotPath normalizedPath;
    if valid : bool then modify (set_godotPath (Some normalizedPath)) ;; mret true
    else mret false.

(** How [run()] ends: [process.exit(code)], or the server connected to its
    transport and serving requests. *)
Inductive RunOutcome : Type :=
| Exit (code : nat)
| Serving.

(** [run()]; the transport is taken to connect. *)
Definition run : St -> RunOutcome * St :=
  fun s =>
    let body : M RunOutcome :=
      detectGodotPath ;;
      g ← gets godotPath;
      if negb (truthy g) then
        modify (print [ "[SERVER] Failed to find a valid Godot executable path";
                        "[SERVER] Please set GODOT_PATH environment variable or provide a valid path" ]) ;;
        mret (Exit 1)
      else
        isValid ← isValidGodotPath (opt g);
        strict ← gets strictPathValidation;
        if negb isValid && strict then
          modify (print [ "[SERVER] Invalid Godot path: " +:+ opt g;
                          "[SERVER] Please set a valid GODOT_PATH environment variable or provide a valid path" ]) ;;
          mret (Exit 1)
        else
          modify (print
            ((if negb isValid then
                [ "[SERVER] Warning: Using potentially invalid Godot path: " +:+ opt g;
                  "[SERVER] This may cause issues when executing Godot commands";
                  "[SERVER] This fallback behavior will be removed in a future version. Set strictPathValidation: true to opt-in to the new behavior." ]
              else [])
             ++ [ "[SERVER] Using Godot at: " +:+ opt g;
                  "Battlefield 6 Portal MCP server running on stdio" ])) ;;
          mret Serving in
    match body s with
    | (Ok outcome, s') => (outcome, s')
    | (Throw errorMessage, s') =>
        (Exit 1, print ["[SERVER] Failed to start: " +:+ errorMessage] s')
    end.

(** The fields as the class declares them, before the constructor body
    runs. *)
Definition declaredFields (o : OS) : St :=
  {| activeProcess := None;
     godotPath := None;
     validatedPaths := ∅;
     strictPathValidation := false;
     portalSdkPath := None;
     portalProjectPath := None;
     fbExportDataPath := None;
     pythonCommand := None;
     initialConfig := None;
     children := [];
     os := o;
     trace := [];
     console := [] |}.

(** [join(__dirname, 'scripts', 'godot_operations.gd')] *)
Definition operationsScriptPath : string :=
  join [scriptDir; "scripts"; "godot_operations.gd"].

(** The constructor's block for [config.godotPath]: the path is stored
    normalised, checked at once, and reset when the check fails. *)
Definition customGodotPath (given : option string) : M unit :=
  if truthy given then
    let normalizedPath := normalize (opt given) in
    modify (set_godotPath (Some normalizedPath)) ;;
    logDebug ("Custom Godot path provided: " +:+ normalizedPath) ;;
    valid ← isValidGodotPathSync normalizedPath;
    if negb valid then
      modify (print ["[SERVER] Invalid custom Godot path provided: " +:+ normalizedPath]) ;;
      modify (set_godotPath None)
    else mret tt
  else mret tt.

(** The body of the constructor. The local [godotDebugMode] is read from
    the configuration and used nowhere. *)
Definition constructor (config : option Config) : M unit :=
  modify (set_initialConfig config) ;;
  let debugMode := match config with
                   | Some c => default DEBUG_MODE (cfg_debugMode c)
                   | None => DEBUG_MODE
                   end in
  match config with
  | Some c =>
      match cfg_strictPathValidation c with
      | Some strict => modify (set_strictPathValidation strict)
      | None => mret tt
      end ;;
      customGodotPath (cfg_godotPath c) ;;
      (if truthy (cfg_portalSdkPath c) then
         let normalizedPath := normalize (opt (cfg_portalSdkPath c)) in
         modify (set_portalSdkPath (Some normalizedPath)) ;;
         logDebug ("Custom Portal SDK path provided: " +:+ normalizedPath)
       else mret tt) ;;
      (if truthy (cfg_portalProjectPath c) then
         let normalizedPath := normalize (opt (cfg_portalProjectPath c)) in
         modify (set_portalProjectPath (Some normalizedPath)) ;;
         logDebug ("Custom Portal project path provided: " +:+ normalizedPath)
       else mret tt) ;;
      (if truthy (cfg_fbExportDataPath c) then
         let normalizedPath := normalize (opt (cfg_fbExportDataPath c)) in
         modify (set_fbExportDataPath (Some normalizedPath)) ;;
         logDebug ("Custom Portal FbExportData path provided: " +:+ normalizedPath)
       else mret tt) ;;
      (if truthy (cfg_pythonPath c) then
         modify (set_pythonCommand (cfg_pythonPath c)) ;;
         logDebug ("Custom Python command provided: " +:+ opt (cfg_pythonPath c))
       else mret tt)
  | None => mret tt
  end ;;
  modify detectPortalPaths ;;
  if debugMode : bool
  then modify (print ["[DEBUG] Operations script path: " +:+ operationsScriptPath])
  else mret tt.

(** [new GodotServer(config)] on a machine in state [o] *)
Definition construct (config : option Config) (o : OS) : St :=
  snd (constructor config (declaredFields o)).

(** ** Values of request arguments *)

(** [if (v)] on a property that may be absent *)
Definition jsTruthy (v : option JSON) : bool :=
  match v with
  | None | Some JNull => false
  | Some (JBool b) => b
  | Some (JNum repr) => negb (String.eqb repr "0")
  | Some (JStr s) => negb (String.eqb s "")
  | Some (JArr _) | Some (JObj _) => true
  end.

(** [String(v)], as in a template literal *)
Fixpoint textOf (v : JSON) : string :=
  match v with
  | JNull => "null"
  | JBool true => "true"
  | JBool false => "false"
  | JNum repr => repr
  | JStr s => s
  | JArr items =>
      Str.join "," (map (fun x => match x with JNull => "" | _ => textOf x end) items)
  | JObj _ => "[object Object]"
  end.

Definition toText (v : option JSON) : string :=
  match v with Some v => textOf v | None => "undefined" end.

(** [args.name]: reading a property of [undefined] or [null] throws. *)
Definition getArg (args : option JSON) (name : string) : M (option JSON) :=
  match args with
  | None => throw ("Cannot read properties of undefined (reading '" +:+ name +:+ "')")
  | Some JNull => throw ("Cannot read properties of null (reading '" +:+ name +:+ "')")
  | Some (JObj props) => mret (Obj.get name props)
  | Some _ => mret None
  end.

(** A value handed to [normalize] or [join]: Node throws on anything but a
    string. *)
Definition pathString (v : option JSON) : M string :=
  match v with
  | Some (JStr s) => mret s
  | _ => throw ("The " +:+ Str.dq +:+ "path" +:+ Str.dq +:+ " argument must be of type string.")
  end.

(** ** Responses *)

Record Response : Type := mkResponse {
  content : list string;   (* the text of each content block *)
  isError : bool;
}.

(** [createErrorResponse(message, possibleSolutions)]; the lines it writes
    to the console are left out. *)
Definition createErrorResponse (message : string) (possibleSolutions : list string)
  : Response :=
  {| content :=
       message ::
       match possibleSolutions with
       | [] => []
       | _ => ["Possible solutions:" +:+ Str.nl +:+ "- "
               +:+ Str.join (Str.nl +:+ "- ") possibleSolutions]
       end;
     isError := true |}.

(** [{ content: [{ type: 'text', text }] }] *)
Definition textResponse (text : string) : Response :=
  {| content := [text]; isError := false |}.

Definition fail (message : string) (possibleSolutions : list string) : M Response :=
  mret (createErrorResponse message possibleSolutions).

(** [validatePath(path)]: a value without [includes] makes it throw, an
    array is searched for the element ['..']. *)
Definition validatePath (path : option JSON) : M bool :=
  if negb (jsTruthy path) then mret false
  else match path with
       | Some (JStr s) => mret (negb (Str.includes ".." s))
       | Some (JArr items) =>
           mret (negb (existsb (fun x => match x with
                                         | JStr s => String.eqb s ".."
                                         | _ => false
                                         end) items))
       | _ => throw "path.includes is not a function"
       end.

(** [a && !this.validatePath(a)] *)
Definition presentAndInvalid (a : option JSON) : M bool :=
  if jsTruthy a then ok ← validatePath a; mret (negb ok) else mret false.

(** [resolveProjectPath(providedPath)] *)
Definition resolveProjectPath (providedPath : option JSON) : M (option string) :=
  if jsTruthy providedPath then
    p ← pathString providedPath;
    mret (Some (normalize p))
  else
    modify detectPortalPaths ;;
    p ← gets portalProjectPath;
    mret (if truthy p then p else None).

(** [join(a, b)] where [b] comes from the request *)
Definition joinArg (a : string) (b : option JSON) : M string :=
  b ← pathString b; mret (join [a; b]).

(** *** Texts that the handlers repeat *)

Definition quotedDots : string := Str.dq +:+ ".." +:+ Str.dq.

Definition withoutDots (what : string) : list string :=
  ["Provide " +:+ what +:+ " without " +:+ quotedDots
   +:+ " or other potentially unsafe characters"].

Definition invalidProjectPath : M Response :=
  fail "Invalid project path" (withoutDots "a valid path").

Definition invalidPath : M Response :=
  fail "Invalid path" (withoutDots "valid paths").

Definition projectPathRequired : M Response :=
  fail "Project path is required"
    [ "Provide a valid path to a Godot project directory";
      "Ensure the Battlefield Portal SDK is installed and detectable" ].

Definition notAGodotProject (projectPath : string) : M Response :=
  fail ("Not a valid Godot project: " +:+ projectPath)
    [ "Ensure the path points to a directory containing a project.godot file";
      "Use list_projects to find valid Godot projects" ].

Definition godotNotFound : M Response :=
  fail "Could not find a valid Godot executable path"
    [ "Ensure Godot is installed correctly";
      "Set GODOT_PATH environment variable to specify the correct path" ].

Definition sceneMissing (scenePath : option JSON) : M Response :=
  fail ("Scene file does not exist: " +:+ toText scenePath)
    [ "Ensure the scene path is correct";
      "Use create_scene to create a new scene first" ].

Definition fbExportDataNotFound : M Response :=
  fail "FbExportData path not found"
    [ "Install or extract the Battlefield Portal SDK assets";
      "Provide fbExportDataPath pointing to SDK/deps/FbExportData" ].

Definition godotHints : list string :=
  [ "Ensure Godot is installed correctly";
    "Check if the GODOT_PATH environment variable is set correctly";
    "Verify the project path is accessible" ].

(** [error?.message || 'Unknown error'] *)
Definition messageOr (message : string) : string :=
  if String.eqb message "" then "Unknown error" else message.

(** [if (!this.godotPath) { await this.detectGodotPath(); if (!this.godotPath) ... }]:
    [true] when a path is set afterwards. *)
Definition ensureGodotPath : M bool :=
  g ← gets godotPath;
  if truthy g then mret true
  else detectGodotPath ;; g' ← gets godotPath; mret (truthy g').

(** [const { stdout } = await execAsync(command)] *)
Definition execStdout (command : string) : M string :=
  r ← exec command;
  match r with
  | ExecOk stdout _ => mret stdout
  | ExecError message _ _ => throw message
  end.

Definition versionCommand (godot : option string) : string :=
  Str.dq +:+ opt godot +:+ Str.dq +:+ " --version".

(** ** One-shot operations *)

(** [executeOperation(operation, params, projectPath)]: the two output texts,
    whether the command succeeded or not. *)
Definition executeOperation (operation : string) (params : list (string * JSON))
    (projectPath : string) : M (string * string) :=
  found ← ensureGodotPath;
  if negb found then throw "Could not find a valid Godot executable path"
  else
    g ← gets godotPath;
    r ← exec (operationCommand platform (opt g) projectPath operationsScriptPath
                operation params);
    match r with
    | ExecOk stdout stderr => mret (stdout, stderr)
    | ExecError _ stdout stderr => mret (stdout, stderr)
    end.

(** [isGodot44OrLater(version)]: the match of [/^(\d+)\.(\d+)/]. *)
Definition isDigit (c : ascii) : bool :=
  let n := nat_of_ascii c in (48 <=? n)%nat && (n <=? 57)%nat.

Fixpoint digitsPrefix (s : string) (value : N) (seen : bool) : option (N * string) :=
  match s with
  | String c s' =>
      if isDigit c
      then digitsPrefix s' (value * 10 + N.of_nat (nat_of_ascii c - 48))%N true
      else if seen then Some (value, s) else None
  | EmptyString => if seen then Some (value, s) else None
  end.

Definition isGodot44OrLater (version : string) : bool :=
  match digitsPrefix version 0%N false with
  | Some (major, String "." rest) =>
      match digitsPrefix rest 0%N false with
      | Some (minor, _) => (4 <? major)%N || ((major =? 4)%N && (4 <=? minor)%N)
      | None => false
      end
  | _ => false
  end.

(** ** The Python interpreter *)

(** [validatePythonCommand(command)] *)
Definition validatePythonCommand (command : string) : M bool :=
  fun s => (Ok (execFileVersion (os s) command),
            emit [EvExecFile command ["--version"]] s).

(** The loop of [ensurePythonCommand] over the candidates. *)
Fixpoint tryPython (candidates tested : list string) : M string :=
  match candidates with
  | [] => throw "Unable to locate a Python interpreter. Set PYTHON_PATH or pythonPath in the server configuration."
  | candidate :: rest =>
      if String.eqb candidate "" then tryPython rest tested
      else if existsb (String.eqb candidate) tested then tryPython rest tested
      else
        valid ← validatePythonCommand candidate;
        if valid : bool
        then modify (set_pythonCommand (Some candidate)) ;; mret candidate
        else tryPython rest (candidate :: tested)
  end.

(** [ensurePythonCommand()] *)
Definition ensurePythonCommand : M string :=
  current ← gets pythonCommand;
  kept ← (if truthy current then validatePythonCommand (opt current) else mret false);
  if kept : bool then mret (opt current)
  else
    config ← gets initialConfig;
    let fromConfig := cfg config cfg_pythonPath in
    let fromEnv := getenv "PYTHON_PATH" in
    tryPython ((if truthy fromConfig then [opt fromConfig] else [])
               ++ (if truthy fromEnv then [opt fromEnv] else [])
               ++ ["python3"; "python"]) [].

(** [runPythonScript(scriptPath, args)]: the two output texts and
    [code ?? 0]. *)
Definition runPythonScript (scriptPath : string) (args : list string)
  : M (string * string * nat) :=
  pythonCommand ← ensurePythonCommand;
  r ← (fun s => let r := spawnPython (os s) pythonCommand (scriptPath :: args) in
                (Ok (fst r),
                 emit [EvSpawn pythonCommand (scriptPath :: args)] (set_os (snd r) s)));
  match r with
  | PyClosed stdout stderr code => mret (stdout, stderr, default 0 code)
  | PyError message => throw message
  end.

(** [getGdConverterScriptPath(scriptName)] *)
Definition getGdConverterScriptPath (scriptName : string) : M (option string) :=
  modify detectPortalPaths ;;
  sdk ← gets portalSdkPath;
  if negb (truthy sdk) then mret None
  else
    let scriptPath :=
      join [opt sdk; "SDK"; "deps"; "gdconverter"; "src"; "gdconverter"; scriptName] in
    found ← existsM scriptPath;
    mret (if found : bool then Some (normalize scriptPath) else None).

(** [isAbsolutePath(path)]: [false] for the empty string *)
Definition isLetter (c : ascii) : bool :=
  let n := nat_of_ascii c in
  ((65 <=? n)%nat && (n <=? 90)%nat) || ((97 <=? n)%nat && (n <=? 122)%nat).

Definition isAbsolutePath (path : string) : bool :=
  if String.eqb path "" then false
  else
  Str.startsWith "/" path || Str.startsWith "res://" path ||
  match path with
  | String c (String ":" (String sep _)) =>
      isLetter c && (Ascii.eqb sep "\" || Ascii.eqb sep "/")
  | _ => false
  end.

(** [toAbsolutePath(basePath, targetPath)]: the empty string is returned
    as it is. *)
Definition toAbsolutePath (basePath targetPath : string) : string :=
  if String.eqb targetPath "" then targetPath
  else if Str.startsWith "res://" targetPath then
    normalize (join [basePath; String.substring 6 (String.length targetPath - 6) targetPath])
  else if isAbsolutePath targetPath then normalize targetPath
  else normalize (join [basePath; targetPath]).

(** ** The supervised child process *)

(** [spawn(this.godotPath, cmdArgs, { stdio: 'pipe' })] in [handleRunProject]:
    a new child with two empty arrays; [spawn] throws when the file is not a
    non-empty string. *)
Definition spawnChild (cmdArgs : list string) : M nat :=
  g ← gets godotPath;
  match g with
  | None =>
      throw ("The " +:+ Str.dq +:+ "file" +:+ Str.dq
             +:+ " argument must be of type string. Received null")
  | Some file =>
      if String.eqb file "" then throw "The argument 'file' cannot be empty. Received ''"
      else fun s =>
             (Ok (length (children s)),
              emit [EvSpawn file cmdArgs]
                (set_children (children s ++ [mkChild [] [] false cmdArgs]) s))
  end.

(** [process.kill()] *)
Definition kill (handle : nat) : M unit :=
  modify (fun s =>
    emit [EvKill handle]
      (set_children
         (alter (fun c => mkChild (output c) (errors c) true (argv c)) handle (children s))
         s)).

(** What a child does, as the listeners of [handleRunProject] see it. *)
Inductive ProcessEvent : Type :=
| StdoutData (handle : nat) (data : string)
| StderrData (handle : nat) (data : string)
| ProcessExit (handle : nat)
| ProcessError (handle : nat).

Definition newline : ascii := ascii_of_nat 10.

(** [if (this.activeProcess && this.activeProcess.process === process)
      this.activeProcess = null] *)
Definition clearIfActive (handle : nat) (s : St) : St :=
  match activeProcess s with
  | Some active => if Nat.eqb active handle then set_activeProcess None s else s
  | None => s
  end.

(** The listeners registered by [handleRunProject] for the child [handle]. *)
Definition deliver (e : ProcessEvent) (s : St) : St :=
  match e with
  | StdoutData handle data =>
      set_children
        (alter (fun c => mkChild (output c ++ Str.split newline data) (errors c)
                                 (killed c) (argv c)) handle (children s)) s
  | StderrData handle data =>
      set_children
        (alter (fun c => mkChild (output c) (errors c ++ Str.split newline data)
                                 (killed c) (argv c)) handle (children s)) s
  | ProcessExit handle => clearIfActive handle s
  | ProcessError handle => clearIfActive handle s
  end.

Definition linesJson (lines : list string) : JSON := JArr (map JStr lines).

(** ** The tool handlers *)

Definition normalizeArgs (args : option JSON) : option JSON :=
  option_map normalizeParameters args.

(** [typeof v === 'string' && v.trim()] *)
Definition nonBlankString (v : option JSON) : bool :=
  match v with
  | Some (JStr s) => negb (String.eqb (Str.trim s) "")
  | _ => false
  end.

Definition isTrue (v : option JSON) : bool :=
  match v with Some (JBool true) => true | _ => false end.

(** [stderr && stderr.includes('Failed to')] *)
Definition reportsFailure (stderr : string) : bool :=
  negb (String.eqb stderr "") && Str.includes "Failed to" stderr.

Definition handleLaunchEditor (args : option JSON) : M Response :=
  let args := normalizeArgs args in
  argProjectPath ← getArg args "projectPath";
  bad ← presentAndInvalid argProjectPath;
  if bad : bool then invalidProjectPath
  else
    projectPath ← resolveProjectPath argProjectPath;
    if negb (truthy projectPath) then projectPathRequired
    else
      let projectPath := opt projectPath in
      tryCatch
        (found ← ensureGodotPath;
         if negb found then godotNotFound
         else
           present ← existsM (join [projectPath; "project.godot"]);
           if negb present then notAGodotProject projectPath
           else
             g ← gets godotPath;
             modify (emit [EvSpawn (opt g) ["-e"; "--path"; projectPath]]) ;;
             mret (textResponse ("Godot editor launched successfully for project at "
                                 +:+ projectPath +:+ ".")))
        (fun errorMessage =>
           fail ("Failed to launch Godot editor: " +:+ errorMessage) godotHints).

Definition handleRunProject (args : option JSON) : M Response :=
  let args := normalizeArgs args in
  argProjectPath ← getArg args "projectPath";
  bad ← presentAndInvalid argProjectPath;
  if bad : bool then invalidProjectPath
  else
    projectPath ← resolveProjectPath argProjectPath;
    if negb (truthy projectPath) then projectPathRequired
    else
      let projectPath := opt projectPath in
      tryCatch
        (present ← existsM (join [projectPath; "project.godot"]);
         if negb present then notAGodotProject projectPath
         else
           active ← gets activeProcess;
           match active with Some handle => kill handle | None => mret tt end ;;
           scene ← getArg args "scene";
           sceneOk ← (if jsTruthy scene then validatePath scene else mret false);
           let cmdArgs := ["-d"; "--path"; projectPath]
                          ++ (if sceneOk : bool then [toText scene] else []) in
           handle ← spawnChild cmdArgs;
           modify (set_activeProcess (Some handle)) ;;
           mret (textResponse ("Godot project started in debug mode from " +:+ projectPath
                               +:+ ". Use get_debug_output to see output.")))
        (fun errorMessage =>
           fail ("Failed to run Godot project: " +:+ errorMessage) godotHints).

Definition noActiveProcess : Response :=
  createErrorResponse "No active Godot process."
    [ "Use run_project to start a Godot project first";
      "Check if the Godot process crashed unexpectedly" ].

Definition handleGetDebugOutput : M Response :=
  active ← gets activeProcess;
  kids ← gets children;
  match active with
  | None => mret noActiveProcess
  | Some handle =>
      let child := default (mkChild [] [] false []) (kids !! handle) in
      mret (textResponse (Json.stringify2
              (JObj [ ("output", linesJson (output child));
                      ("errors", linesJson (errors child)) ])))
  end.

Definition handleStopProject : M Response :=
  active ← gets activeProcess;
  match active with
  | None =>
      fail "No active Godot process to stop."
        [ "Use run_project to start a Godot project first";
          "The process may have already terminated" ]
  | Some handle =>
      kill handle ;;
      kids ← gets children;
      let child := default (mkChild [] [] false []) (kids !! handle) in
      modify (set_activeProcess None) ;;
      mret (textResponse (Json.stringify2
              (JObj [ ("message", JStr "Godot project stopped");
                      ("finalOutput", linesJson (output child));
                      ("finalErrors", linesJson (errors child)) ])))
  end.

Definition handleGetGodotVersion : M Response :=
  tryCatch
    (found ← ensureGodotPath;
     if negb found then godotNotFound
     else
       g ← gets godotPath;
       stdout ← execStdout (versionCommand g);
       mret (textResponse (Str.trim stdout)))
    (fun errorMessage =>
       fail ("Failed to get Godot version: " +:+ errorMessage)
         [ "Ensure Godot is installed correctly";
           "Check if the GODOT_PATH environment variable is set correctly" ]).

Definition handleListProjects (args : option JSON) : M Response :=
  let args := normalizeArgs args in
  directory ← getArg args "directory";
  if negb (jsTruthy directory) then
    fail "Directory is required"
      ["Provide a valid directory path to search for Godot projects"]
  else
    ok ← validatePath directory;
    if negb ok then fail "Invalid directory path" (withoutDots "a valid path")
    else
      tryCatch
        (present ← match directory with
                   | Some (JStr d) => existsM d
                   | _ => mret false
                   end;
         if negb present then
           fail ("Directory does not exist: " +:+ toText directory)
             ["Provide a valid directory path that exists on the system"]
         else
           recursive ← getArg args "recursive";
           o ← gets os;
           modify (emit [EvScan (toText directory)]) ;;
           mret (textResponse
                   (Json.stringify2 (scanProjects o (toText directory) (isTrue recursive)))))
        (fun errorMessage =>
           fail ("Failed to list projects: " +:+ messageOr errorMessage)
             [ "Ensure the directory exists and is accessible";
               "Check if you have permission to read the directory" ]).

Definition handleGetProjectInfo (args : option JSON) : M Response :=
  let args := normalizeArgs args in
  argProjectPath ← getArg args "projectPath";
  bad ← presentAndInvalid argProjectPath;
  if bad : bool then invalidProjectPath
  else
    projectPath ← resolveProjectPath argProjectPath;
    if negb (truthy projectPath) then projectPathRequired
    else
      let projectPath := opt projectPath in
      tryCatch
        (found ← ensureGodotPath;
         if negb found then godotNotFound
         else
           let projectFile := join [projectPath; "project.godot"] in
           present ← existsM projectFile;
           if negb present then notAGodotProject projectPath
           else
             g ← gets godotPath;
             stdout ← execStdout (versionCommand g);
             o ← gets os;
             modify (emit [EvScan projectPath; EvScan projectFile]) ;;
             mret (textResponse (Json.stringify2
                     (JObj [ ("name", JStr (scanProjectName o projectFile (basename projectPath)));
                             ("path", JStr projectPath);
                             ("godotVersion", JStr (Str.trim stdout));
                             ("structure", scanStructure o projectPath) ]))))
        (fun errorMessage =>
           fail ("Failed to get project info: " +:+ messageOr errorMessage) godotHints).

(** The property [name: value] of an object literal, for a value that may
    be [undefined]. *)
Definition property (name : string) (value : option JSON) : list (string * JSON) :=
  match value with Some v => [(name, v)] | None => [] end.

(** [if (args.name) params.name = args.name] *)
Definition optionalProperty (name : string) (value : option JSON) : list (string * JSON) :=
  if jsTruthy value then property name value else [].

(** The part of a scene handler after the project path is resolved: the
    project file is checked, then [body] runs, inside [try]. *)
Definition inProject (projectPath : string) (what : string) (body : M Response)
  : M Response :=
  tryCatch
    (present ← existsM (join [projectPath; "project.godot"]);
     if negb present then notAGodotProject projectPath else body)
    (fun errorMessage =>
       fail ("Failed to " +:+ what +:+ ": " +:+ messageOr errorMessage) godotHints).

(** [const scenePath = join(projectPath, args.scenePath);
     if (!existsSync(scenePath)) return ...] *)
Definition requireScene (projectPath : string) (argScenePath : option JSON)
    (body : M Response) : M Response :=
  scenePath ← joinArg projectPath argScenePath;
  present ← existsM scenePath;
  if negb present then sceneMissing argScenePath else body.

Definition handleCreateScene (args : option JSON) : M Response :=
  let args := normalizeArgs args in
  argScenePath ← getArg args "scenePath";
  if negb (jsTruthy argScenePath) then
    fail "Scene path is required" ["Provide a valid scene path relative to the project"]
  else
    argProjectPath ← getArg args "projectPath";
    bad ← presentAndInvalid argProjectPath;
    if bad : bool then invalidPath
    else
      ok ← validatePath argScenePath;
      if negb ok then invalidPath
      else
        projectPath ← resolveProjectPath argProjectPath;
        if negb (truthy projectPath) then projectPathRequired
        else
          let projectPath := opt projectPath in
          inProject projectPath "create scene"
            (rootNodeType ← getArg args "rootNodeType";
             let params :=
               property "scenePath" argScenePath
               ++ [("rootNodeType",
                    if jsTruthy rootNodeType then default JNull rootNodeType
                    else JStr "Node2D")] in
             '(stdout, stderr) ← executeOperation "create_scene" params projectPath;
             if reportsFailure stderr then
               fail ("Failed to create scene: " +:+ stderr)
                 [ "Check if the root node type is valid";
                   "Ensure you have write permissions to the scene path";
                   "Verify the scene path is valid" ]
             else
               mret (textResponse ("Scene created successfully at: " +:+ toText argScenePath
                                   +:+ Str.nl +:+ Str.nl +:+ "Output: " +:+ stdout))).

Definition handleAddNode (args : option JSON) : M Response :=
  let args := normalizeArgs args in
  argScenePath ← getArg args "scenePath";
  nodeType ← getArg args "nodeType";
  nodeName ← getArg args "nodeName";
  if negb (jsTruthy argScenePath) || negb (jsTruthy nodeType) || negb (jsTruthy nodeName) then
    fail "Missing required parameters" ["Provide scenePath, nodeType, and nodeName"]
  else
    argProjectPath ← getArg args "projectPath";
    bad ← presentAndInvalid argProjectPath;
    if bad : bool then invalidPath
    else
      ok ← validatePath argScenePath;
      if negb ok then invalidPath
      else
        projectPath ← resolveProjectPath argProjectPath;
        if negb (truthy projectPath) then projectPathRequired
        else
          let projectPath := opt projectPath in
          inProject projectPath "add node"
            (requireScene projectPath argScenePath
               (parentNodePath ← getArg args "parentNodePath";
                properties ← getArg args "properties";
                let params :=
                  property "scenePath" argScenePath ++ property "nodeType" nodeType
                  ++ property "nodeName" nodeName
                  ++ optionalProperty "parentNodePath" parentNodePath
                  ++ optionalProperty "properties" properties in
                '(stdout, stderr) ← executeOperation "add_node" params projectPath;
                if reportsFailure stderr then
                  fail ("Failed to add node: " +:+ stderr)
                    [ "Check if the node type is valid";
                      "Ensure the parent node path exists";
                      "Verify the scene file is valid" ]
                else
                  mret (textResponse
                          ("Node '" +:+ toText nodeName +:+ "' of type '" +:+ toText nodeType
                           +:+ "' added successfully to '" +:+ toText argScenePath +:+ "'."
                           +:+ Str.nl +:+ Str.nl +:+ "Output: " +:+ stdout)))).

Definition handleLoadSprite (args : option JSON) : M Response :=
  let args := normalizeArgs args in
  argScenePath ← getArg args "scenePath";
  nodePath ← getArg args "nodePath";
  argTexturePath ← getArg args "texturePath";
  if negb (jsTruthy argScenePath) || negb (jsTruthy nodePath) || negb (jsTruthy argTexturePath) then
    fail "Missing required parameters" ["Provide scenePath, nodePath, and texturePath"]
  else
    argProjectPath ← getArg args "projectPath";
    bad ← presentAndInvalid argProjectPath;
    if bad : bool then invalidPath
    else
      ok1 ← validatePath argScenePath;
      if negb ok1 then invalidPath
      else
        ok2 ← validatePath nodePath;
        if negb ok2 then invalidPath
        else
          ok3 ← validatePath argTexturePath;
          if negb ok3 then invalidPath
          else
            projectPath ← resolveProjectPath argProjectPath;
            if negb (truthy projectPath) then projectPathRequired
            else
              let projectPath := opt projectPath in
              inProject projectPath "load sprite"
                (requireScene projectPath argScenePath
                   (texturePath ← joinArg projectPath argTexturePath;
                    present ← existsM texturePath;
                    if negb present then
                      fail ("Texture file does not exist: " +:+ toText argTexturePath)
                        [ "Ensure the texture path is correct";
                          "Upload or create the texture file first" ]
                    else
                      let params :=
                        property "scenePath" argScenePath ++ property "nodePath" nodePath
                        ++ property "texturePath" argTexturePath in
                      '(stdout, stderr) ← executeOperation "load_sprite" params projectPath;
                      if reportsFailure stderr then
                        fail ("Failed to load sprite: " +:+ stderr)
                          [ "Check if the node path is correct";
                            "Ensure the node is a Sprite2D, Sprite3D, or TextureRect";
                            "Verify the texture file is a valid image format" ]
                      else
                        mret (textResponse
                                ("Sprite loaded successfully with texture: "
                                 +:+ toText argTexturePath
                                 +:+ Str.nl +:+ Str.nl +:+ "Output: " +:+ stdout)))).

Definition handleExportMeshLibrary (args : option JSON) : M Response :=
  let args := normalizeArgs args in
  argScenePath ← getArg args "scenePath";
  outputPath ← getArg args "outputPath";
  if negb (jsTruthy argScenePath) || negb (jsTruthy outputPath) then
    fail "Missing required parameters" ["Provide scenePath and outputPath"]
  else
    argProjectPath ← getArg args "projectPath";
    bad ← presentAndInvalid argProjectPath;
    if bad : bool then invalidPath
    else
      ok1 ← validatePath argScenePath;
      if negb ok1 then invalidPath
      else
        ok2 ← validatePath outputPath;
        if negb ok2 then invalidPath
        else
          projectPath ← resolveProjectPath argProjectPath;
          if negb (truthy projectPath) then projectPathRequired
          else
            let projectPath := opt projectPath in
            inProject projectPath "export mesh library"
              (requireScene projectPath argScenePath
                 (meshItemNames ← getArg args "meshItemNames";
                  let params :=
                    property "scenePath" argScenePath ++ property "outputPath" outputPath
                    ++ match meshItemNames with
                       | Some (JArr _) => property "meshItemNames" meshItemNames
                       | _ => []
                       end in
                  '(stdout, stderr) ← executeOperation "export_mesh_library" params projectPath;
                  if reportsFailure stderr then
                    fail ("Failed to export mesh library: " +:+ stderr)
                      [ "Check if the scene contains valid 3D meshes";
                        "Ensure the output path is valid";
                        "Verify the scene file is valid" ]
                  else
                    mret (textResponse
                            ("MeshLibrary exported successfully to: " +:+ toText outputPath
                             +:+ Str.nl +:+ Str.nl +:+ "Output: " +:+ stdout)))).

Definition handleSaveScene (args : option JSON) : M Response :=
  let args := normalizeArgs args in
  argScenePath ← getArg args "scenePath";
  if negb (jsTruthy argScenePath) then
    fail "Missing required parameters" ["Provide scenePath"]
  else
    argProjectPath ← getArg args "projectPath";
    bad ← presentAndInvalid argProjectPath;
    if bad : bool then invalidPath
    else
      ok ← validatePath argScenePath;
      if negb ok then invalidPath
      else
        newPath ← getArg args "newPath";
        badNew ← presentAndInvalid newPath;
        if badNew : bool then fail "Invalid new path" (withoutDots "a valid new path")
        else
          projectPath ← resolveProjectPath argProjectPath;
          if negb (truthy projectPath) then projectPathRequired
          else
            let projectPath := opt projectPath in
            inProject projectPath "save scene"
              (requireScene projectPath argScenePath
                 (let params :=
                    property "scenePath" argScenePath ++ optionalProperty "newPath" newPath in
                  '(stdout, stderr) ← executeOperation "save_scene" params projectPath;
                  if reportsFailure stderr then
                    fail ("Failed to save scene: " +:+ stderr)
                      [ "Check if the scene file is valid";
                        "Ensure you have write permissions to the output path";
                        "Verify the scene can be properly packed" ]
                  else
                    let savePath := if jsTruthy newPath then newPath else argScenePath in
                    mret (textResponse
                            ("Scene saved successfully to: " +:+ toText savePath
                             +:+ Str.nl +:+ Str.nl +:+ "Output: " +:+ stdout)))).

(** The version test of the two UID handlers. *)
Definition requireUidSupport (body : M Response) : M Response :=
  g ← gets godotPath;
  versionOutput ← execStdout (versionCommand g);
  let version := Str.trim versionOutput in
  if negb (isGodot44OrLater version) then
    fail ("UIDs are only supported in Godot 4.4 or later. Current version: " +:+ version)
      [ "Upgrade to Godot 4.4 or later to use UIDs";
        "Use resource paths instead of UIDs for this version of Godot" ]
  else body.

Definition handleGetUid (args : option JSON) : M Response :=
  let args := normalizeArgs args in
  argFilePath ← getArg args "filePath";
  if negb (jsTruthy argFilePath) then
    fail "Missing required parameters" ["Provide filePath"]
  else
    argProjectPath ← getArg args "projectPath";
    bad ← presentAndInvalid argProjectPath;
    if bad : bool then invalidPath
    else
      ok ← validatePath argFilePath;
      if negb ok then invalidPath
      else
        projectPath ← resolveProjectPath argProjectPath;
        if negb (truthy projectPath) then projectPathRequired
        else
          let projectPath := opt projectPath in
          tryCatch
            (found ← ensureGodotPath;
             if negb found then godotNotFound
             else
               present ← existsM (join [projectPath; "project.godot"]);
               if negb present then notAGodotProject projectPath
               else
                 filePath ← joinArg projectPath argFilePath;
                 filePresent ← existsM filePath;
                 if negb filePresent then
                   fail ("File does not exist: " +:+ toText argFilePath)
                     ["Ensure the file path is correct"]
                 else
                   requireUidSupport
                     ('(stdout, stderr) ← executeOperation "get_uid"
                                            (property "filePath" argFilePath) projectPath;
                      if reportsFailure stderr then
                        fail ("Failed to get UID: " +:+ stderr)
                          [ "Check if the file is a valid Godot resource";
                            "Ensure the file path is correct" ]
                      else
                        mret (textResponse ("UID for " +:+ toText argFilePath +:+ ": "
                                            +:+ Str.trim stdout))))
            (fun errorMessage =>
               fail ("Failed to get UID: " +:+ messageOr errorMessage) godotHints).

Definition handleUpdateProjectUids (args : option JSON) : M Response :=
  let args := normalizeArgs args in
  argProjectPath ← getArg args "projectPath";
  bad ← presentAndInvalid argProjectPath;
  if bad : bool then invalidProjectPath
  else
    projectPath ← resolveProjectPath argProjectPath;
    if negb (truthy projectPath) then projectPathRequired
    else
      let projectPath := opt projectPath in
      tryCatch
        (found ← ensureGodotPath;
         if negb found then godotNotFound
         else
           present ← existsM (join [projectPath; "project.godot"]);
           if negb present then notAGodotProject projectPath
           else
             requireUidSupport
               ('(stdout, stderr) ← executeOperation "resave_resources"
                                      [("projectPath", JStr projectPath)] projectPath;
                if reportsFailure stderr then
                  fail ("Failed to update project UIDs: " +:+ stderr)
                    [ "Check if the project is valid";
                      "Ensure you have write permissions to the project directory" ]
                else
                  mret (textResponse ("Project UIDs updated successfully."
                                      +:+ Str.nl +:+ Str.nl +:+ "Output: " +:+ stdout))))
        (fun errorMessage =>
           fail ("Failed to update project UIDs: " +:+ messageOr errorMessage) godotHints).

(** [mkdirSync(path, { recursive: true })], recorded *)
Definition mkdirM (path : string) : M unit :=
  fun s => match mkdirSync (os s) path with
           | inr o' => (Ok tt, emit [EvMkdir path] (set_os o' s))
           | inl message => (Throw message, emit [EvMkdir path] s)
           end.

Definition handleGetPortalSdkInfo : M Response :=
  modify detectPortalPaths ;;
  s ← gets id;
  sdkExists ← (if truthy (portalSdkPath s) then existsM (opt (portalSdkPath s))
               else mret false);
  projectExists ← (if truthy (portalProjectPath s)
                   then existsM (join [opt (portalProjectPath s); "project.godot"])
                   else mret false);
  fbExists ← (if truthy (fbExportDataPath s) then existsM (opt (fbExportDataPath s))
              else mret false);
  mret (textResponse (Json.stringify2
          (JObj [ ("portalSdkPath", Json.ofOption (portalSdkPath s));
                  ("portalSdkPathExists", JBool sdkExists);
                  ("portalProjectPath", Json.ofOption (portalProjectPath s));
                  ("portalProjectPathExists", JBool projectExists);
                  ("fbExportDataPath", Json.ofOption (fbExportDataPath s));
                  ("fbExportDataPathExists", JBool fbExists);
                  ("pythonCommand", Json.ofOption (pythonCommand s)) ]))).

(** The export-data directory of the three Portal handlers: the argument
    when it is a non-blank string, else the remembered one. *)
Definition chooseFbExportData (argFb : option JSON) : M (option string) :=
  remembered ← gets fbExportDataPath;
  mret (if nonBlankString argFb then Some (normalize (textOf (default JNull argFb)))
        else remembered).

Definition handleListPortalLevels (args : option JSON) : M Response :=
  let args := normalizeArgs args in
  modify detectPortalPaths ;;
  argFb ← getArg args "fbExportDataPath";
  remembered ← gets fbExportDataPath;
  let fb := if nonBlankString argFb then Some (normalize (textOf (default JNull argFb)))
            else if truthy remembered then remembered else None in
  fbExists ← (if truthy fb then existsM (opt fb) else mret false);
  if negb fbExists then fbExportDataNotFound
  else
    let levelsDir := join [opt fb; "levels"] in
    levelsExist ← existsM levelsDir;
    if negb levelsExist then
      fail "Levels directory missing inside FbExportData"
        ["Verify the Battlefield Portal SDK installation is complete"]
    else
      argProjectPath ← getArg args "projectPath";
      ok ← (if nonBlankString argProjectPath then validatePath argProjectPath else mret true);
      if negb ok then invalidProjectPath
      else
        rememberedProject ← gets portalProjectPath;
        let chosen := if nonBlankString argProjectPath
                      then Some (normalize (textOf (default JNull argProjectPath)))
                      else if truthy rememberedProject then rememberedProject else None in
        projectExists ← (if truthy chosen then existsM (opt chosen) else mret false);
        let projectPath := if projectExists : bool then chosen else None in
        o ← gets os;
        modify (emit [EvScan (opt fb)]) ;;
        match scanLevels o (opt fb) projectPath rememberedProject with
        | inl message =>
            fail ("Failed to enumerate Portal levels: " +:+ message)
              ["Verify the FbExportData directory is accessible"]
        | inr levels =>
            mret (textResponse (Json.stringify2
                    (JObj [ ("fbExportDataPath", Json.ofOption fb);
                            ("projectPath", Json.ofOption projectPath);
                            ("count", JNum (Str.ofN (N.of_nat (length levels))));
                            ("levels", JArr levels) ])))
        end.

(** [text.split(/\r?\n/)] *)
Definition dropCarriageReturn (line : string) : string :=
  match Str.rev line with
  | String c rest => if (nat_of_ascii c =? 13)%nat then Str.rev rest else line
  | EmptyString => line
  end.

Fixpoint splitLines_go (pieces : list string) : list string :=
  match pieces with
  | [] => []
  | [lastPiece] => [lastPiece]
  | piece :: rest => dropCarriageReturn piece :: splitLines_go rest
  end.

Definition splitLines (text : string) : list string :=
  splitLines_go (Str.split newline text).

(** [toAbsolutePath(projectPath, v)] on a truthy value of the request *)
Definition toAbsolutePathArg (projectPath : string) (v : option JSON) : M string :=
  match v with
  | Some (JStr s) => mret (toAbsolutePath projectPath s)
  | _ => throw "targetPath.startsWith is not a function"
  end.

Definition handleExportPortalLevel (args : option JSON) : M Response :=
  let args := normalizeArgs args in
  argScenePath ← getArg args "scenePath";
  if negb (jsTruthy argScenePath) then
    fail "Scene path is required" ["Provide the path to the scene (.tscn) file to export"]
  else
    ok ← validatePath argScenePath;
    if negb ok then fail "Invalid scene path" (withoutDots "a scene path")
    else
      argOutputDir ← getArg args "outputDir";
      badOut ← presentAndInvalid argOutputDir;
      if badOut : bool then fail "Invalid output directory" (withoutDots "an output directory")
      else
        argProjectPath ← getArg args "projectPath";
        projectPath ← resolveProjectPath argProjectPath;
        if negb (truthy projectPath) then
          fail "Project path is required"
            [ "Provide a valid path to the Battlefield Portal Godot project";
              "Ensure the Portal SDK has been detected correctly" ]
        else
          let projectPath := opt projectPath in
          argFb ← getArg args "fbExportDataPath";
          fb ← chooseFbExportData argFb;
          fbExists ← (if truthy fb then existsM (opt fb) else mret false);
          if negb fbExists then fbExportDataNotFound
          else
            let fbExportDataPath := opt fb in
            converterScript ← getGdConverterScriptPath "export_tscn.py";
            if negb (truthy converterScript) then
              fail "Could not locate export_tscn.py in the Battlefield Portal SDK"
                [ "Verify the Portal SDK repository is available";
                  "Set PORTAL_SDK_PATH to the SDK root" ]
            else
              sceneFile ← toAbsolutePathArg projectPath argScenePath;
              sceneExists ← existsM sceneFile;
              if negb sceneExists then
                fail ("Scene file does not exist: " +:+ sceneFile)
                  [ "Ensure the scene path is correct relative to the project";
                    "Open the scene in Godot to verify it exists" ]
              else
                let outputDir :=
                  if nonBlankString argOutputDir
                  then toAbsolutePath projectPath (textOf (default JNull argOutputDir))
                  else join [projectPath; "portal_exports"] in
                mkdirM outputDir ;;
                tryCatch
                  ('(stdout, stderr, exitCode) ←
                     runPythonScript (opt converterScript)
                       [sceneFile; fbExportDataPath; outputDir];
                   if negb (exitCode =? 0)%nat then
                     fail ("Portal export script failed with exit code "
                           +:+ Str.ofN (N.of_nat exitCode))
                       [ "Inspect the stdout/stderr output for details";
                         "Verify the scene and FbExportData paths are correct" ]
                   else
                     let trimmedStdout := Str.trim stdout in
                     let trimmedStderr := Str.trim stderr in
                     let lines := filter (fun line => String.eqb (Str.trim line) "" = false)
                                         (splitLines trimmedStdout) in
                     let exportedFile := match last lines with
                                         | Some line => JStr (normalize line)
                                         | None => JNull
                                         end in
                     mret (textResponse (Json.stringify2
                             (JObj [ ("sceneFile", JStr (normalize sceneFile));
                                     ("fbExportDataPath", JStr fbExportDataPath);
                                     ("outputDir", JStr (normalize outputDir));
                                     ("exportedFile", exportedFile);
                                     ("stdout", JStr trimmedStdout);
                                     ("stderr", JStr trimmedStderr) ]))))
                  (fun errorMessage =>
                     fail ("Failed to export Portal level: " +:+ errorMessage)
                       [ "Ensure Python 3 is installed and accessible";
                         "Verify the Battlefield Portal SDK gdconverter dependencies are installed" ]).

Definition handleCreatePortalProject (args : option JSON) : M Response :=
  let args := normalizeArgs args in
  modify detectPortalPaths ;;
  argFb ← getArg args "fbExportDataPath";
  fb ← chooseFbExportData argFb;
  fbExists ← (if truthy fb then existsM (opt fb) else mret false);
  if negb fbExists then fbExportDataNotFound
  else
    let fbExportDataPath := opt fb in
    argOutputDir ← getArg args "outputDir";
    rememberedProject ← gets portalProjectPath;
    sdk ← gets portalSdkPath;
    let outputDir :=
      if nonBlankString argOutputDir then normalize (textOf (default JNull argOutputDir))
      else if truthy rememberedProject then opt rememberedProject
      else if truthy sdk then normalize (join [opt sdk; "GodotProject"])
      else normalize (join [cwd; "PortalGodotProject"]) in
    mkdirM outputDir ;;
    converterScript ← getGdConverterScriptPath "create_godot.py";
    if negb (truthy converterScript) then
      fail "Could not locate create_godot.py in the Battlefield Portal SDK"
        [ "Verify the Portal SDK repository is available";
          "Set PORTAL_SDK_PATH to the SDK root" ]
    else
      overwriteLevels ← getArg args "overwriteLevels";
      let scriptArgs := [fbExportDataPath; outputDir]
                        ++ (if isTrue overwriteLevels then ["--overwrite-levels"] else []) in
      tryCatch
        ('(stdout, stderr, exitCode) ← runPythonScript (opt converterScript) scriptArgs;
         if negb (exitCode =? 0)%nat then
           fail ("Portal project generation failed with exit code "
                 +:+ Str.ofN (N.of_nat exitCode))
             [ "Inspect the stdout/stderr output for details";
               "Ensure Python dependencies from SDK/requirements.txt are installed" ]
         else
           let trimmedStdout := Str.trim stdout in
           let trimmedStderr := Str.trim stderr in
           modify (set_portalProjectPath (Some (normalize outputDir))) ;;
           mret (textResponse (Json.stringify2
                   (JObj [ ("projectPath", JStr (normalize outputDir));
                           ("fbExportDataPath", JStr fbExportDataPath);
                           ("stdout", JStr trimmedStdout);
                           ("stderr", JStr trimmedStderr) ]))))
        (fun errorMessage =>
           fail ("Failed to regenerate the Portal project: " +:+ errorMessage)
             [ "Ensure Python 3 is installed and accessible";
               "Verify the Battlefield Portal SDK dependencies are installed" ]).

(** The handler of [CallToolRequestSchema]: the tool is chosen by name; an
    unknown name throws. *)
Definition callTool (name : string) (args : option JSON) : M Response :=
  if String.eqb name "launch_editor" then handleLaunchEditor args
  else if String.eqb name "run_project" then handleRunProject args
  else if String.eqb name "get_debug_output" then handleGetDebugOutput
  else if String.eqb name "stop_project" then handleStopProject
  else if String.eqb name "get_godot_version" then handleGetGodotVersion
  else if String.eqb name "list_projects" then handleListProjects args
  else if String.eqb name "get_project_info" then handleGetProjectInfo args
  else if String.eqb name "create_scene" then handleCreateScene args
  else if String.eqb name "add_node" then handleAddNode args
  else if String.eqb name "load_sprite" then handleLoadSprite args
  else if String.eqb name "export_mesh_library" then handleExportMeshLibrary args
  else if String.eqb name "save_scene" then handleSaveScene args
  else if String.eqb name "get_uid" then handleGetUid args
  else if String.eqb name "update_project_uids" then handleUpdateProjectUids args
  else if String.eqb name "get_portal_sdk_info" then handleGetPortalSdkInfo
  else if String.eqb name "list_portal_levels" then handleListPortalLevels args
  else if String.eqb name "export_portal_level" then handleExportPortalLevel args
  else if String.eqb name "create_portal_project" then handleCreatePortalProject args
  else throw ("Unknown tool: " +:+ name).

End Server.

(** ** A concrete host: POSIX paths and a small machine

    The examples run the server on this host. [Posix] follows Node's
    [path.posix]. *)

Module Posix.

Definition slash : ascii := ascii_of_nat 47.

Definition isDotDot (seg : string) : bool := String.eqb seg "..".

(** The segments that remain, last one first. *)
Fixpoint normalizeSegments (allowAboveRoot : bool) (segs : list string) (stack : list string)
  : list string :=
  match segs with
  | [] => stack
  | seg :: rest =>
      if String.eqb seg "" || String.eqb seg "." then
        normalizeSegments allowAboveRoot rest stack
      else if isDotDot seg then
        match stack with
        | top :: below =>
            if isDotDot top then
              normalizeSegments allowAboveRoot rest
                (if allowAboveRoot then seg :: stack else stack)
            else normalizeSegments allowAboveRoot rest below
        | [] =>
            normalizeSegments allowAboveRoot rest
              (if allowAboveRoot then [seg] else [])
        end
      else normalizeSegments allowAboveRoot rest (seg :: stack)
  end.

Definition endsWithSlash (path : string) : bool :=
  match Str.rev path with
  | String c _ => Ascii.eqb c slash
  | EmptyString => false
  end.

Definition normalize (path : string) : string :=
  if String.eqb path "" then "."
  else
    let isAbsolute := Str.startsWith "/" path in
    let trailingSeparator := endsWithSlash path in
    let body := Str.join "/" (rev (normalizeSegments (negb isAbsolute)
                                     (Str.split slash path) [])) in
    if String.eqb body "" then
      if isAbsolute then "/" else if trailingSeparator then "./" else "."
    else
      (if isAbsolute then "/" else "") +:+ body
      +:+ (if trailingSeparator then "/" else "").

Definition join (parts : list string) : string :=
  let joined := Str.join "/" (List.filter (fun part => negb (String.eqb part "")) parts) in
  if String.eqb joined "" then "." else normalize joined.

Fixpoint dropSlashes (s : string) : string :=
  match s with
  | String c s' => if Ascii.eqb c slash then dropSlashes s' else s
  | EmptyString => EmptyString
  end.

Fixpoint dropSegment (s : string) : option string :=
  match s with
  | String c s' => if Ascii.eqb c slash then Some s' else dropSegment s'
  | EmptyString => None
  end.

Fixpoint takeSegment (s : string) : string :=
  match s with
  | String c s' => if Ascii.eqb c slash then EmptyString else String c (takeSegment s')
  | EmptyString => EmptyString
  end.

Definition dirname (path : string) : string :=
  match path with
  | EmptyString => "."
  | String first others =>
      let hasRoot := Ascii.eqb first slash in
      match dropSegment (dropSlashes (Str.rev others)) with
      | None => if hasRoot then "/" else "."
      | Some before =>
          if hasRoot && String.eqb before "" then "//"
          else String first (Str.rev before)
      end
  end.

Definition basename (path : string) : string :=
  Str.rev (takeSegment (dropSlashes (Str.rev path))).

End Posix.

(** The machine of the examples: the paths that exist, the commands that
    succeed and what they print, the interpreters that answer [--version],
    and what the Python script does. *)
Record Machine : Type := mkMachine {
  files : list string;
  commands : list (string * string);
  interpreters : list string;
  python : PythonResult;
}.

Definition machineHost (platformName : string) (environment : list (string * string))
    (workingDir installDir : string) : Host :=
  {| OS := Machine;
     platform := platformName;
     getenv := fun name => Obj.get name environment;
     cwd := workingDir;
     scriptDir := installDir;
     normalize := Posix.normalize;
     join := Posix.join;
     dirname := Posix.dirname;
     basename := Posix.basename;
     existsSync := fun m path => existsb (String.eqb path) (files m);
     mkdirSync := fun m path =>
       inr (mkMachine (path :: files m) (commands m) (interpreters m) (python m));
     execAsync := fun m command =>
       (match Obj.get command (commands m) with
        | Some stdout => ExecOk stdout ""
        | None => ExecError ("Command failed: " +:+ command) "" ""
        end, m);
     execFileVersion := fun m command => existsb (String.eqb command) (interpreters m);
     spawnPython := fun m _ _ => (python m, m);
     scanProjects := fun _ _ _ => JArr [];
     scanStructure := fun _ _ => JObj [];
     scanProjectName := fun _ _ name => name;
     scanLevels := fun _ _ _ _ => inr [] |}.

(** A Linux machine with Godot 4.4 in [/usr/bin], a game project in
    [/game] and the Portal SDK in [/sdk]; the server is installed in
    [/srv/godot-mcp/build] and started in [/work]. *)
Definition godotVersionCommand : string :=
  Str.dq +:+ "/usr/bin/godot" +:+ Str.dq +:+ " --version".

Definition exampleMachine : Machine :=
  {| files :=
       [ "/usr/bin/godot";
         "/game"; "/game/project.godot"; "/game/main.tscn";
         "/sdk"; "/sdk/SDK"; "/sdk/GodotProject"; "/sdk/GodotProject/project.godot";
         "/sdk/SDK/deps/FbExportData";
         "/sdk/SDK/deps/gdconverter/src/gdconverter/create_godot.py";
         "/sdk/SDK/deps/gdconverter/src/gdconverter/export_tscn.py" ];
     commands := [(godotVersionCommand, "4.4.1.stable.official" +:+ Str.nl)];
     interpreters := ["python3"];
     python := PyClosed "done" "" (Some 0) |}.

Definition linuxHost (environment : list (string * string)) (workingDir : string) : Host :=
  machineHost "linux" environment workingDir "/srv/godot-mcp/build".

(** No environment variable is set. *)
Definition plainHost : Host := linuxHost [] "/work".

(** The SDK, or the project, is given through the environment. *)
Definition sdkHost : Host := linuxHost [("PORTAL_SDK_PATH", "/sdk")] "/work".

Definition projectHost : Host := linuxHost [("PORTAL_PROJECT_PATH", "/game")] "/sdk".

(** The server of this program, [new GodotServer()], on that machine. *)
Definition freshServer (environment : list (string * string)) (workingDir : string)
  : @St (linuxHost environment workingDir) :=
  @construct (linuxHost environment workingDir) None exampleMachine.

(** The same after [run()]. *)
Definition startedServer (environment : list (string * string)) (workingDir : string)
  : @St (linuxHost environment workingDir) :=
  snd (@run (linuxHost environment workingDir) (freshServer environment workingDir)).

(** The server with the game running: the first child has handle 0. *)
Definition runGame : option JSON := Some (JObj [("project_path", JStr "/game")]).

Definition runningServer : @St plainHost :=
  snd (@handleRunProject plainHost runGame (startedServer [] "/work")).

(** A machine without Godot, and one where it is installed in [/opt]. *)
Definition bareMachine : Machine :=
  {| files := []; commands := []; interpreters := []; python := PyError "spawn python3 ENOENT" |}.

Definition optMachine : Machine :=
  {| files := ["/opt/godot"];
     commands := [(Str.dq +:+ "/opt/godot" +:+ Str.dq +:+ " --version", "4.4.1" +:+ Str.nl)];
     interpreters := [];
     python := PyError "spawn python3 ENOENT" |}.

(** ** The claims about parameter names, as the specification words them *)

(** Snake-case in, camel-case and back ([toInternalForm] then
    [toExternalForm]). *)
Definition roundTripFromSnake (params : JSON) : JSON :=
  match normalizeParameters params with
  | JObj props => convertCamelToSnakeCase props
  | other => other
  end.

(** Camel-case in, snake-case and back. *)
Definition roundTripFromCamel (params : list (string * JSON)) : JSON :=
  normalizeParameters (convertCamelToSnakeCase params).

(** The quoting that the specification describes for POSIX shells: single
    quotes around the text, each single quote inside written twice. *)
Definition quotedByDoubling (paramsJson : string) : string :=
  "'" +:+ Str.replaceAll isSingleQuote (fun _ => "''") paramsJson +:+ "'".

(** How a POSIX shell reads a word that is written only with single-quoted
    parts and backslash-escaped characters: inside single quotes every
    character stands for itself up to the closing quote, outside them a
    backslash makes the next character stand for itself. [None]: the text
    is not one such word. *)
Fixpoint shellWord (insideQuotes : bool) (text : string) : option string :=
  match text with
  | EmptyString => if insideQuotes then None else Some EmptyString
  | String c rest =>
      if insideQuotes then
        if isSingleQuote c then shellWord false rest
        else option_map (String c) (shellWord true rest)
      else if isSingleQuote c then shellWord true rest
      else if (nat_of_ascii c =? 92)%nat then
        match rest with
        | String c' rest' => option_map (String c') (shellWord false rest')
        | EmptyString => None
        end
      else None
  end.

Section Notions.

Context `{H : Host}.

(** The paths that [detectGodotPath] validates one after the other, as long
    as none validates: the path already set, the environment override, the
    well-known locations. *)
Definition godotCandidates (s : St) : list string :=
  (if truthy (godotPath s) then [opt (godotPath s)] else [])
  ++ (if truthy (getenv "GODOT_PATH") then [normalize (opt (getenv "GODOT_PATH"))] else [])
  ++ map normalize possiblePaths.

(** Validating the candidates in order from state [s], none validates. *)
Fixpoint noneValidates (candidates : list string) (s : St) : Prop :=
  match candidates with
  | [] => True
  | candidate :: rest =>
      fst (isValidGodotPath candidate s) = Ok false /\
      noneValidates rest (snd (isValidGodotPath candidate s))
  end.

(** What happens to a running server: a tool request, a use of the Godot
    path methods, an event of a child, or the machine changing under it. *)
Inductive Activity : Type :=
| ToolCall (name : string) (args : option JSON)
| Validation (path : string)
| Detection
| SetGodotPath (customPath : string)
| Startup
| ChildEvent (e : ProcessEvent)
| MachineChange (o : OS).

Definition after (s : St) (a : Activity) : St :=
  match a with
  | ToolCall name args => snd (callTool name args s)
  | Validation path => snd (isValidGodotPath path s)
  | Detection => snd (detectGodotPath s)
  | SetGodotPath customPath => snd (setGodotPath customPath s)
  | Startup => snd (run s)
  | ChildEvent e => deliver e s
  | MachineChange o => set_os o s
  end.

Definition afterAll (s : St) (activities : list Activity) : St :=
  fold_left after activities s.

(** The fields that a tool passes through [validatePath] before it does
    anything else with them. *)
Definition checkedFields : list (string * string) :=
  [ ("launch_editor", "projectPath");
    ("run_project", "projectPath");
    ("list_projects", "directory");
    ("get_project_info", "projectPath");
    ("create_scene", "projectPath"); ("create_scene", "scenePath");
    ("add_node", "projectPath"); ("add_node", "scenePath");
    ("load_sprite", "projectPath"); ("load_sprite", "scenePath");
    ("load_sprite", "nodePath"); ("load_sprite", "texturePath");
    ("export_mesh_library", "projectPath"); ("export_mesh_library", "scenePath");
    ("export_mesh_library", "outputPath");
    ("save_scene", "projectPath"); ("save_scene", "scenePath"); ("save_scene", "newPath");
    ("get_uid", "projectPath"); ("get_uid", "filePath");
    ("update_project_uids", "projectPath");
    ("export_portal_level", "scenePath"); ("export_portal_level", "outputDir") ].

(** The arguments are typed as the input schemas declare: a path-like
    field, when present, holds a string. *)
Definition stringOrAbsent (v : option JSON) : bool :=
  match v with
  | None | Some (JStr _) => true
  | _ => false
  end.

Definition pathFields : list string :=
  [ "projectPath"; "scenePath"; "nodePath"; "texturePath"; "outputPath"; "newPath";
    "filePath"; "outputDir"; "directory" ].

Definition pathsAreStrings (props : list (string * JSON)) : bool :=
  forallb (fun name => stringOrAbsent (Obj.get name props)) pathFields.

(** The state after the events of children, in the order they arrive. *)
Definition afterEvents (s : St) (events : list ProcessEvent) : St :=
  fold_left (fun st e => deliver e st) events s.

(** The lines that the events carry on the standard output, or on the
    standard error, of one child. *)
Definition stdoutOf (handle : nat) (events : list ProcessEvent) : list string :=
  flat_map (fun e => match e with
                     | StdoutData h data => if Nat.eqb h handle then Str.split newline data else []
                     | _ => []
                     end) events.

Definition stderrOf (handle : nat) (events : list ProcessEvent) : list string :=
  flat_map (fun e => match e with
                     | StderrData h data => if Nat.eqb h handle then Str.split newline data else []
                     | _ => []
                     end) events.

(** The answer of [get_debug_output] for the two arrays. *)
Definition snapshot (out err : list string) : Response :=
  textResponse (Json.stringify2 (JObj [("output", linesJson out); ("errors", linesJson err)])).

(** [keeps P m]: running [m] from a state where [P] holds ends in a state
    where [P] holds, whether [m] returns or throws. *)
Definition keeps (P : St -> Prop) {A} (m : M A) : Prop :=
  forall s, P s -> P (snd (m s)).

(** The validity cache says [false] for [path]. *)
Definition cachedInvalid (path : string) (s : St) : Prop :=
  validatedPaths s !! path = Some false.

(** A line of [logDebug]. *)
Definition isDebugLine (line : string) : bool := Str.startsWith "[DEBUG] " line.

(** The console of [s'] is the console of [s] followed by lines of
    [logDebug] only, and by nothing when [DEBUG_MODE] is off. *)
Definition debugOnly (s s' : St) : Prop :=
  exists lines,
    console s' = console s ++ lines /\
    forallb isDebugLine lines = true /\
    (DEBUG_MODE = false -> lines = []).

(** What a validation leaves alone. *)
Definition sameSettings (s s' : St) : Prop :=
  godotPath s' = godotPath s /\
  strictPathValidation s' = strictPathValidation s /\
  debugOnly s s'.

(** The state without the lines of its console. *)
Definition quiet (s : St) : St :=
  mkSt (activeProcess s) (godotPath s) (validatedPaths s) (strictPathValidation s)
       (portalSdkPath s) (portalProjectPath s) (fbExportDataPath s) (pythonCommand s)
       (initialConfig s) (children s) (os s) (trace s) [].

(** A method that does not touch the state. *)
Definition readOnly {A} (m : M A) : Prop := forall s, snd (m s) = s.

(** What a method leaves of the supervised children. *)
Definition sameChildren (s s' : St) : Prop :=
  activeProcess s' = activeProcess s /\ children s' = children s.

(** The call returned an error response and the state is [s]. *)
Definition rejectedAt (s : St) (x : Result Response * St) : Prop :=
  match x with
  | (Ok r, s') => s' = s /\ isError r = true
  | (Throw _, _) => False
  end.

(** The call returned a response that is not an error. *)
Definition succeeded (x : Result Response) : bool :=
  match x with
  | Ok r => negb (isError r)
  | Throw _ => false
  end.

(** The remembered Portal project path is [p]. *)
Definition projectIs (p : string) (s : St) : Prop := portalProjectPath s = Some p.

(** The server did [ev] to the machine. *)
Definition recorded (ev : Event) (s : St) : Prop := In ev (trace s).

(** [P] holds after the call unless the call is a success. *)
Definition keptUnlessSuccess (P : St -> Prop) (m : M Response) : Prop :=
  forall s, P s -> succeeded (fst (m s)) = false -> P (snd (m s)).

End Notions.

(** ** Example runs *)

(** Requests with [..] in a path. *)
Definition unsafeProject : option JSON := Some (JObj [("project_path", JStr "../etc")]).

Definition unsafeScene : option JSON :=
  Some (JObj [("project_path", JStr "/game"); ("scene", JStr "../x")]).

(** [run_project] once more while the game is running, and what the two
    children do afterwards. *)
Definition restarted : Result Response * @St plainHost :=
  @handleRunProject plainHost runGame runningServer.

Definition lateEvents : list ProcessEvent :=
  [ StdoutData 0 "late"; StdoutData 1 "new"; ProcessExit 0; StderrData 1 "warn" ].

(** Servers on the machine without Godot: the default configuration, and
    strict validation. *)
Definition bareServer : @St plainHost := @construct plainHost None bareMachine.

Definition strictConfig : Config :=
  {| cfg_godotPath := None;
     cfg_portalSdkPath := None;
     cfg_portalProjectPath := None;
     cfg_fbExportDataPath := None;
     cfg_pythonPath := None;
     cfg_strictPathValidation := Some true;
     cfg_debugMode := None |}.

Definition strictServer : @St plainHost :=
  @construct plainHost (Some strictConfig) bareMachine.

(** The same machine with [DEBUG=true] in the environment. *)
Definition debugHost : Host := linuxHost [("DEBUG", "true")] "/work".

Definition debugServer : @St debugHost := @construct debugHost None bareMachine.

(** [/opt/godot] is validated before Godot is installed there; then it is
    installed and the server goes on working. *)
Definition probedServer : @St plainHost := snd (isValidGodotPath "/opt/godot" bareServer).

Definition installAndUse : list (@Activity plainHost) :=
  [ @MachineChange plainHost optMachine;
    ToolCall "get_godot_version" None;
    Validation "/usr/bin/godot";
    Detection;
    ToolCall "run_project" runGame ].

(** A server object before detection, started inside the SDK's project
    directory while [PORTAL_SDK_PATH] still names a directory that is gone. *)
Definition staleHost : Host :=
  linuxHost [("PORTAL_SDK_PATH", "/old-sdk")] "/sdk/GodotProject".

Definition staleServer : @St staleHost := @declaredFields staleHost exampleMachine.

(** The same before detection where the environment names the project, or
    the SDK. *)
Definition inProjectHost : @St projectHost := @declaredFields projectHost exampleMachine.

Definition inSdkHost : @St sdkHost := @declaredFields sdkHost exampleMachine.

(** [create_portal_project] with an output directory, and without
    arguments at all. *)
Definition createIn (d : string) : option JSON := Some (JObj [("outputDir", JStr d)]).

Definition created : Result Response * @St sdkHost :=
  @handleCreatePortalProject sdkHost (createIn "/out/./level")
    (startedServer [("PORTAL_SDK_PATH", "/sdk")] "/work").

Definition notCreated : Result Response * @St projectHost :=
  @handleCreatePortalProject projectHost None
    (startedServer [("PORTAL_PROJECT_PATH", "/game")] "/sdk").

(** ** Notions for the further properties *)

(** The order of enumeration among the names of an object: array indices
    first, ascending, then the other names; no name twice. *)
Definition keyBefore (k1 k2 : string) : Prop :=
  match Obj.indexOf k1, Obj.indexOf k2 with
  | Some a, Some b => (a < b)%N
  | Some _, None => True
  | None, Some _ => False
  | None, None => k1 <> k2
  end.

Fixpoint enumeratedKeys (keys : list string) : Prop :=
  match keys with
  | [] => True
  | k :: rest => Forall (keyBefore k) rest /\ enumeratedKeys rest
  end.

Definition enumerated {A} (o : list (string * A)) : Prop := enumeratedKeys (map fst o).

(** The names in the answer to [ListToolsRequestSchema], in order. *)
Definition listedTools : list string :=
  [ "launch_editor"; "run_project"; "get_debug_output"; "stop_project";
    "get_godot_version"; "list_projects"; "get_project_info"; "create_scene";
    "add_node"; "load_sprite"; "export_mesh_library"; "save_scene"; "get_uid";
    "update_project_uids"; "get_portal_sdk_info"; "list_portal_levels";
    "export_portal_level"; "create_portal_project" ].

(** The two tools that create a directory before their [try] block. *)
Definition directoryMakers : list string := ["export_portal_level"; "create_portal_project"].

(** The fields that the input schemas declare as required. *)
Definition requiredFields : list (string * string) :=
  [ ("list_projects", "directory");
    ("create_scene", "scenePath");
    ("add_node", "scenePath"); ("add_node", "nodeType"); ("add_node", "nodeName");
    ("load_sprite", "scenePath"); ("load_sprite", "nodePath"); ("load_sprite", "texturePath");
    ("export_mesh_library", "scenePath"); ("export_mesh_library", "outputPath");
    ("save_scene", "scenePath");
    ("get_uid", "filePath");
    ("export_portal_level", "scenePath") ].

(** Tools whose schema requires no field, with the field that their
    handler reads first. *)
Definition optionalArguments : list (string * string) :=
  [ ("launch_editor", "projectPath");
    ("run_project", "projectPath");
    ("get_project_info", "projectPath");
    ("update_project_uids", "projectPath") ].

(** The number that a run of decimal digits stands for, read from the left
    after [acc]. *)
Fixpoint decimalValue (d : Decimal.uint) (acc : N) : N :=
  match d with
  | Decimal.Nil => acc
  | Decimal.D0 d => decimalValue d (acc * 10 + 0)
  | Decimal.D1 d => decimalValue d (acc * 10 + 1)
  | Decimal.D2 d => decimalValue d (acc * 10 + 2)
  | Decimal.D3 d => decimalValue d (acc * 10 + 3)
  | Decimal.D4 d => decimalValue d (acc * 10 + 4)
  | Decimal.D5 d => decimalValue d (acc * 10 + 5)
  | Decimal.D6 d => decimalValue d (acc * 10 + 6)
  | Decimal.D7 d => decimalValue d (acc * 10 + 7)
  | Decimal.D8 d => decimalValue d (acc * 10 + 8)
  | Decimal.D9 d => decimalValue d (acc * 10 + 9)
  end%N.

Section MoreNotions.

Context `{H : Host}.

(** The text does not go on with a digit. *)
Definition endsNumber (rest : string) : bool :=
  match rest with
  | String c _ => negb (isDigit c)
  | EmptyString => true
  end.

(** The success response of [stop_project] for a child. *)
Definition stoppedResponse (c : Child) : Response :=
  textResponse (Json.stringify2
    (JObj [ ("message", JStr "Godot project stopped");
            ("finalOutput", linesJson (output c));
            ("finalErrors", linesJson (errors c)) ])).

(** The validity cache holds at least the entries of [cache]. *)
Definition cacheExtends (cache : gmap string bool) (s : St) : Prop :=
  cache ⊆ validatedPaths s.

(** What [isValidGodotPath] does to the machine for a path that is not in
    the cache. *)
Definition godotProbe (o : OS) (path : string) : list Event :=
  if String.eqb path "godot" then [EvExec "godot --version"]
  else if existsSync o path
       then [EvExists path; EvExec (Str.dq +:+ path +:+ Str.dq +:+ " --version")]
       else [EvExists path].

(** [godotPath] is set to a path that the cache holds as valid. *)
Definition validated (s : St) : Prop :=
  exists p, godotPath s = Some p /\ validatedPaths s !! p = Some true.

(** The remembered export-data directory is [p]. *)
Definition exportDataIs (p : string) (s : St) : Prop := fbExportDataPath s = Some p.

(** The candidates of [ensurePythonCommand], in the order they are tried. *)
Definition pythonCandidates (s : St) : list string :=
  (if truthy (cfg (initialConfig s) cfg_pythonPath)
   then [opt (cfg (initialConfig s) cfg_pythonPath)] else [])
  ++ (if truthy (getenv "PYTHON_PATH") then [opt (getenv "PYTHON_PATH")] else [])
  ++ ["python3"; "python"].

(** [command] is the first of [candidates] that answers [--version]. *)
Definition firstAnswering (o : OS) (candidates : list string) (command : string) : Prop :=
  exists before after,
    candidates = before ++ command :: after /\
    execFileVersion o command = true /\
    forall b, In b before -> b <> "" -> execFileVersion o b = false.

(** [m] ends with a value, never with an exception. *)
Definition returns {A} (m : M A) : Prop := forall s, exists a s', m s = (Ok a, s').


(** An activity other than a call of [create_portal_project]. *)
Definition notCreateProject (a : Activity) : Prop :=
  match a with
  | ToolCall name _ => name <> "create_portal_project"
  | _ => True
  end.

(** An event that only looks at the file system. *)
Definition isRead (e : Event) : bool :=
  match e with
  | EvExists _ => true
  | _ => false
  end.

Definition onlyReads (events : list Event) : Prop := Forall (fun e => isRead e = true) events.

(** From [s] to [s'] the server has only looked at the file system and
    written debug lines: its Godot path, the machine and the children are
    as they were. *)
Definition framed (s s' : St) : Prop :=
  godotPath s' = godotPath s /\ os s' = os s /\
  activeProcess s' = activeProcess s /\ children s' = children s /\
  (exists reads, trace s' = trace s ++ reads /\ onlyReads reads) /\
  debugOnly s s'.

(** [m] returns, and the state it leaves is [framed]. *)
Definition quietM (m : M unit) : Prop :=
  forall s, exists s', m s = (Ok tt, s') /\ framed s s'.


(** The two output texts of a command, whether it succeeded or not. *)
Definition outputsOf (r : ExecResult) : string * string :=
  match r with
  | ExecOk stdout stderr => (stdout, stderr)
  | ExecError _ stdout stderr => (stdout, stderr)
  end.
End MoreNotions.

(** ** Scanning directories

    What [readdirSync(dir, { withFileTypes: true })] and [existsSync] show
    of a directory tree: an entry is a regular file, a directory, or
    something else (a link, a socket); of a directory, whether
    [existsSync(join(dir, 'project.godot'))] holds and what [readdirSync]
    returns for it, [None] when it throws. *)
Inductive Node : Type :=
| RegularFile
| Special
| Directory (projectFile : bool) (entries : option (list (string * Node))).

(** [s.toLowerCase()] on code units below 256. *)
Definition toLowerCodeUnit (c : ascii) : ascii :=
  let n := nat_of_ascii c in
  if ((65 <=? n)%nat && (n <=? 90)%nat)
     || ((192 <=? n)%nat && (n <=? 222)%nat && negb (n =? 215)%nat)
  then ascii_of_nat (n + 32) else c.

Fixpoint toLowerCase (s : string) : string :=
  match s with
  | EmptyString => EmptyString
  | String c s' => String (toLowerCodeUnit c) (toLowerCase s')
  end.

Section Scans.

Context `{H : Host}.

(** The loop of the recursive branch of [findGodotProjects] over the
    entries of [directory], with the recursive calls it makes: a call on a
    sub-directory pushes nothing for the sub-directory itself, whose
    project file was just found missing. *)
Fixpoint projectsBelow (directory : string) (node : Node) {struct node}
  : list (string * string) :=
  match node with
  | Directory _ (Some entries) =>
      flat_map
        (fun entry =>
           match snd entry with
           | Directory projectFile _ =>
               let subdir := join [directory; fst entry] in
               if Str.startsWith "." (fst entry) then []
               else if projectFile then [(subdir, fst entry)]
               else projectsBelow subdir (snd entry)
           | _ => []
           end)
        entries
  | _ => []
  end.

(** The loop of the other branch: the immediate sub-directories. *)
Definition projectsInside (directory : string) (entries : list (string * Node))
  : list (string * string) :=
  flat_map
    (fun entry =>
       match snd entry with
       | Directory true _ => [(join [directory; fst entry], fst entry)]
       | _ => []
       end)
    entries.

(** [findGodotProjects(directory, recursive)]: the objects [{ path, name }]
    as pairs. *)
Definition findGodotProjects (directory : string) (node : Node) (recursive : bool)
  : list (string * string) :=
  match node with
  | Directory projectFile entries =>
      (if projectFile then [(directory, basename directory)] else [])
      ++ (if recursive then projectsBelow directory node
          else match entries with
               | Some entries => projectsInside directory entries
               | None => []
               end)
  | _ => []
  end.

(** The counters of [getProjectStructureAsync]. *)
Record Counts : Type := mkCounts {
  scenes : nat;
  scripts : nat;
  assets : nat;
  other : nat;
}.

(** [entry.name.split('.').pop()?.toLowerCase()] *)
Definition extension (name : string) : string :=
  toLowerCase (List.last (Str.split "." name) EmptyString).

Definition assetExtensions : list string :=
  ["png"; "jpg"; "jpeg"; "webp"; "svg"; "ttf"; "wav"; "mp3"; "ogg"].

Definition countFile (name : string) (c : Counts) : Counts :=
  let ext := extension name in
  if String.eqb ext "tscn" then mkCounts (S (scenes c)) (scripts c) (assets c) (other c)
  else if String.eqb ext "gd" || String.eqb ext "gdscript" || String.eqb ext "cs"
  then mkCounts (scenes c) (S (scripts c)) (assets c) (other c)
  else if existsb (String.eqb ext) assetExtensions
  then mkCounts (scenes c) (scripts c) (S (assets c)) (other c)
  else mkCounts (scenes c) (scripts c) (assets c) (S (other c)).

(** [scanDirectory(currentPath)] on the counters; [None]: [readdirSync]
    threw somewhere below. *)
Fixpoint scanDirectory (node : Node) (c : Counts) {struct node} : option Counts :=
  match node with
  | Directory _ (Some entries) =>
      fold_left
        (fun acc entry =>
           match acc with
           | None => None
           | Some c =>
               if Str.startsWith "." (fst entry) then Some c
               else match snd entry with
                    | Directory _ _ => scanDirectory (snd entry) c
                    | RegularFile => Some (countFile (fst entry) c)
                    | Special => Some c
                    end
           end)
        entries (Some c)
  | _ => None
  end.

Definition countsJson (c : Counts) : list (string * JSON) :=
  [ ("scenes", JNum (Str.ofN (N.of_nat (scenes c))));
    ("scripts", JNum (Str.ofN (N.of_nat (scripts c))));
    ("assets", JNum (Str.ofN (N.of_nat (assets c))));
    ("other", JNum (Str.ofN (N.of_nat (other c)))) ].

(** [getProjectStructureAsync(projectPath)], the value the promise
    resolves with. *)
Definition getProjectStructureAsync (node : Node) : JSON :=
  match scanDirectory node (mkCounts 0 0 0 0) with
  | Some c => JObj (countsJson c)
  | None =>
      JObj (("error", JStr "Failed to get project structure")
            :: countsJson (mkCounts 0 0 0 0))
  end.

End Scans.

(** The regular files that [scanDirectory] reaches: those whose name, and
    the names of the directories above them, do not start with a dot. *)
Fixpoint visibleFiles (node : Node) : nat :=
  match node with
  | Directory _ (Some entries) =>
      list_sum
        (map (fun entry =>
                if Str.startsWith "." (fst entry) then 0
                else match snd entry with
                     | RegularFile => 1
                     | Special => 0
                     | Directory _ _ => visibleFiles (snd entry)
                     end)
             entries)
  | _ => 0
  end.

(** [readdirSync] succeeds on the directory and on every directory that
    the scan reaches below it. *)
Fixpoint readable (node : Node) : bool :=
  match node with
  | Directory _ (Some entries) =>
      forallb (fun entry =>
                 Str.startsWith "." (fst entry) ||
                 match snd entry with
                 | Directory _ _ => readable (snd entry)
                 | _ => true
                 end)
              entries
  | _ => false
  end.

Definition total (c : Counts) : nat := scenes c + scripts c + assets c + other c.


(** ** Example inputs of the further properties *)

Definition snakeRequest : list (string * JSON) :=
  [("project_path", JStr "/game"); ("scene", JStr "main.tscn")].

(** The running game has printed two lines. *)
Definition printedServer : @St plainHost :=
  afterEvents runningServer [StdoutData 0 ("ready" +:+ Str.nl +:+ "go")].

Definition printedChild : Child := mkChild ["ready"; "go"] [] false ["-d"; "--path"; "/game"].

Definition runNowhere : option JSON := Some (JObj [("project_path", JStr "/nowhere")]).

(** Godot disappears from the machine of a started server. *)
Definition godotRemoved : list (@Activity plainHost) :=
  [ @MachineChange plainHost bareMachine; ToolCall "get_godot_version" None ].

Definition envGodotHost : Host := linuxHost [("GODOT_PATH", "/usr/bin//godot")] "/work".

Definition envGodotServer : @St envGodotHost := @declaredFields envGodotHost exampleMachine.

(** A machine whose Godot is version 4.3. *)
Definition oldGodotMachine : Machine :=
  {| files := ["/usr/bin/godot"; "/game"; "/game/project.godot"];
     commands := [(godotVersionCommand, "4.3.stable.official" +:+ Str.nl)];
     interpreters := [];
     python := PyError "spawn python3 ENOENT" |}.

Definition oldGodotServer : @St plainHost :=
  snd (@run plainHost (@construct plainHost None oldGodotMachine)).

Definition updateGame : option JSON := Some (JObj [("project_path", JStr "/game")]).

(** A directory with a hidden project, a project that holds a hidden
    directory which cannot be read, and a project one level down. *)
Definition exampleTree : Node :=
  Directory false
    (Some [ (".cache", Directory true (Some []));
            ("game", Directory true (Some [ ("main.tscn", RegularFile);
                                            ("player.GD", RegularFile);
                                            ("icon.svg", RegularFile);
                                            (".import", Directory false None) ]));
            ("tools", Directory false (Some [ ("demo", Directory true (Some []));
                                              ("notes.txt", RegularFile) ]));
            ("link", Special) ]).

Definition lockedTree : Node :=
  Directory true (Some [ ("main.tscn", RegularFile); ("private", Directory false None) ]).

(** Requests and events that do not create a Portal project. *)
Definition busyDay : list (@Activity projectHost) :=
  [ ToolCall "run_project" (Some (JObj [("project_path", JStr "/other")]));
    ToolCall "export_portal_level" (Some (JObj [("scenePath", JStr "levels/a.tscn")]));
    @MachineChange projectHost bareMachine;
    Detection;
    ToolCall "get_portal_sdk_info" None ].

(** A configuration that names the Godot executable. *)
Definition godotAt (path : string) : Config :=
  {| cfg_godotPath := Some path;
     cfg_portalSdkPath := None;
     cfg_portalProjectPath := None;
     cfg_fbExportDataPath := None;
     cfg_pythonPath := None;
     cfg_strictPathValidation := None;
     cfg_debugMode := None |}.


(** A machine where only [python] answers, and the same machine once
    [python3] is installed too; the server has looked for Python on the
    first one. *)
Definition pythonMachine : Machine :=
  {| files := []; commands := []; interpreters := ["python"];
     python := PyClosed "" "" (Some 0) |}.

Definition bothPythons : Machine :=
  {| files := []; commands := []; interpreters := ["python3"; "python"];
     python := PyClosed "" "" (Some 0) |}.

Definition pythonServer : @St plainHost :=
  @set_os plainHost bothPythons
    (snd (@ensurePythonCommand plainHost (@construct plainHost None pythonMachine))).

(** A request for a new scene in the game project. *)
Definition newScene : option JSON :=
  Some (JObj [("project_path", JStr "/game"); ("scene_path", JStr "levels/main.tscn")]).
(** * Parameter names *)

Section ParameterNames.

Lemma normalizedKey_table snake camel :
  In (snake, camel) parameterMappings -> normalizedKey snake = camel.
Proof.
  unfold parameterMappings; simpl.
  intros Hin.
  repeat (destruct Hin as [Heq | Hin];
          [inversion Heq; subst; reflexivity |]).
  destruct Hin.
Qed.

Lemma snakeKey_table snake camel :
  In (snake, camel) parameterMappings -> snakeKey camel = snake.
Proof.
  unfold parameterMappings; simpl.
  intros Hin.
  repeat (destruct Hin as [Heq | Hin];
          [inversion Heq; subst; vm_compute; reflexivity |]).
  destruct Hin.
Qed.

Lemma table_keys_not_index snake camel :
  In (snake, camel) parameterMappings ->
  Obj.indexOf snake = None /\ Obj.indexOf camel = None.
Proof.
  unfold parameterMappings; simpl.
  intros Hin.
  repeat (destruct Hin as [Heq | Hin];
          [inversion Heq; subst; vm_compute; split; reflexivity |]).
  destruct Hin.
Qed.

Lemma table_keys_not_proto snake camel :
  In (snake, camel) parameterMappings ->
  String.eqb snake "__proto__" = false /\ String.eqb camel "__proto__" = false.
Proof.
  unfold parameterMappings; simpl.
  intros Hin.
  repeat (destruct Hin as [Heq | Hin];
          [inversion Heq; subst; vm_compute; split; reflexivity |]).
  destruct Hin.
Qed.

Lemma normalizeNested_scalar v : isPlainObject v = false -> normalizeNested v = v.
Proof. destruct v; simpl; congruence. Qed.

Lemma convertNested_scalar v : isPlainObject v = false -> convertNested v = v.
Proof. destruct v; simpl; congruence. Qed.

Lemma set_empty {A} k (v : A) :
  String.eqb k "__proto__" = false -> Obj.indexOf k = None -> Obj.assign [] k v = [(k, v)].
Proof. intros Hproto Hk. unfold Obj.assign, Obj.set. simpl. rewrite Hproto, Hk. reflexivity. Qed.

(** A singleton whose key is in the table, in either direction. *)
Lemma normalize_singleton snake camel v :
  In (snake, camel) parameterMappings ->
  normalizeParameters (JObj [(snake, v)]) = JObj [(camel, normalizeNested v)].
Proof.
  intros Hin. simpl.
  rewrite (normalizedKey_table _ _ Hin).
  rewrite set_empty;
    [reflexivity | apply (table_keys_not_proto _ _ Hin) | apply (table_keys_not_index _ _ Hin)].
Qed.

Lemma convert_singleton snake camel v :
  In (snake, camel) parameterMappings ->
  convertCamelToSnakeCase [(camel, v)] = JObj [(snake, convertNested v)].
Proof.
  intros Hin. unfold convertCamelToSnakeCase. simpl.
  rewrite (snakeKey_table _ _ Hin).
  rewrite set_empty;
    [reflexivity | apply (table_keys_not_proto _ _ Hin) | apply (table_keys_not_index _ _ Hin)].
Qed.

(** C7, as amended. For every entry of [parameterMappings] and every value
    that is not itself an object (a string, number, boolean, [null] or
    array), [normalizeParameters] maps the singleton with the snake-case
    key to the singleton with the camel-case key and the same value,
    [convertCamelToSnakeCase] maps it back, and both round trips restore
    the singleton they started from. *)
Theorem C7_table_round_trip snake camel v :
  In (snake, camel) parameterMappings ->
  isPlainObject v = false ->
  normalizeParameters (JObj [(snake, v)]) = JObj [(camel, v)] /\
  convertCamelToSnakeCase [(camel, v)] = JObj [(snake, v)] /\
  roundTripFromSnake (JObj [(snake, v)]) = JObj [(snake, v)] /\
  roundTripFromCamel [(camel, v)] = JObj [(camel, v)].
Proof.
  intros Hin Hv.
  assert (Hn : normalizeParameters (JObj [(snake, v)]) = JObj [(camel, v)]).
  { rewrite (normalize_singleton _ _ _ Hin), (normalizeNested_scalar _ Hv). reflexivity. }
  assert (Hc : convertCamelToSnakeCase [(camel, v)] = JObj [(snake, v)]).
  { rewrite (convert_singleton _ _ _ Hin), (convertNested_scalar _ Hv). reflexivity. }
  repeat split; [exact Hn | exact Hc | |].
  - unfold roundTripFromSnake. rewrite Hn. exact Hc.
  - unfold roundTripFromCamel. rewrite Hc. exact Hn.
Qed.

Lemma C7_table_round_trip_witness :
  In ("scene_path", "scenePath") parameterMappings /\
  isPlainObject (JStr "a.tscn") = false /\
  normalizeParameters (JObj [("scene_path", JStr "a.tscn")])
    = JObj [("scenePath", JStr "a.tscn")] /\
  convertCamelToSnakeCase [("scenePath", JStr "a.tscn")]
    = JObj [("scene_path", JStr "a.tscn")].
Proof.
  assert (Hin : In ("scene_path", "scenePath") parameterMappings)
    by (simpl; right; left; reflexivity).
  split; [exact Hin |].
  split; [reflexivity |].
  destruct (C7_table_round_trip "scene_path" "scenePath" (JStr "a.tscn") Hin eq_refl)
    as (Hn & Hc & _).
  split; [exact Hn | exact Hc].
Defined.

(** The value of a singleton is converted too when it is an object: the
    keys inside it are renamed, so the value that comes back differs. *)
Lemma C7_object_value_is_renamed :
  let v := JObj [("node_type", JNum "1"); ("fooBar", JNull)] in
  normalizeParameters (JObj [("scene_path", v)]) <> JObj [("scenePath", v)] /\
  roundTripFromSnake (JObj [("scene_path", v)]) <> JObj [("scene_path", v)] /\
  roundTripFromSnake (JObj [("scene_path", v)])
    = JObj [("scene_path", JObj [("node_type", JNum "1"); ("foo_bar", JNull)])].
Proof.
  repeat split; vm_compute; congruence.
Qed.

End ParameterNames.

(** * The command line of [executeOperation] *)

Section CommandLine.

Lemma append_assoc a b c : (a +:+ b) +:+ c = a +:+ (b +:+ c).
Proof. induction a as [| x a IH]; simpl; [reflexivity | rewrite IH; reflexivity]. Qed.

Lemma rev_acc_app s acc : Str.rev_acc s acc = Str.rev s +:+ acc.
Proof.
  unfold Str.rev. revert acc.
  induction s as [| c s IH]; intros acc; simpl; [reflexivity |].
  rewrite IH, (IH (String c EmptyString)).
  rewrite append_assoc. reflexivity.
Qed.

Lemma rev_cons c s : Str.rev (String c s) = Str.rev s +:+ String c EmptyString.
Proof. unfold Str.rev at 1. simpl. apply rev_acc_app. Qed.

Lemma append_empty_r s : s +:+ EmptyString = s.
Proof. induction s; simpl; congruence. Qed.

Lemma split_go_nonempty sep s cur : Str.split_go sep s cur <> [].
Proof.
  revert cur. induction s as [| c s IH]; intros cur; simpl; [discriminate |].
  destruct (Ascii.eqb c sep); [discriminate | apply IH].
Qed.

Lemma concat_cons sep x xs :
  xs <> [] -> String.concat sep (x :: xs) = x +:+ sep +:+ String.concat sep xs.
Proof. destruct xs; [congruence | reflexivity]. Qed.

(** Replacing every occurrence of one character is splitting at it and
    joining the pieces with the replacement. *)
Lemma replaceAll_split_go sep r s cur :
  String.concat r (Str.split_go sep s cur)
  = Str.rev cur +:+ Str.replaceAll (Ascii.eqb sep) (fun _ => r) s.
Proof.
  revert cur. induction s as [| c s IH]; intros cur; simpl.
  - symmetry. apply append_empty_r.
  - rewrite (Ascii.eqb_sym sep c).
    destruct (Ascii.eqb c sep) eqn:Hc.
    + rewrite concat_cons by apply split_go_nonempty.
      rewrite IH. simpl. reflexivity.
    + rewrite IH, rev_cons, append_assoc. reflexivity.
Qed.

Lemma replaceAll_split sep r s :
  Str.replaceAll (Ascii.eqb sep) (fun _ => r) s = Str.join r (Str.split sep s).
Proof.
  unfold Str.join, Str.split. rewrite replaceAll_split_go. reflexivity.
Qed.

Lemma replaceAll_ext cls cls' f s :
  (forall c, cls c = cls' c) -> Str.replaceAll cls f s = Str.replaceAll cls' f s.
Proof.
  intros Hext. induction s as [| c s IH]; simpl; [reflexivity |].
  rewrite Hext, IH. reflexivity.
Qed.

Lemma isSingleQuote_eqb c : isSingleQuote c = Ascii.eqb "'"%char c.
Proof. destruct c as [[] [] [] [] [] [] [] []]; reflexivity. Qed.

Lemma isDoubleQuote_eqb c : isDoubleQuote c = Ascii.eqb (ascii_of_nat 34) c.
Proof. destruct c as [[] [] [] [] [] [] [] []]; reflexivity. Qed.

(** A POSIX shell reads the element back as one word, the JSON text. *)
Lemma shellWord_escaped blob :
  shellWord true (escapedParams blob +:+ "'") = Some blob.
Proof.
  induction blob as [| c blob IH]; [reflexivity |].
  unfold escapedParams in *. cbn [Str.replaceAll].
  destruct (isSingleQuote c) eqn:Hc.
  - cbn. rewrite IH. cbn.
    rewrite isSingleQuote_eqb in Hc. apply Ascii.eqb_eq in Hc. subst c. reflexivity.
  - cbn. rewrite Hc, IH. reflexivity.
Qed.

Lemma shellWord_quotedParams blob :
  shellWord false (quotedParams false blob) = Some blob.
Proof.
  unfold quotedParams. cbn. apply shellWord_escaped.
Qed.

(** C3, as amended. For every parameter map, the array that
    [executeOperation] joins with spaces holds the quoted JSON text as one
    element, the eighth of nine. On Windows that element is the JSON text
    between double quotes with a backslash before each double quote inside;
    elsewhere it is the JSON text between single quotes with each single
    quote inside replaced by the four characters quote, backslash, quote,
    quote, which a POSIX shell reads back as one word, the JSON text. *)
Theorem C3_quoted_blob platformName godot project script operation params :
  let blob := Json.stringify (convertCamelToSnakeCase params) in
  let posixQuoted := "'" +:+ Str.join "'\''" (Str.split "'"%char blob) +:+ "'" in
  let quoted :=
    if String.eqb platformName "win32"
    then Str.dq +:+ Str.join ("\" +:+ Str.dq) (Str.split (ascii_of_nat 34) blob) +:+ Str.dq
    else posixQuoted in
  operationArgv platformName godot project script operation params
  = [ Str.dq +:+ godot +:+ Str.dq; "--headless"; "--path";
      Str.dq +:+ project +:+ Str.dq; "--script"; Str.dq +:+ script +:+ Str.dq;
      operation; quoted; "--debug-godot" ] /\
  operationCommand platformName godot project script operation params
  = Str.join " "
      [ Str.dq +:+ godot +:+ Str.dq; "--headless"; "--path";
        Str.dq +:+ project +:+ Str.dq; "--script"; Str.dq +:+ script +:+ Str.dq;
        operation; quoted; "--debug-godot" ] /\
  shellWord false posixQuoted = Some blob.
Proof.
  intros blob posixQuoted quoted.
  assert (Hposix : quotedParams false blob = posixQuoted).
  { unfold quotedParams, posixQuoted, escapedParams.
    rewrite (replaceAll_ext _ _ _ _ isSingleQuote_eqb), replaceAll_split. reflexivity. }
  assert (Hq : quotedParams (String.eqb platformName "win32") blob = quoted).
  { unfold quoted. destruct (String.eqb platformName "win32"); [| exact Hposix].
    unfold quotedParams, escapedParams.
    rewrite (replaceAll_ext _ _ _ _ isDoubleQuote_eqb), replaceAll_split. reflexivity. }
  unfold operationCommand, operationArgv. fold blob. rewrite Hq.
  split; [reflexivity |]. split; [reflexivity |].
  rewrite <- Hposix. apply shellWord_quotedParams.
Qed.

(** The specification says that a single quote inside is doubled; the
    element holds the four characters instead, and a doubled quote would
    not be read back as the JSON text. *)
Lemma C3_single_quote_is_not_doubled :
  let params := [("nodeName", JStr "it's")] in
  let blob := Json.stringify (convertCamelToSnakeCase params) in
  nth 7 (operationArgv "linux" "/usr/bin/godot" "/proj" "/srv/scripts/godot_operations.gd"
                       "add_node" params) EmptyString
  <> quotedByDoubling blob /\
  quotedParams false blob
  = "'{" +:+ Str.dq +:+ "node_name" +:+ Str.dq +:+ ":" +:+ Str.dq +:+ "it'\''s"
    +:+ Str.dq +:+ "}'" /\
  shellWord false (quotedByDoubling blob) <> Some blob.
Proof.
  repeat split; vm_compute; congruence.
Qed.

End CommandLine.

(** * Reasoning about the methods *)

Section Frames.

Context `{H : Host}.


Lemma keeps_ret P {A} (a : A) : keeps P (mret a).
Proof. intros s Hs. exact Hs. Qed.

Lemma keeps_throw P {A} e : keeps P (@throw _ A e).
Proof. intros s Hs. exact Hs. Qed.

Lemma keeps_gets P {A} (f : St -> A) : keeps P (gets f).
Proof. intros s Hs. exact Hs. Qed.

Lemma keeps_modify (P : St -> Prop) f : (forall s, P s -> P (f s)) -> keeps P (modify f).
Proof. intros Hf s Hs. apply Hf, Hs. Qed.

Lemma keeps_bind P {A B} (m : M A) (k : A -> M B) :
  keeps P m -> (forall a, keeps P (k a)) -> keeps P (m ≫= k).
Proof.
  intros Hm Hk s Hs. unfold mbind, M_bind, bind.
  specialize (Hm s Hs). destruct (m s) as [[a | e] s']; simpl in *.
  - apply Hk, Hm.
  - exact Hm.
Qed.

Lemma keeps_tryCatch P {A} (m : M A) handler :
  keeps P m -> (forall e, keeps P (handler e)) -> keeps P (tryCatch m handler).
Proof.
  intros Hm Hh s Hs. unfold tryCatch.
  specialize (Hm s Hs). destruct (m s) as [[a | e] s']; simpl in *.
  - exact Hm.
  - apply Hh, Hm.
Qed.

(** The steps that take a method apart: binds, branches, the blocks the
    handlers share; a leaf is a primitive that leaves the fields of
    interest alone. *)
Ltac keeps_leaf :=
  let s := fresh "s" in
  let Hs := fresh "Hs" in
  intros s Hs; cbn in *; repeat (case_match; cbn in * ); try assumption.

Ltac keeps_step :=
  first
    [ apply keeps_ret
    | apply keeps_throw
    | apply keeps_gets
    | apply keeps_bind; [| intros ?]
    | apply keeps_tryCatch; [| intros ?]
    | assumption
    | match goal with
      | |- keeps _ (if ?b then _ else _) => destruct b
      | |- keeps _ (match ?x with _ => _ end) => destruct x
      | |- keeps _ (let _ := _ in _) => cbv zeta
      end ].


Lemma isValidGodotPath_cached path s :
  cachedInvalid path s -> isValidGodotPath path s = (Ok false, s).
Proof.
  unfold cachedInvalid, isValidGodotPath. intros Hs.
  unfold mbind, M_bind, bind, gets. cbn. rewrite Hs. reflexivity.
Qed.

Lemma isValidGodotPath_keeps_cached path q :
  keeps (cachedInvalid path) (isValidGodotPath q).
Proof.
  intros s Hs. unfold cachedInvalid in *.
  unfold isValidGodotPath, cacheVerdict, exec, mbind, M_bind, bind, gets, modify, mret, M_ret, ret.
  cbn.
  destruct (validatedPaths s !! q) eqn:Hq; cbn; [exact Hs |].
  assert (Hne : q <> path) by (intros ->; congruence).
  destruct (negb (String.eqb q "godot")); cbn.
  - destruct (negb (existsSync (os s) q)); cbn.
    + rewrite lookup_insert_ne by exact Hne. exact Hs.
    + destruct (execAsync (os s) _) as [[] ?]; cbn;
        rewrite lookup_insert_ne by exact Hne; exact Hs.
  - destruct (execAsync (os s) _) as [[] ?]; cbn;
      rewrite lookup_insert_ne by exact Hne; exact Hs.
Qed.

Create HintDb keeps discriminated.

Ltac keeps_auto :=
  repeat first [ solve [eauto 2 with keeps] | keeps_step ].

(** A property of the state that the setters below preserve is kept by
    every method built from them. Each lemma depends on the hypotheses
    about the fields that its method writes, and on no other. *)
Section Kept.

Variable P : St -> Prop.

Hypothesis P_emit : forall evs s, P s -> P (emit evs s).
Hypothesis P_print : forall lines s, P s -> P (print lines s).
Hypothesis P_os : forall o s, P s -> P (set_os o s).
Hypothesis P_godotPath : forall v s, P s -> P (set_godotPath v s).
Hypothesis P_pythonCommand : forall v s, P s -> P (set_pythonCommand v s).
Hypothesis P_activeProcess : forall v s, P s -> P (set_activeProcess v s).
Hypothesis P_children : forall v s, P s -> P (set_children v s).
Hypothesis P_portalProjectPath : forall v s, P s -> P (set_portalProjectPath v s).
Hypothesis P_detectPortalPaths : forall s, P s -> P (detectPortalPaths s).
Hypothesis P_isValidGodotPath : forall q, keeps P (isValidGodotPath q).

Lemma existsM_keeps p : keeps P (existsM p).
Proof. intros s Hs. apply P_emit, Hs. Qed.

Lemma exec_keeps c : keeps P (exec c).
Proof. intros s Hs. apply P_emit, P_os, Hs. Qed.

Lemma validatePythonCommand_keeps c : keeps P (validatePythonCommand c).
Proof. intros s Hs. apply P_emit, Hs. Qed.

Lemma mkdirM_keeps p : keeps P (mkdirM p).
Proof.
  intros s Hs. unfold mkdirM.
  destruct (mkdirSync (os s) p); simpl; [| apply P_emit, P_os]; auto.
Qed.

Lemma kill_keeps h : keeps P (kill h).
Proof. intros s Hs. apply P_emit, P_children, Hs. Qed.

Lemma spawnChild_keeps args : keeps P (spawnChild args).
Proof.
  unfold spawnChild. keeps_auto. intros st Hst. apply P_emit, P_children, Hst.
Qed.

Lemma detectPortalPaths_keeps : keeps P (modify detectPortalPaths).
Proof. apply keeps_modify, P_detectPortalPaths. Qed.

Lemma set_godotPath_keeps v : keeps P (modify (set_godotPath v)).
Proof. apply keeps_modify, P_godotPath. Qed.

Lemma set_pythonCommand_keeps v : keeps P (modify (set_pythonCommand v)).
Proof. apply keeps_modify, P_pythonCommand. Qed.

Lemma set_activeProcess_keeps v : keeps P (modify (set_activeProcess v)).
Proof. apply keeps_modify, P_activeProcess. Qed.

Lemma set_portalProjectPath_keeps v : keeps P (modify (set_portalProjectPath v)).
Proof. apply keeps_modify, P_portalProjectPath. Qed.

Lemma print_keeps lines : keeps P (modify (print lines)).
Proof. apply keeps_modify, P_print. Qed.

Lemma emit_keeps evs : keeps P (modify (emit evs)).
Proof. apply keeps_modify, P_emit. Qed.

#[local] Hint Resolve P_isValidGodotPath existsM_keeps exec_keeps
  validatePythonCommand_keeps mkdirM_keeps kill_keeps spawnChild_keeps
  detectPortalPaths_keeps set_godotPath_keeps set_pythonCommand_keeps
  set_activeProcess_keeps set_portalProjectPath_keeps print_keeps emit_keeps : keeps.

Lemma tryPaths_keeps paths : keeps P (tryPaths paths).
Proof. induction paths as [| q rest IH]; cbn [tryPaths]; keeps_auto. Qed.

Lemma tryPython_keeps candidates tested : keeps P (tryPython candidates tested).
Proof.
  revert tested. induction candidates as [| c rest IH]; intros tested;
    cbn [tryPython]; keeps_auto.
Qed.

#[local] Hint Resolve tryPaths_keeps tryPython_keeps : keeps.

Lemma detectGodotPath_keeps : keeps P detectGodotPath.
Proof. unfold detectGodotPath. keeps_auto. Qed.

Lemma setGodotPath_keeps p : keeps P (setGodotPath p).
Proof. unfold setGodotPath. keeps_auto. Qed.

#[local] Hint Resolve detectGodotPath_keeps setGodotPath_keeps : keeps.

Lemma fail_keeps message sols : keeps P (fail message sols).
Proof. unfold fail. keeps_auto. Qed.
#[local] Hint Resolve fail_keeps : keeps.

Lemma getArg_keeps args name : keeps P (getArg args name).
Proof. unfold getArg. keeps_auto. Qed.
#[local] Hint Resolve getArg_keeps : keeps.

Lemma pathString_keeps v : keeps P (pathString v).
Proof. unfold pathString. keeps_auto. Qed.
#[local] Hint Resolve pathString_keeps : keeps.

Lemma validatePath_keeps v : keeps P (validatePath v).
Proof. unfold validatePath. keeps_auto. Qed.
#[local] Hint Resolve validatePath_keeps : keeps.

Lemma presentAndInvalid_keeps v : keeps P (presentAndInvalid v).
Proof. unfold presentAndInvalid. keeps_auto. Qed.
#[local] Hint Resolve presentAndInvalid_keeps : keeps.

Lemma joinArg_keeps a b : keeps P (joinArg a b).
Proof. unfold joinArg. keeps_auto. Qed.
#[local] Hint Resolve joinArg_keeps : keeps.

Lemma toAbsolutePathArg_keeps a b : keeps P (toAbsolutePathArg a b).
Proof. unfold toAbsolutePathArg. keeps_auto. Qed.
#[local] Hint Resolve toAbsolutePathArg_keeps : keeps.

Lemma resolveProjectPath_keeps v : keeps P (resolveProjectPath v).
Proof. unfold resolveProjectPath. keeps_auto. Qed.
#[local] Hint Resolve resolveProjectPath_keeps : keeps.

Lemma ensureGodotPath_keeps  : keeps P (ensureGodotPath).
Proof. unfold ensureGodotPath. keeps_auto. Qed.
#[local] Hint Resolve ensureGodotPath_keeps : keeps.

Lemma execStdout_keeps c : keeps P (execStdout c).
Proof. unfold execStdout. keeps_auto. Qed.
#[local] Hint Resolve execStdout_keeps : keeps.

Lemma executeOperation_keeps operation params projectPath : keeps P (executeOperation operation params projectPath).
Proof. unfold executeOperation. keeps_auto. Qed.
#[local] Hint Resolve executeOperation_keeps : keeps.

Lemma ensurePythonCommand_keeps  : keeps P (ensurePythonCommand).
Proof. unfold ensurePythonCommand. keeps_auto. Qed.
#[local] Hint Resolve ensurePythonCommand_keeps : keeps.

Lemma runPythonScript_keeps scriptPath args : keeps P (runPythonScript scriptPath args).
Proof.
  unfold runPythonScript. keeps_auto.
  intros st Hst. apply P_emit, P_os, Hst.
Qed.
#[local] Hint Resolve runPythonScript_keeps : keeps.

Lemma getGdConverterScriptPath_keeps scriptName : keeps P (getGdConverterScriptPath scriptName).
Proof. unfold getGdConverterScriptPath. keeps_auto. Qed.
#[local] Hint Resolve getGdConverterScriptPath_keeps : keeps.

Lemma chooseFbExportData_keeps v : keeps P (chooseFbExportData v).
Proof. unfold chooseFbExportData. keeps_auto. Qed.
#[local] Hint Resolve chooseFbExportData_keeps : keeps.

Lemma invalidProjectPath_keeps  : keeps P (invalidProjectPath).
Proof. unfold invalidProjectPath. keeps_auto. Qed.
#[local] Hint Resolve invalidProjectPath_keeps : keeps.

Lemma invalidPath_keeps  : keeps P (invalidPath).
Proof. unfold invalidPath. keeps_auto. Qed.
#[local] Hint Resolve invalidPath_keeps : keeps.

Lemma projectPathRequired_keeps  : keeps P (projectPathRequired).
Proof. unfold projectPathRequired. keeps_auto. Qed.
#[local] Hint Resolve projectPathRequired_keeps : keeps.

Lemma notAGodotProject_keeps p : keeps P (notAGodotProject p).
Proof. unfold notAGodotProject. keeps_auto. Qed.
#[local] Hint Resolve notAGodotProject_keeps : keeps.

Lemma godotNotFound_keeps  : keeps P (godotNotFound).
Proof. unfold godotNotFound. keeps_auto. Qed.
#[local] Hint Resolve godotNotFound_keeps : keeps.

Lemma sceneMissing_keeps v : keeps P (sceneMissing v).
Proof. unfold sceneMissing. keeps_auto. Qed.
#[local] Hint Resolve sceneMissing_keeps : keeps.

Lemma fbExportDataNotFound_keeps  : keeps P (fbExportDataNotFound).
Proof. unfold fbExportDataNotFound. keeps_auto. Qed.
#[local] Hint Resolve fbExportDataNotFound_keeps : keeps.

Lemma inProject_keeps projectPath what body :
  keeps P body -> keeps P (inProject projectPath what body).
Proof. intros Hb. unfold inProject. keeps_auto. Qed.

Lemma requireScene_keeps projectPath v body :
  keeps P body -> keeps P (requireScene projectPath v body).
Proof. intros Hb. unfold requireScene. keeps_auto. Qed.

Lemma requireUidSupport_keeps body :
  keeps P body -> keeps P (requireUidSupport body).
Proof. intros Hb. unfold requireUidSupport. keeps_auto. Qed.

Ltac keeps_handler :=
  repeat first [ solve [eauto 2 with keeps]
               | apply inProject_keeps
               | apply requireScene_keeps
               | apply requireUidSupport_keeps
               | keeps_step ].

Lemma handleGetDebugOutput_keeps : keeps P handleGetDebugOutput.
Proof. unfold handleGetDebugOutput. keeps_handler. Qed.
#[local] Hint Resolve handleGetDebugOutput_keeps : keeps.

Lemma handleStopProject_keeps : keeps P handleStopProject.
Proof. unfold handleStopProject. keeps_handler. Qed.
#[local] Hint Resolve handleStopProject_keeps : keeps.

Lemma handleGetGodotVersion_keeps : keeps P handleGetGodotVersion.
Proof. unfold handleGetGodotVersion. keeps_handler. Qed.
#[local] Hint Resolve handleGetGodotVersion_keeps : keeps.

Lemma handleGetPortalSdkInfo_keeps : keeps P handleGetPortalSdkInfo.
Proof. unfold handleGetPortalSdkInfo. keeps_handler. Qed.
#[local] Hint Resolve handleGetPortalSdkInfo_keeps : keeps.

Lemma handleLaunchEditor_keeps args : keeps P (handleLaunchEditor args).
Proof. unfold handleLaunchEditor. keeps_handler. Qed.
#[local] Hint Resolve handleLaunchEditor_keeps : keeps.

Lemma handleRunProject_keeps args : keeps P (handleRunProject args).
Proof. unfold handleRunProject. keeps_handler. Qed.
#[local] Hint Resolve handleRunProject_keeps : keeps.

Lemma handleListProjects_keeps args : keeps P (handleListProjects args).
Proof. unfold handleListProjects. keeps_handler. Qed.
#[local] Hint Resolve handleListProjects_keeps : keeps.

Lemma handleGetProjectInfo_keeps args : keeps P (handleGetProjectInfo args).
Proof. unfold handleGetProjectInfo. keeps_handler. Qed.
#[local] Hint Resolve handleGetProjectInfo_keeps : keeps.

Lemma handleCreateScene_keeps args : keeps P (handleCreateScene args).
Proof. unfold handleCreateScene. keeps_handler. Qed.
#[local] Hint Resolve handleCreateScene_keeps : keeps.

Lemma handleAddNode_keeps args : keeps P (handleAddNode args).
Proof. unfold handleAddNode. keeps_handler. Qed.
#[local] Hint Resolve handleAddNode_keeps : keeps.

Lemma handleLoadSprite_keeps args : keeps P (handleLoadSprite args).
Proof. unfold handleLoadSprite. keeps_handler. Qed.
#[local] Hint Resolve handleLoadSprite_keeps : keeps.

Lemma handleExportMeshLibrary_keeps args : keeps P (handleExportMeshLibrary args).
Proof. unfold handleExportMeshLibrary. keeps_handler. Qed.
#[local] Hint Resolve handleExportMeshLibrary_keeps : keeps.

Lemma handleSaveScene_keeps args : keeps P (handleSaveScene args).
Proof. unfold handleSaveScene. keeps_handler. Qed.
#[local] Hint Resolve handleSaveScene_keeps : keeps.

Lemma handleGetUid_keeps args : keeps P (handleGetUid args).
Proof. unfold handleGetUid. keeps_handler. Qed.
#[local] Hint Resolve handleGetUid_keeps : keeps.

Lemma handleUpdateProjectUids_keeps args : keeps P (handleUpdateProjectUids args).
Proof. unfold handleUpdateProjectUids. keeps_handler. Qed.
#[local] Hint Resolve handleUpdateProjectUids_keeps : keeps.

Lemma handleListPortalLevels_keeps args : keeps P (handleListPortalLevels args).
Proof. unfold handleListPortalLevels. keeps_handler. Qed.
#[local] Hint Resolve handleListPortalLevels_keeps : keeps.

Lemma handleExportPortalLevel_keeps args : keeps P (handleExportPortalLevel args).
Proof. unfold handleExportPortalLevel. keeps_handler. Qed.
#[local] Hint Resolve handleExportPortalLevel_keeps : keeps.

Lemma handleCreatePortalProject_keeps args : keeps P (handleCreatePortalProject args).
Proof. unfold handleCreatePortalProject. keeps_handler. Qed.
#[local] Hint Resolve handleCreatePortalProject_keeps : keeps.

Lemma callTool_keeps name args : keeps P (callTool name args).
Proof. unfold callTool. keeps_auto. Qed.

Lemma run_keeps s : P s -> P (snd (run s)).
Proof.
  intros Hs. unfold run.
  match goal with
  | |- context [match ?body s with _ => _ end] =>
      assert (Hbody : keeps P body) by keeps_auto;
      specialize (Hbody s Hs); destruct (body s) as [[outcome | e] s']
  end; [exact Hbody | apply P_print, Hbody].
Qed.

Lemma deliver_keeps e s : P s -> P (deliver e s).
Proof.
  intros Hs. destruct e; simpl; try (apply P_children, Hs);
    unfold clearIfActive; repeat case_match; try exact Hs; apply P_activeProcess, Hs.
Qed.

Lemma afterAll_keeps activities s : P s -> P (afterAll s activities).
Proof.
  unfold afterAll. revert s.
  induction activities as [| a rest IH]; intros s Hs; simpl; [exact Hs |].
  apply IH. destruct a as [name args | q | | q | | e | o]; simpl.
  - apply callTool_keeps, Hs.
  - apply P_isValidGodotPath, Hs.
  - apply detectGodotPath_keeps, Hs.
  - apply setGodotPath_keeps, Hs.
  - apply run_keeps, Hs.
  - apply deliver_keeps, Hs.
  - apply P_os, Hs.
Qed.

End Kept.

Lemma afterAll_keeps_cached path activities s :
  cachedInvalid path s -> cachedInvalid path (afterAll s activities).
Proof.
  apply afterAll_keeps; try (intros; assumption).
  apply isValidGodotPath_keeps_cached.
Qed.

(** A new server has validated nothing. *)
Lemma construct_cache config o : validatedPaths (construct config o) = ∅.
Proof.
  unfold construct, constructor, customGodotPath, isValidGodotPathSync, existsM, logDebug,
    mbind, M_bind, bind, modify, mret, M_ret, ret.
  destruct config as [c |];
    [destruct (cfg_strictPathValidation c), (cfg_debugMode c) |]; cbn;
    repeat match goal with
           | |- context [if ?b then _ else _] => destruct b; cbn
           end; reflexivity.
Qed.

(** C9. Once the cache holds [false] for a path, whatever the server does
    afterwards (tool requests, validations of any path, detection,
    [setGodotPath], start-up, events of a child, changes of the machine),
    validating that path again answers [false] and leaves the state, the
    record of file-system reads and launched commands included, as it was:
    no probe is made. Supplying the path again through [setGodotPath]
    answers from the cache too; only a server built from a new
    configuration starts with an empty cache. *)
Theorem C9_invalid_verdict_is_final path s activities :
  validatedPaths s !! path = Some false ->
  let s' := afterAll s activities in
  isValidGodotPath path s' = (Ok false, s') /\
  (forall customPath, customPath <> "" -> normalize customPath = path ->
     setGodotPath customPath s' = (Ok false, s')) /\
  (forall config o, validatedPaths (construct config o) = ∅).
Proof.
  intros Hs s'.
  assert (Hs' : cachedInvalid path s') by (apply afterAll_keeps_cached, Hs).
  repeat split.
  - apply isValidGodotPath_cached, Hs'.
  - intros customPath Hne Hnorm. unfold setGodotPath.
    apply String.eqb_neq in Hne. rewrite Hne, Hnorm.
    unfold mbind, M_bind, bind. rewrite (isValidGodotPath_cached _ _ Hs'). reflexivity.
  - intros config o. apply construct_cache.
Qed.

(** * Detection of the Godot executable *)

Section Detection.

Lemma DEBUG_MODE_true : DEBUG_MODE = true <-> getenv "DEBUG" = Some "true".
Proof.
  unfold DEBUG_MODE. destruct (getenv "DEBUG") as [value |].
  - rewrite String.eqb_eq. split; [intros -> | intros [= ->]]; reflexivity.
  - split; discriminate.
Qed.

Lemma isDebugLine_debug message : isDebugLine ("[DEBUG] " +:+ message) = true.
Proof. unfold isDebugLine, Str.startsWith. cbn. destruct message; reflexivity. Qed.

Lemma debugLines_debug message : forallb isDebugLine (debugLines message) = true.
Proof.
  unfold debugLines. destruct DEBUG_MODE; [| reflexivity].
  cbn [forallb]. rewrite isDebugLine_debug. reflexivity.
Qed.

Lemma debugLines_off message : DEBUG_MODE = false -> debugLines message = [].
Proof. unfold debugLines. intros ->. reflexivity. Qed.

Lemma debugOnly_refl s : debugOnly s s.
Proof. exists []. rewrite app_nil_r. auto. Qed.

Lemma debugOnly_trans s1 s2 s3 : debugOnly s1 s2 -> debugOnly s2 s3 -> debugOnly s1 s3.
Proof.
  intros (l1 & H1 & Hd1 & Hoff1) (l2 & H2 & Hd2 & Hoff2).
  exists (l1 ++ l2). rewrite H2, H1, <- app_assoc. split; [reflexivity |].
  split; [rewrite forallb_app, Hd1, Hd2; reflexivity |].
  intros Hoff. rewrite (Hoff1 Hoff), (Hoff2 Hoff). reflexivity.
Qed.

Lemma debugOnly_logged message s s' :
  console s' = console s ++ debugLines message -> debugOnly s s'.
Proof.
  intros Hconsole. exists (debugLines message). split; [exact Hconsole |].
  split; [apply debugLines_debug | apply debugLines_off].
Qed.

Lemma debugOnly_logged2 m1 m2 s s' :
  console s' = (console s ++ debugLines m1) ++ debugLines m2 -> debugOnly s s'.
Proof.
  intros Hconsole. exists (debugLines m1 ++ debugLines m2).
  rewrite Hconsole, <- app_assoc. split; [reflexivity |].
  split; [rewrite forallb_app, !debugLines_debug; reflexivity |].
  intros Hoff. rewrite !debugLines_off by exact Hoff. reflexivity.
Qed.

Lemma isValidGodotPath_settings path s :
  (exists valid, fst (isValidGodotPath path s) = Ok valid) /\
  sameSettings s (snd (isValidGodotPath path s)).
Proof.
  unfold sameSettings, isValidGodotPath, cacheVerdict, exec, logDebug,
    mbind, M_bind, bind, gets, modify, mret, M_ret, ret.
  cbn.
  destruct (validatedPaths s !! path); cbn;
    [split; [eauto |]; repeat split; apply debugOnly_refl |].
  destruct (negb (String.eqb path "godot")); cbn;
    [destruct (negb (existsSync (os s) path)); cbn;
       [split; [eauto |]; repeat split; eapply debugOnly_logged2; reflexivity |] |];
    destruct (execAsync (os s) _) as [[] ?]; cbn;
    (split; [eauto |]; repeat split; eapply debugOnly_logged2; reflexivity).
Qed.

Lemma sameSettings_refl s : sameSettings s s.
Proof. repeat split. apply debugOnly_refl. Qed.

Lemma sameSettings_trans s1 s2 s3 :
  sameSettings s1 s2 -> sameSettings s2 s3 -> sameSettings s1 s3.
Proof.
  unfold sameSettings. intros (? & ? & ?) (? & ? & ?).
  repeat split; [congruence | congruence | eapply debugOnly_trans; eassumption].
Qed.

Lemma sameSettings_logged message s : sameSettings s (print (debugLines message) s).
Proof. repeat split. eapply debugOnly_logged. reflexivity. Qed.

(** A validation does not look at the console. *)
Lemma isValidGodotPath_quiet path s t :
  quiet s = quiet t ->
  fst (isValidGodotPath path t) = fst (isValidGodotPath path s) /\
  quiet (snd (isValidGodotPath path t)) = quiet (snd (isValidGodotPath path s)).
Proof.
  destruct s, t. unfold quiet. cbn. intros [= -> -> -> -> -> -> -> -> -> -> -> ->].
  unfold isValidGodotPath, cacheVerdict, exec, logDebug,
    mbind, M_bind, bind, gets, modify, mret, M_ret, ret.
  cbn.
  match goal with |- context [?cache !! path] => destruct (cache !! path) end;
    cbn; [split; reflexivity |].
  destruct (negb (String.eqb path "godot")); cbn;
    [match goal with |- context [existsSync ?o path] => destruct (negb (existsSync o path)) end;
       cbn; [split; reflexivity |] |];
    match goal with |- context [execAsync ?o ?c] => destruct (execAsync o c) as [[] ?] end;
    cbn; split; reflexivity.
Qed.

Lemma noneValidates_quiet candidates s t :
  quiet s = quiet t -> noneValidates candidates s -> noneValidates candidates t.
Proof.
  revert s t. induction candidates as [| c rest IH]; intros s t Hquiet; [trivial |].
  intros [Hc Hrest]. destruct (isValidGodotPath_quiet c s t Hquiet) as [Hfst Hsnd].
  split; [congruence |]. eapply IH; [| exact Hrest]. symmetry. exact Hsnd.
Qed.

Lemma quiet_print lines s : quiet (print lines s) = quiet s.
Proof. reflexivity. Qed.

Lemma validation_fails path s :
  fst (isValidGodotPath path s) = Ok false ->
  isValidGodotPath path s = (Ok false, snd (isValidGodotPath path s)).
Proof. destruct (isValidGodotPath path s); simpl. intros ->. reflexivity. Qed.

Lemma tryPaths_none paths s :
  noneValidates (map normalize paths) s ->
  exists s', tryPaths paths s = (Ok false, s') /\ sameSettings s s'.
Proof.
  revert s. induction paths as [| q rest IH]; intros s Hnone.
  - exists s. split; [reflexivity | apply sameSettings_refl].
  - destruct Hnone as [Hq Hrest]. apply validation_fails in Hq.
    destruct (IH _ Hrest) as (s' & Hrun & Hsame).
    exists s'. split.
    + cbn [tryPaths]. unfold mbind, M_bind, bind. rewrite Hq. exact Hrun.
    + eapply sameSettings_trans; [apply isValidGodotPath_settings | exact Hsame].
Qed.

(** Detection when no candidate validates: every phase falls through. *)
Lemma detectGodotPath_none s :
  noneValidates (godotCandidates s) s ->
  exists s1, sameSettings s s1 /\
    detectGodotPath s
    = (logDebug ("Warning: Could not find Godot in common locations for " +:+ platform) ;;
       modify (print notFoundWarnings) ;;
       strict ← gets strictPathValidation;
       if strict : bool then throw notFoundError
       else
         modify (set_godotPath (Some defaultGodotPath)) ;;
         logDebug ("Using default path: " +:+ defaultGodotPath +:+ ", but this may not work.") ;;
         modify (print fallbackWarnings)) s1.
Proof.
  unfold godotCandidates. intros Hnone.
  unfold detectGodotPath.
  unfold mbind at 1, M_bind at 1, bind at 1, gets at 1.
  assert (Hfirst : exists sa,
    (if truthy (godotPath s) then isValidGodotPath (opt (godotPath s)) else mret false) s
    = (Ok false, sa) /\ sameSettings s sa /\
    noneValidates ((if truthy (getenv "GODOT_PATH")
                    then [normalize (opt (getenv "GODOT_PATH"))] else [])
                   ++ map normalize possiblePaths) sa).
  { destruct (truthy (godotPath s)).
    - destruct Hnone as [Hc Hrest]. apply validation_fails in Hc.
      eexists. split; [exact Hc |]. split; [apply isValidGodotPath_settings | exact Hrest].
    - exists s. split; [reflexivity |]. split; [apply sameSettings_refl | exact Hnone]. }
  destruct Hfirst as (sa & Hfirst & Hsa & Hnone_a). clear Hnone.
  unfold mbind at 1, M_bind at 1, bind at 1. rewrite Hfirst.
  assert (Hsecond : exists sb,
    (if truthy (getenv "GODOT_PATH") then
       logDebug ("Checking GODOT_PATH environment variable: "
                 +:+ normalize (opt (getenv "GODOT_PATH"))) ;;
       valid ← isValidGodotPath (normalize (opt (getenv "GODOT_PATH")));
       if valid : bool
       then
         modify (set_godotPath (Some (normalize (opt (getenv "GODOT_PATH"))))) ;;
         logDebug ("Using Godot path from environment: "
                   +:+ normalize (opt (getenv "GODOT_PATH"))) ;;
         mret true
       else
         logDebug "GODOT_PATH environment variable is invalid" ;;
         mret false
     else mret false) sa = (Ok false, sb) /\ sameSettings sa sb /\
    noneValidates (map normalize possiblePaths) sb).
  { destruct (truthy (getenv "GODOT_PATH")).
    - unfold mbind at 1, M_bind at 1, bind at 1, logDebug at 1, modify at 1.
      set (sa' := print _ sa).
      assert (Hnone' : noneValidates
                ([normalize (opt (getenv "GODOT_PATH"))] ++ map normalize possiblePaths) sa')
        by (eapply noneValidates_quiet; [| exact Hnone_a]; reflexivity).
      destruct Hnone' as [Hc Hrest]. apply validation_fails in Hc.
      unfold mbind at 1, M_bind at 1, bind at 1. rewrite Hc.
      unfold mbind, M_bind, bind, logDebug, modify, mret, M_ret, ret.
      eexists. split; [reflexivity |]. split.
      + apply (sameSettings_trans sa sa'); [apply sameSettings_logged |].
        eapply sameSettings_trans;
          [apply (isValidGodotPath_settings (normalize (opt (getenv "GODOT_PATH"))) sa') |].
        apply sameSettings_logged.
      + eapply noneValidates_quiet; [| exact Hrest]. reflexivity.
    - exists sa. split; [reflexivity |]. split; [apply sameSettings_refl | exact Hnone_a]. }
  destruct Hsecond as (sb & Hsecond & Hsb & Hnone_b). clear Hnone_a.
  unfold mbind at 1, M_bind at 1, bind at 1. rewrite Hsecond.
  unfold mbind at 1, M_bind at 1, bind at 1, logDebug at 1, modify at 1.
  set (sb' := print _ sb).
  assert (Hnone' : noneValidates (map normalize possiblePaths) sb')
    by (eapply noneValidates_quiet; [| exact Hnone_b]; reflexivity).
  apply tryPaths_none in Hnone' as (sc & Hc & Hsc).
  exists sc. split.
  { eapply sameSettings_trans; [exact Hsa |].
    eapply sameSettings_trans; [exact Hsb |].
    apply (sameSettings_trans sb sb'); [apply sameSettings_logged | exact Hsc]. }
  unfold mbind at 1, M_bind at 1, bind at 1. rewrite Hc.
  reflexivity.
Qed.

(** C5. When none of the candidates validates during detection: with
    strict validation, [detectGodotPath] throws the not-found error and
    [run] ends the process with exit code 1; without it, [detectGodotPath]
    returns with [godotPath] set to the default path of the platform
    ([C:\Program Files\Godot\Godot.exe] on win32, the application bundle on
    darwin, [/usr/bin/godot] elsewhere, normalised), the four warning lines
    are the last lines of the console that are not debug lines, in this
    order, and [run] goes on to serve requests. With [DEBUG=true] the debug
    lines of the probes come before them and each pair of warnings follows
    its debug copy. *)
Theorem C5_no_candidate_validates s fallback :
  noneValidates (godotCandidates s) s ->
  fallback = normalize (if String.eqb platform "win32" then "C:\Program Files\Godot\Godot.exe"
                        else if String.eqb platform "darwin"
                             then "/Applications/Godot.app/Contents/MacOS/Godot"
                             else "/usr/bin/godot") ->
  fallback <> "" ->
  if strictPathValidation s then
    fst (detectGodotPath s)
    = Throw "Could not find a valid Godot executable. Set GODOT_PATH or provide a valid path in config." /\
    fst (run s) = Exit 1
  else
    exists s',
      detectGodotPath s = (Ok tt, s') /\
      godotPath s' = Some fallback /\
      (getenv "DEBUG" <> Some "true" ->
       console s'
       = console s ++
         [ "[SERVER] Could not find Godot in common locations for " +:+ platform;
           "[SERVER] Set GODOT_PATH=/path/to/godot environment variable or pass { godotPath: '/path/to/godot' } in the config to specify the correct path.";
           "[SERVER] Using default path: " +:+ fallback +:+ ", but this may not work.";
           "[SERVER] This fallback behavior will be removed in a future version. Set strictPathValidation: true to opt-in to the new behavior." ]) /\
      (getenv "DEBUG" = Some "true" ->
       exists probes,
         Forall (fun line => Str.startsWith "[DEBUG] " line = true) probes /\
         console s'
         = console s ++ probes ++
           [ "[DEBUG] Warning: Could not find Godot in common locations for " +:+ platform;
             "[SERVER] Could not find Godot in common locations for " +:+ platform;
             "[SERVER] Set GODOT_PATH=/path/to/godot environment variable or pass { godotPath: '/path/to/godot' } in the config to specify the correct path.";
             "[DEBUG] Using default path: " +:+ fallback +:+ ", but this may not work.";
             "[SERVER] Using default path: " +:+ fallback +:+ ", but this may not work.";
             "[SERVER] This fallback behavior will be removed in a future version. Set strictPathValidation: true to opt-in to the new behavior." ]) /\
      fst (run s) = Serving.
Proof.
  intros Hnone Hfallback Hdefault.
  assert (Hpath : defaultGodotPath = fallback).
  { rewrite Hfallback. unfold defaultGodotPath.
    destruct (String.eqb platform "win32"); [reflexivity |].
    destruct (String.eqb platform "darwin"); reflexivity. }
  destruct (detectGodotPath_none s Hnone)
    as (s1 & (Hg & Hstrict & probes & Hconsole & Hprobes & Hoff) & Hdetect).
  unfold fallbackWarnings in Hdetect. rewrite !Hpath in Hdetect.
  unfold mbind, M_bind, bind, logDebug, modify, gets in Hdetect. cbn in Hdetect.
  rewrite Hstrict in Hdetect.
  destruct (strictPathValidation s) eqn:Hmode.
  - split; [rewrite Hdetect; reflexivity |].
    unfold run. cbv zeta. unfold mbind at 1, M_bind at 1, bind at 1.
    rewrite Hdetect. reflexivity.
  - cbn in Hdetect. eexists. split; [exact Hdetect |].
    split; [reflexivity |].
    split; [| split].
    + intros Hdebug. cbn [console print set_godotPath].
      assert (Hmode' : DEBUG_MODE = false).
      { destruct DEBUG_MODE eqn:Hd; [| reflexivity].
        apply DEBUG_MODE_true in Hd. contradiction. }
      rewrite Hconsole, (Hoff Hmode'), !debugLines_off by exact Hmode'.
      rewrite !app_nil_r, <- !app_assoc. reflexivity.
    + intros Hdebug. apply DEBUG_MODE_true in Hdebug.
      exists probes. split.
      * apply List.Forall_forall. intros line Hline.
        rewrite forallb_forall in Hprobes. apply (Hprobes line Hline).
      * cbn [console print set_godotPath]. unfold debugLines. rewrite Hdebug, Hconsole.
        rewrite <- !app_assoc. reflexivity.
    + unfold run. cbv zeta. unfold mbind at 1, M_bind at 1, bind at 1.
      rewrite Hdetect.
      unfold mbind at 1, M_bind at 1, bind at 1, gets at 1. cbn [godotPath print set_godotPath].
      assert (Htruthy : truthy (Some fallback) = true).
      { simpl. apply String.eqb_neq in Hdefault. rewrite Hdefault. reflexivity. }
      rewrite Htruthy. cbn [negb].
      unfold mbind at 1, M_bind at 1, bind at 1.
      match goal with
      | |- context [isValidGodotPath ?p ?st] =>
          destruct (isValidGodotPath_settings p st) as ((valid & Hvalid) & _ & Hstrict' & _);
          destruct (isValidGodotPath p st) as [r s2]
      end.
      simpl in Hvalid. subst r.
      unfold mbind at 1, M_bind at 1, bind at 1, gets at 1.
      cbn in Hstrict'. rewrite Hstrict', Hstrict.
      rewrite andb_false_r. reflexivity.
Qed.
End Detection.

End Frames.

(** * Portal SDK paths *)

Section PortalPaths.

Context `{H : Host}.

Lemma isValidPortalSdkRoot_spec o root :
  fst (isValidPortalSdkRoot o root) = true <->
  root <> "" /\
  existsSync o (join [root; "SDK"]) = true /\
  existsSync o (join [root; "GodotProject"]) = true /\
  existsSync o (join [join [root; "GodotProject"]; "project.godot"]) = true /\
  existsSync o (join [root; "SDK"; "deps"; "FbExportData"]) = true.
Proof.
  unfold isValidPortalSdkRoot, andAlso, exists_.
  destruct (String.eqb root "") eqn:Hroot.
  - apply String.eqb_eq in Hroot. simpl. split; [discriminate | intros (Hne & _); contradiction].
  - apply String.eqb_neq in Hroot. simpl.
    destruct (existsSync o (join [root; "SDK"])); simpl;
      [| split; [discriminate | intros (_ & Hf & _); discriminate]].
    destruct (existsSync o (join [root; "GodotProject"])); simpl;
      [| split; [discriminate | intros (_ & _ & Hf & _); discriminate]].
    destruct (existsSync o (join [join [root; "GodotProject"]; "project.godot"])); simpl;
      [| split; [discriminate | intros (_ & _ & _ & Hf & _); discriminate]].
    destruct (existsSync o (join [root; "SDK"; "deps"; "FbExportData"])); simpl;
      [| split; [discriminate | intros (_ & _ & _ & _ & Hf); discriminate]].
    split; [intros _; repeat split; exact Hroot | reflexivity].
Qed.

Lemma firstValidRoot_first o before root after :
  (forall c, In c before -> fst (isValidPortalSdkRoot o c) = false) ->
  fst (isValidPortalSdkRoot o root) = true ->
  fst (firstValidRoot o (before ++ root :: after)) = Some root.
Proof.
  intros Hbefore Hroot.
  induction before as [| c before IH]; simpl.
  - rewrite Hroot. reflexivity.
  - rewrite (Hbefore c) by (left; reflexivity). simpl.
    apply IH. intros c' Hc'. apply Hbefore. right. exact Hc'.
Qed.

Lemma detect_sdk s :
  portalSdkPath (detectPortalPaths s)
  = match fst (firstValidRoot (os s) (fst (candidateRoots s))) with
    | Some c => Some c
    | None => portalSdkPath s
    end.
Proof. reflexivity. Qed.

Lemma truthy_Some p : p <> "" -> truthy (Some p) = true.
Proof. intros Hp. simpl. apply String.eqb_neq in Hp. rewrite Hp. reflexivity. Qed.

Lemma renormalized_normal p :
  normalize p = p -> renormalized (Some p) = Some p.
Proof.
  intros Hp. unfold renormalized. destruct (truthy (Some p)); [| reflexivity].
  simpl. rewrite Hp. reflexivity.
Qed.

(** The project path that detection derives from a resolved root when
    nothing overrides it. *)
Lemma detect_project_derived s root :
  portalSdkPath (detectPortalPaths s) = Some root ->
  root <> "" ->
  existsSync (os s) (join [join [root; "GodotProject"]; "project.godot"]) = true ->
  normalize (join [root; "GodotProject"]) = join [root; "GodotProject"] ->
  truthy (portalProjectPath s) = false ->
  truthy (cfg (initialConfig s) cfg_portalProjectPath) = false ->
  truthy (getenv "PORTAL_PROJECT_PATH") = false ->
  portalProjectPath (detectPortalPaths s) = Some (join [root; "GodotProject"]).
Proof.
  intros Hsdk Hroot Hfile Hnormal Hfield Hconfig Henv.
  rewrite detect_sdk in Hsdk.
  unfold detectPortalPaths. cbn [portalProjectPath emit set_fbExportDataPath set_portalProjectPath].
  rewrite Hsdk.
  unfold overridden. rewrite Hfield, Hconfig. cbn [negb andb].
  rewrite Hfield, Henv. cbn [negb andb opt].
  rewrite (truthy_Some _ Hroot), Hfield. cbn [negb andb].
  rewrite Hnormal. unfold exists_. cbn [fst]. rewrite Hfile.
  apply renormalized_normal, Hnormal.
Qed.

Lemma detect_fb_derived s root :
  portalSdkPath (detectPortalPaths s) = Some root ->
  root <> "" ->
  existsSync (os s) (join [root; "SDK"; "deps"; "FbExportData"]) = true ->
  normalize (join [root; "SDK"; "deps"; "FbExportData"])
    = join [root; "SDK"; "deps"; "FbExportData"] ->
  truthy (fbExportDataPath s) = false ->
  truthy (cfg (initialConfig s) cfg_fbExportDataPath) = false ->
  truthy (getenv "PORTAL_FB_EXPORT_PATH") = false ->
  fbExportDataPath (detectPortalPaths s) = Some (join [root; "SDK"; "deps"; "FbExportData"]).
Proof.
  intros Hsdk Hroot Hdir Hnormal Hfield Hconfig Henv.
  rewrite detect_sdk in Hsdk.
  unfold detectPortalPaths. cbn [fbExportDataPath emit set_fbExportDataPath].
  rewrite Hsdk.
  unfold overridden. rewrite Hfield, Hconfig. cbn [negb andb].
  rewrite Hfield, Henv. cbn [negb andb opt].
  rewrite (truthy_Some _ Hroot), Hfield. cbn [negb andb].
  rewrite Hnormal. unfold exists_. cbn [fst]. rewrite Hdir.
  apply renormalized_normal, Hnormal.
Qed.

(** C6. A directory that holds [SDK], [GodotProject] with [project.godot]
    in it, and [SDK/deps/FbExportData] passes [isValidPortalSdkRoot]; when
    it is among the candidate roots of [detectPortalPaths] and no candidate
    before it is valid, it becomes the Portal SDK root, and the project
    path and the export-data path, when nothing overrides them (no value
    set, none in the configuration, none in the environment), become
    [<root>/GodotProject] and [<root>/SDK/deps/FbExportData], the joined
    paths being in normal form. *)
Theorem C6_sdk_root_detected s root :
  root <> "" ->
  existsSync (os s) (join [root; "SDK"]) = true ->
  existsSync (os s) (join [root; "GodotProject"]) = true ->
  existsSync (os s) (join [join [root; "GodotProject"]; "project.godot"]) = true ->
  existsSync (os s) (join [root; "SDK"; "deps"; "FbExportData"]) = true ->
  fst (isValidPortalSdkRoot (os s) root) = true /\
  forall before after,
    fst (candidateRoots s) = before ++ root :: after ->
    (forall c, In c before -> fst (isValidPortalSdkRoot (os s) c) = false) ->
    portalSdkPath (detectPortalPaths s) = Some root /\
    (normalize (join [root; "GodotProject"]) = join [root; "GodotProject"] ->
     truthy (portalProjectPath s) = false ->
     truthy (cfg (initialConfig s) cfg_portalProjectPath) = false ->
     truthy (getenv "PORTAL_PROJECT_PATH") = false ->
     portalProjectPath (detectPortalPaths s) = Some (join [root; "GodotProject"])) /\
    (normalize (join [root; "SDK"; "deps"; "FbExportData"])
       = join [root; "SDK"; "deps"; "FbExportData"] ->
     truthy (fbExportDataPath s) = false ->
     truthy (cfg (initialConfig s) cfg_fbExportDataPath) = false ->
     truthy (getenv "PORTAL_FB_EXPORT_PATH") = false ->
     fbExportDataPath (detectPortalPaths s)
       = Some (join [root; "SDK"; "deps"; "FbExportData"])).
Proof.
  intros Hroot Hsdk Hproject Hfile Hfb.
  assert (Hvalid : fst (isValidPortalSdkRoot (os s) root) = true).
  { apply isValidPortalSdkRoot_spec. repeat split; assumption. }
  split; [exact Hvalid |].
  intros before after Hcandidates Hbefore.
  assert (Hresolved : portalSdkPath (detectPortalPaths s) = Some root).
  { rewrite detect_sdk, Hcandidates, (firstValidRoot_first _ _ _ _ Hbefore Hvalid).
    reflexivity. }
  split; [exact Hresolved |].
  split; intros; [apply detect_project_derived | apply detect_fb_derived]; assumption.
Qed.

Lemma detect_project_env s e :
  truthy (portalProjectPath s) = false ->
  truthy (cfg (initialConfig s) cfg_portalProjectPath) = false ->
  getenv "PORTAL_PROJECT_PATH" = Some e ->
  e <> "" ->
  normalize e = e ->
  portalProjectPath (detectPortalPaths s) = Some e.
Proof.
  intros Hfield Hconfig Henv He Hnormal.
  unfold detectPortalPaths. cbn [portalProjectPath emit set_fbExportDataPath set_portalProjectPath].
  unfold overridden. rewrite Hfield, Hconfig. cbn [negb andb].
  rewrite Hfield, Henv, (truthy_Some _ He). cbn [negb andb opt].
  rewrite Hnormal, (truthy_Some _ He). cbn [negb]. rewrite andb_false_r. cbn [fst].
  apply renormalized_normal, Hnormal.
Qed.

Lemma resolveProjectPath_absent s :
  resolveProjectPath None s
  = (Ok (if truthy (portalProjectPath (detectPortalPaths s))
         then portalProjectPath (detectPortalPaths s) else None),
     detectPortalPaths s).
Proof. reflexivity. Qed.

Lemma searchCandidates_prefix o dirs roots :
  exists more, fst (searchCandidates o dirs roots) = roots ++ more.
Proof.
  revert roots. induction dirs as [| dir rest IH]; intros roots; simpl.
  - exists []. symmetry. apply app_nil_r.
  - destruct (IH (addCandidate roots (fst (resolvePortalSdkRootFrom o dir)))) as (more & ->).
    unfold addCandidate.
    destruct (truthy _); [| eauto].
    destruct (existsb _ roots); [eauto |].
    eexists. rewrite <- app_assoc. reflexivity.
Qed.

(** C8. An explicit [projectPath] argument is returned (normalised) without
    looking at anything else. Without it, and with no project path set or
    configured, [PORTAL_PROJECT_PATH] is the answer whatever directories the
    upward search would find; and with no SDK root set or configured, a
    valid [PORTAL_SDK_PATH] is taken as the root before any directory found
    by the search, and the project path is derived from it. The environment
    values are in normal form. *)
Theorem C8_project_path_precedence s :
  (forall p, p <> "" ->
     resolveProjectPath (Some (JStr p)) s = (Ok (Some (normalize p)), s)) /\
  (forall e,
     truthy (portalProjectPath s) = false ->
     truthy (cfg (initialConfig s) cfg_portalProjectPath) = false ->
     getenv "PORTAL_PROJECT_PATH" = Some e ->
     e <> "" -> normalize e = e ->
     fst (resolveProjectPath None s) = Ok (Some e)) /\
  (forall e,
     truthy (portalSdkPath s) = false ->
     truthy (cfg (initialConfig s) cfg_portalSdkPath) = false ->
     getenv "PORTAL_SDK_PATH" = Some e ->
     e <> "" -> normalize e = e ->
     fst (isValidPortalSdkRoot (os s) e) = true ->
     portalSdkPath (detectPortalPaths s) = Some e /\
     (truthy (portalProjectPath s) = false ->
      truthy (cfg (initialConfig s) cfg_portalProjectPath) = false ->
      truthy (getenv "PORTAL_PROJECT_PATH") = false ->
      normalize (join [e; "GodotProject"]) = join [e; "GodotProject"] ->
      join [e; "GodotProject"] <> "" ->
      fst (resolveProjectPath None s) = Ok (Some (join [e; "GodotProject"])))).
Proof.
  split; [| split].
  - intros p Hp. unfold resolveProjectPath. simpl.
    apply String.eqb_neq in Hp. rewrite Hp. reflexivity.
  - intros e Hfield Hconfig Henv He Hnormal.
    rewrite resolveProjectPath_absent. cbn [fst].
    rewrite (detect_project_env s e) by assumption.
    rewrite (truthy_Some _ He). reflexivity.
  - intros e Hfield Hconfig Henv He Hnormal Hvalid.
    assert (Hsdk : portalSdkPath (detectPortalPaths s) = Some e).
    { rewrite detect_sdk.
      unfold candidateRoots. rewrite Hfield, Hconfig. cbn [negb andb].
      rewrite Henv, (truthy_Some _ He).
      unfold addCandidate at 1. rewrite (truthy_Some _ He). cbn [opt existsb app].
      rewrite Hnormal.
      destruct (searchCandidates_prefix (os s) [cwd; scriptDir; dirname scriptDir] [e])
        as (more & ->).
      change ([e] ++ more) with ([] ++ e :: more).
      rewrite (firstValidRoot_first (os s) [] e more); [reflexivity | | exact Hvalid].
      intros c []. }
    split; [exact Hsdk |].
    intros Hpfield Hpconfig Hpenv Hjoin Hnonempty.
    apply isValidPortalSdkRoot_spec in Hvalid as (_ & _ & _ & Hfile & _).
    rewrite resolveProjectPath_absent. cbn [fst].
    rewrite (detect_project_derived s e) by assumption.
    rewrite (truthy_Some _ Hnonempty). reflexivity.
Qed.

End PortalPaths.

(** * The supervised child process *)

Section Supervisor.


Context `{H : Host}.

Lemma onlyReads_app a b : onlyReads a -> onlyReads b -> onlyReads (a ++ b).
Proof. intros Ha Hb. apply List.Forall_app. split; assumption. Qed.

Lemma onlyReads_nil : onlyReads [].
Proof. constructor. Qed.

Lemma exists_reads o p : onlyReads (snd (exists_ o p)).
Proof. repeat constructor. Qed.

Lemma andAlso_reads a b : onlyReads (snd a) -> onlyReads (snd b) -> onlyReads (snd (andAlso a b)).
Proof.
  intros Ha Hb. unfold andAlso. destruct (fst a); cbn; [apply onlyReads_app |]; assumption.
Qed.

Lemma isValidPortalSdkRoot_reads o p : onlyReads (snd (isValidPortalSdkRoot o p)).
Proof.
  unfold isValidPortalSdkRoot. destruct (String.eqb p ""); [apply onlyReads_nil |].
  apply andAlso_reads; [| apply exists_reads].
  apply andAlso_reads; [| apply exists_reads].
  apply andAlso_reads; apply exists_reads.
Qed.

Lemma walkUp_reads fuel o current visited : onlyReads (snd (walkUp fuel o current visited)).
Proof.
  revert current visited.
  induction fuel as [| fuel IH]; intros current visited; cbn [walkUp]; [apply onlyReads_nil |].
  destruct (existsb _ visited); [apply onlyReads_nil |].
  pose proof (isValidPortalSdkRoot_reads o current) as Hhere.
  pose proof (isValidPortalSdkRoot_reads o (join [current; "PortalSDK"])) as Hchild.
  destruct (fst (isValidPortalSdkRoot o current)); [exact Hhere |].
  destruct (fst (isValidPortalSdkRoot o (join [current; "PortalSDK"])));
    [apply onlyReads_app; assumption |].
  destruct (String.eqb (dirname current) current); cbn [snd].
  - apply onlyReads_app; assumption.
  - apply onlyReads_app; [exact Hhere |]. apply onlyReads_app; [exact Hchild | apply IH].
Qed.

Lemma searchCandidates_reads o dirs roots : onlyReads (snd (searchCandidates o dirs roots)).
Proof.
  revert roots. induction dirs as [| dir rest IH]; intros roots; cbn; [apply onlyReads_nil |].
  apply onlyReads_app; [| apply IH].
  unfold resolvePortalSdkRootFrom. destruct (String.eqb dir ""); [apply onlyReads_nil |].
  apply walkUp_reads.
Qed.

Lemma firstValidRoot_reads o roots : onlyReads (snd (firstValidRoot o roots)).
Proof.
  induction roots as [| root rest IH]; cbn; [apply onlyReads_nil |].
  pose proof (isValidPortalSdkRoot_reads o root) as Hroot.
  destruct (fst (isValidPortalSdkRoot o root)); cbn; [| apply onlyReads_app]; assumption.
Qed.

(** Detection of the Portal paths only looks at the file system. *)
Lemma detectPortalPaths_reads s :
  exists reads, trace (detectPortalPaths s) = trace s ++ reads /\ onlyReads reads.
Proof.
  unfold detectPortalPaths. cbn [trace print emit set_fbExportDataPath set_portalProjectPath
                                 set_portalSdkPath].
  eexists. split; [reflexivity |].
  apply onlyReads_app; [apply searchCandidates_reads |].
  apply onlyReads_app; [apply firstValidRoot_reads |].
  apply onlyReads_app;
    match goal with |- onlyReads (snd (if ?b then _ else _)) => destruct b end;
    first [apply exists_reads | apply onlyReads_nil].
Qed.

(** *** Taking a run of a method apart *)

Lemma bind_inv {A B} (m : M A) (k : A -> M B) s r s' :
  (m ≫= k) s = (Ok r, s') ->
  exists a s1, m s = (Ok a, s1) /\ k a s1 = (Ok r, s').
Proof.
  unfold mbind, M_bind, bind. destruct (m s) as [[a | e] s1]; [eauto | discriminate].
Qed.

Lemma tryCatch_inv {A} (m : M A) handler s r s' :
  tryCatch m handler s = (Ok r, s') ->
  m s = (Ok r, s') \/ exists e s1, m s = (Throw e, s1) /\ handler e s1 = (Ok r, s').
Proof.
  unfold tryCatch. destruct (m s) as [[a | e] s1]; [left | right]; eauto.
Qed.

Lemma fail_inv message sols s r s' :
  fail message sols s = (Ok r, s') -> isError r = true /\ s' = s.
Proof. unfold fail. intros Heq. inversion Heq. split; reflexivity. Qed.


Lemma getArg_readOnly args name : readOnly (getArg args name).
Proof. intros s. unfold getArg. repeat case_match; reflexivity. Qed.

Lemma pathString_readOnly v : readOnly (pathString v).
Proof. intros s. unfold pathString. repeat case_match; reflexivity. Qed.

Lemma validatePath_readOnly v : readOnly (validatePath v).
Proof. intros s. unfold validatePath. repeat case_match; reflexivity. Qed.

Lemma presentAndInvalid_readOnly v : readOnly (presentAndInvalid v).
Proof.
  intros s. unfold presentAndInvalid. destruct (jsTruthy v); [| reflexivity].
  unfold mbind, M_bind, bind.
  pose proof (validatePath_readOnly v s) as Hv.
  destruct (validatePath v s) as [[] ?]; simpl in *; congruence.
Qed.

Lemma readOnly_run {A} (m : M A) s r s' : readOnly m -> m s = (r, s') -> s' = s.
Proof. intros Hm Heq. specialize (Hm s). rewrite Heq in Hm. exact Hm. Qed.


Lemma resolveProjectPath_children v s :
  sameChildren s (snd (resolveProjectPath v s)).
Proof.
  unfold resolveProjectPath. destruct (jsTruthy v).
  - unfold mbind, M_bind, bind.
    pose proof (pathString_readOnly v s) as Hv.
    destruct (pathString v s) as [[] ?]; simpl in *; subst; split; reflexivity.
  - split; reflexivity.
Qed.

Lemma resolveProjectPath_trace v s :
  exists reads, trace (snd (resolveProjectPath v s)) = trace s ++ reads /\ onlyReads reads.
Proof.
  unfold resolveProjectPath. destruct (jsTruthy v).
  - unfold mbind, M_bind, bind.
    pose proof (pathString_readOnly v s) as Hv.
    destruct (pathString v s) as [[] ?]; simpl in *; subst;
      exists []; rewrite app_nil_r; (split; [reflexivity | apply onlyReads_nil]).
  - apply detectPortalPaths_reads.
Qed.

(** A successful [run_project]: the child that was active, if any, has been
    sent the kill signal, and a new child with empty arrays is the active
    one. The call looks for the project file, then kills, then spawns. *)
Lemma handleRunProject_started args s r s' :
  handleRunProject args s = (Ok r, s') ->
  isError r = false ->
  exists projectPath sceneArg,
    let kids := match activeProcess s with
                | Some first =>
                    alter (fun c => mkChild (output c) (errors c) true (argv c)) first
                          (children s)
                | None => children s
                end in
    children s' = kids ++ [mkChild [] [] false (["-d"; "--path"; projectPath] ++ sceneArg)] /\
    activeProcess s' = Some (length (children s)) /\
    (forall first, activeProcess s = Some first -> In (EvKill first) (trace s')) /\
    (forall props p,
       normalizeArgs args = Some (JObj props) ->
       Obj.get "scene" props = Some (JStr p) ->
       Str.includes ".." p = true ->
       sceneArg = []) /\
    (exists reads file,
       godotPath s' = Some file /\ onlyReads reads /\
       trace s'
       = trace s ++ reads
         ++ [EvExists (join [projectPath; "project.godot"])]
         ++ match activeProcess s with Some first => [EvKill first] | None => [] end
         ++ [EvSpawn file (["-d"; "--path"; projectPath] ++ sceneArg)]).
Proof.
  intros Hrun Hok. unfold handleRunProject in Hrun.
  apply bind_inv in Hrun as (argProjectPath & s1 & Harg & Hrun).
  apply (readOnly_run _ _ _ _ (getArg_readOnly _ _)) in Harg as ->.
  apply bind_inv in Hrun as (bad & s1 & Hbad & Hrun).
  apply (readOnly_run _ _ _ _ (presentAndInvalid_readOnly _)) in Hbad as ->.
  destruct bad.
  { apply fail_inv in Hrun as [Herr _]. congruence. }
  apply bind_inv in Hrun as (projectPath & s1 & Hresolve & Hrun).
  pose proof (resolveProjectPath_children argProjectPath s) as [Hactive Hkids].
  pose proof (resolveProjectPath_trace argProjectPath s) as (reads & Hreads & Honly).
  rewrite Hresolve in Hactive, Hkids, Hreads. simpl in Hactive, Hkids, Hreads.
  destruct (negb (truthy projectPath)).
  { apply fail_inv in Hrun as [Herr _]. congruence. }
  apply tryCatch_inv in Hrun as [Hrun | (e & s2 & _ & Hrun)];
    [| apply fail_inv in Hrun as [Herr _]; congruence].
  apply bind_inv in Hrun as (present & s2 & Hpresent & Hrun).
  unfold existsM in Hpresent. inversion Hpresent; subst present s2; clear Hpresent.
  destruct (negb (existsSync (os s1) _)).
  { apply fail_inv in Hrun as [Herr _]. congruence. }
  apply bind_inv in Hrun as (active & s2 & Hgets & Hrun).
  inversion Hgets; subst active s2; clear Hgets.
  apply bind_inv in Hrun as ([] & s2 & Hkill & Hrun).
  apply bind_inv in Hrun as (scene & s3 & Hscene & Hrun).
  pose proof (readOnly_run _ _ _ _ (getArg_readOnly _ _) Hscene) as ->.
  apply bind_inv in Hrun as (sceneOk & s3 & HsceneOk & Hrun).
  assert (s3 = s2) as ->.
  { destruct (jsTruthy scene).
    - apply (readOnly_run _ _ _ _ (validatePath_readOnly _)) in HsceneOk. exact HsceneOk.
    - inversion HsceneOk. reflexivity. }
  cbv zeta in Hrun.
  apply bind_inv in Hrun as (handle & s3 & Hspawn & Hrun).
  apply bind_inv in Hrun as ([] & s4 & Hset & Hrun).
  inversion Hrun; subst r s'; clear Hrun.
  inversion Hset; subst s4; clear Hset.
  unfold spawnChild in Hspawn.
  apply bind_inv in Hspawn as (g & s4 & Hg & Hspawn).
  inversion Hg; subst g s4; clear Hg.
  destruct (godotPath s2) as [file |] eqn:Hfile; [| discriminate].
  destruct (String.eqb file ""); [discriminate |].
  inversion Hspawn; subst handle s3; clear Hspawn.
  exists (opt projectPath), (if sceneOk then [toText scene] else []).
  cbn [children activeProcess trace set_activeProcess emit set_children].
  unfold emit in Hactive, Hkids. cbn in Hactive, Hkids.
  rewrite Hactive in Hkill.
  assert (Hdropped : forall props p,
            normalizeArgs args = Some (JObj props) ->
            Obj.get "scene" props = Some (JStr p) ->
            Str.includes ".." p = true ->
            (if sceneOk then [toText scene] else []) = []).
  { intros props p Hargs Hget Hdots. rewrite Hargs in Hscene.
    unfold getArg in Hscene. rewrite Hget in Hscene.
    inversion Hscene; subst scene.
    assert (Hne : String.eqb p "" = false) by (destruct p; [discriminate | reflexivity]).
    unfold validatePath, jsTruthy in HsceneOk. rewrite Hne in HsceneOk.
    cbn [negb] in HsceneOk. rewrite Hdots in HsceneOk.
    inversion HsceneOk. reflexivity. }
  destruct (activeProcess s) as [first |].
  - unfold kill, modify in Hkill. inversion Hkill; subst s2; clear Hkill.
    cbn in Hfile. cbn. rewrite Hkids. split; [reflexivity |].
    split; [rewrite length_alter; reflexivity |].
    split; [| split; [exact Hdropped |]].
    + intros first' Hfirst. inversion Hfirst; subst first'.
      apply in_or_app. left. apply in_or_app. right. left. reflexivity.
    + exists reads, file. split; [exact Hfile |]. split; [exact Honly |].
      rewrite Hreads, <- !app_assoc. reflexivity.
  - inversion Hkill; subst s2; clear Hkill.
    cbn in Hfile. cbn. rewrite Hkids. split; [reflexivity |].
    split; [reflexivity |].
    split; [| split; [exact Hdropped |]].
    + intros first' Hfirst. discriminate.
    + exists reads, file. split; [exact Hfile |]. split; [exact Honly |].
      rewrite Hreads, <- !app_assoc. reflexivity.
Qed.

Lemma handleGetDebugOutput_active s handle c :
  activeProcess s = Some handle ->
  children s !! handle = Some c ->
  handleGetDebugOutput s = (Ok (snapshot (output c) (errors c)), s).
Proof.
  intros Hactive Hchild. unfold handleGetDebugOutput, mbind, M_bind, bind, gets.
  rewrite Hactive, Hchild. reflexivity.
Qed.

Lemma handleGetDebugOutput_idle s :
  activeProcess s = None -> handleGetDebugOutput s = (Ok noActiveProcess, s).
Proof.
  intros Hactive. unfold handleGetDebugOutput, mbind, M_bind, bind, gets.
  rewrite Hactive. reflexivity.
Qed.

(** An event that is not the end of the active child leaves it active and
    adds the lines it carries for that child, and only those. *)
Lemma deliver_active e s active c :
  e <> ProcessExit active -> e <> ProcessError active ->
  activeProcess s = Some active ->
  children s !! active = Some c ->
  activeProcess (deliver e s) = Some active /\
  children (deliver e s) !! active
  = Some (mkChild (output c ++ stdoutOf active [e]) (errors c ++ stderrOf active [e])
                  (killed c) (argv c)).
Proof.
  intros Hexit Herror Hactive Hchild.
  destruct e as [h data | h data | h | h]; simpl.
  - split; [exact Hactive |].
    destruct (Nat.eqb_spec h active) as [-> | Hne].
    + rewrite list_lookup_alter_eq, Hchild, !app_nil_r. reflexivity.
    + rewrite list_lookup_alter_ne by exact Hne.
      rewrite Hchild, !app_nil_r. destruct c; reflexivity.
  - split; [exact Hactive |].
    destruct (Nat.eqb_spec h active) as [-> | Hne].
    + rewrite list_lookup_alter_eq, Hchild, !app_nil_r. reflexivity.
    + rewrite list_lookup_alter_ne by exact Hne.
      rewrite Hchild, !app_nil_r. destruct c; reflexivity.
  - unfold clearIfActive. rewrite Hactive.
    destruct (Nat.eqb_spec active h) as [-> | Hne]; [congruence |].
    rewrite Hactive, Hchild, !app_nil_r. destruct c; split; reflexivity.
  - unfold clearIfActive. rewrite Hactive.
    destruct (Nat.eqb_spec active h) as [-> | Hne]; [congruence |].
    rewrite Hactive, Hchild, !app_nil_r. destruct c; split; reflexivity.
Qed.

Lemma afterEvents_active events s active c :
  (forall e, In e events -> e <> ProcessExit active /\ e <> ProcessError active) ->
  activeProcess s = Some active ->
  children s !! active = Some c ->
  activeProcess (afterEvents s events) = Some active /\
  children (afterEvents s events) !! active
  = Some (mkChild (output c ++ stdoutOf active events) (errors c ++ stderrOf active events)
                  (killed c) (argv c)).
Proof.
  unfold afterEvents. revert s c.
  induction events as [| e rest IH]; intros s c Hevents Hactive Hchild; simpl.
  - rewrite !app_nil_r. destruct c; split; [exact Hactive | exact Hchild].
  - destruct (Hevents e (or_introl eq_refl)) as [Hexit Herror].
    destruct (deliver_active e s active c Hexit Herror Hactive Hchild) as [Hactive' Hchild'].
    destruct (IH (deliver e s) _ (fun e' He' => Hevents e' (or_intror He')) Hactive' Hchild')
      as [Hactive'' Hchild''].
    split; [exact Hactive'' |].
    rewrite Hchild''. cbn [output errors killed argv].
    unfold stdoutOf, stderrOf. cbn [flat_map]. rewrite !app_nil_r, <- !app_assoc.
    reflexivity.
Qed.

(** C1, as amended. When the active child exits on its own, or fails to
    start, the server has no active process any more and
    [get_debug_output] answers with the error "No active Godot process.":
    the lines collected so far can no longer be read. *)
Theorem C1_output_unreachable_after_exit s handle e :
  activeProcess s = Some handle ->
  e = ProcessExit handle \/ e = ProcessError handle ->
  activeProcess (deliver e s) = None /\
  handleGetDebugOutput (deliver e s) = (Ok noActiveProcess, deliver e s) /\
  isError noActiveProcess = true.
Proof.
  intros Hactive He.
  assert (Hidle : activeProcess (deliver e s) = None).
  { destruct He as [-> | ->]; simpl; unfold clearIfActive;
      rewrite Hactive, Nat.eqb_refl; reflexivity. }
  split; [exact Hidle |].
  split; [apply handleGetDebugOutput_idle, Hidle | reflexivity].
Qed.


End Supervisor.

(** * Path arguments that contain [..] *)

Section Traversal.

Context `{H : Host}.

Lemma includes_dots_nonempty p : Str.includes ".." p = true -> String.eqb p "" = false.
Proof. destruct p; [discriminate | reflexivity]. Qed.


Lemma rejectedAt_elim s x :
  rejectedAt s x -> exists r, x = (Ok r, s) /\ isError r = true.
Proof. destruct x as [[r | e] s']; simpl; [intros [-> Hr]; eauto | contradiction]. Qed.

(** The scrutinee that keeps a term from computing. *)
Ltac blocker t :=
  lazymatch t with
  | match ?x with _ => _ end => blocker x
  | (match ?x with _ => _ end) _ => blocker x
  | _ => t
  end.

Ltac case_blocker props Hfield Hne Hdots :=
  lazymatch goal with
  | |- ?t =>
      let x := blocker t in
      first
        [ rewrite Hfield
        | rewrite Hne
        | rewrite Hdots
        | lazymatch x with
          | Obj.get ?name props =>
              lazymatch goal with
              | Hs : stringOrAbsent (Obj.get name props) = true |- _ =>
                  destruct (Obj.get name props) as [[| | | ? | |] |];
                  cbn [stringOrAbsent] in Hs; try discriminate Hs; clear Hs
              | _ => destruct (Obj.get name props) as [[| [|] | | | |] |]
              end
          | _ => destruct x eqn:?
          end ]
  end.

Ltac head_step :=
  lazy head beta iota zeta
    delta [rejectedAt mbind M_bind mret M_ret bind ret throw getArg presentAndInvalid validatePath
           invalidPath invalidProjectPath fail jsTruthy negb andb orb].

Ltac rejected props Hargs Hfield Hne Hdots :=
  apply rejectedAt_elim;
  unfold callTool; cbn [String.eqb Ascii.eqb Bool.eqb];
  unfold handleLaunchEditor, handleRunProject, handleListProjects, handleGetProjectInfo,
    handleCreateScene, handleAddNode, handleLoadSprite, handleExportMeshLibrary,
    handleSaveScene, handleGetUid, handleUpdateProjectUids, handleExportPortalLevel;
  rewrite Hargs;
  unfold mbind, M_bind, mret, M_ret;
  repeat (head_step;
          lazymatch goal with
          | |- _ /\ _ => fail
          | _ => case_blocker props Hfield Hne Hdots
          end);
  head_step; (split; reflexivity).

Lemma checked_paths_rejected tool field args props p s :
  In (tool, field) checkedFields ->
  normalizeArgs args = Some (JObj props) ->
  pathsAreStrings props = true ->
  Obj.get field props = Some (JStr p) ->
  Str.includes ".." p = true ->
  exists r, callTool tool args s = (Ok r, s) /\ isError r = true.
Proof.
  intros Hin Hargs Hpaths Hfield Hdots.
  pose proof (includes_dots_nonempty p Hdots) as Hne.
  unfold pathsAreStrings, pathFields in Hpaths. cbn [forallb] in Hpaths.
  repeat (apply andb_prop in Hpaths as [? Hpaths]). clear Hpaths.
  unfold checkedFields in Hin. cbn [In] in Hin.
  repeat (destruct Hin as [Heq | Hin];
          [ inversion Heq; subst tool field; clear Heq;
            rewrite Hfield in *; rejected props Hargs Hfield Hne Hdots | ]).
  destruct Hin.
Qed.


Lemma unsafe_scene_dropped args props p s r s' :
  normalizeArgs args = Some (JObj props) ->
  Obj.get "scene" props = Some (JStr p) ->
  Str.includes ".." p = true ->
  callTool "run_project" args s = (Ok r, s') ->
  isError r = false ->
  exists projectPath,
    last (children s') = Some (mkChild [] [] false ["-d"; "--path"; projectPath]).
Proof.
  intros Hargs Hscene Hdots Hrun Hok.
  change (callTool "run_project" args s) with (handleRunProject args s) in Hrun.
  destruct (handleRunProject_started args s r s' Hrun Hok)
    as (projectPath & sceneArg & Hkids & _ & _ & Hdropped & _).
  rewrite (Hdropped props p Hargs Hscene Hdots), app_nil_r in Hkids.
  exists projectPath. rewrite Hkids. apply last_snoc.
Qed.

(** C2, as amended. Let the arguments be typed as the input schemas
    declare and [p] be a string that contains [..]. A tool that receives
    [p] in one of the fields it passes through [validatePath] (the project
    path of launch_editor, run_project, get_project_info and
    update_project_uids, the directory of list_projects, the project, scene,
    node, texture, output, new and file paths of the scene and UID tools,
    the scene path and output directory of export_portal_level) returns an
    error response and leaves the whole state as it was, the record of
    file-system accesses and launched processes included. run_project does
    not reject a [scene] that contains [..]: when it starts the project,
    the scene is left out of the arguments of the child. *)
Theorem C2_unsafe_paths args props p s :
  normalizeArgs args = Some (JObj props) ->
  pathsAreStrings props = true ->
  Str.includes ".." p = true ->
  (forall tool field,
     In (tool, field) checkedFields ->
     Obj.get field props = Some (JStr p) ->
     exists r, callTool tool args s = (Ok r, s) /\ isError r = true) /\
  (Obj.get "scene" props = Some (JStr p) ->
   forall r s',
     callTool "run_project" args s = (Ok r, s') ->
     isError r = false ->
     exists projectPath,
       last (children s') = Some (mkChild [] [] false ["-d"; "--path"; projectPath])).
Proof.
  intros Hargs Hpaths Hdots. split.
  - intros tool field Hin Hfield.
    exact (checked_paths_rejected tool field args props p s Hin Hargs Hpaths Hfield Hdots).
  - intros Hscene r s' Hrun Hok.
    exact (unsafe_scene_dropped args props p s r s' Hargs Hscene Hdots Hrun Hok).
Qed.

End Traversal.

(** * The remembered Portal project path *)

Section RememberedProject.

Context `{H : Host}.




Lemma detect_keeps_project p s :
  p <> "" -> normalize p = p -> projectIs p s -> projectIs p (detectPortalPaths s).
Proof.
  unfold projectIs. intros Hp Hnormal Hs.
  unfold detectPortalPaths. cbn [portalProjectPath emit set_fbExportDataPath set_portalProjectPath].
  unfold overridden. rewrite Hs.
  repeat (rewrite (truthy_Some _ Hp); cbn [negb andb]).
  rewrite andb_false_r. cbn [fst].
  apply renormalized_normal, Hnormal.
Qed.

Lemma detect_keeps_recorded ev s : recorded ev s -> recorded ev (detectPortalPaths s).
Proof.
  unfold recorded, detectPortalPaths. cbn [trace emit]. intros Hs.
  apply in_or_app. left. exact Hs.
Qed.

Lemma emit_keeps_recorded ev evs s : recorded ev s -> recorded ev (emit evs s).
Proof. unfold recorded. cbn [trace emit]. intros Hs. apply in_or_app. left. exact Hs. Qed.


Lemma unless_keeps P m : keeps P m -> keptUnlessSuccess P m.
Proof. intros Hm s Hs _. apply Hm, Hs. Qed.

Lemma unless_bind P {A} (m : M A) (k : A -> M Response) :
  keeps P m -> (forall a, keptUnlessSuccess P (k a)) -> keptUnlessSuccess P (m ≫= k).
Proof.
  intros Hm Hk s Hs. unfold mbind, M_bind, bind.
  specialize (Hm s Hs). destruct (m s) as [[a | e] s1]; simpl in *.
  - apply Hk, Hm.
  - intros _. exact Hm.
Qed.

Lemma unless_tryCatch P (body : M Response) handler :
  keptUnlessSuccess P body -> (forall e, keeps P (handler e)) ->
  keptUnlessSuccess P (tryCatch body handler).
Proof.
  intros Hbody Hhandler s Hs. unfold tryCatch.
  specialize (Hbody s Hs). destruct (body s) as [[r | e] s1]; simpl in *.
  - exact Hbody.
  - intros _. apply Hhandler, Hbody. reflexivity.
Qed.

Lemma unless_success P (m : M Response) :
  (forall s, succeeded (fst (m s)) = true) -> keptUnlessSuccess P m.
Proof. intros Hm s _ Hfail. rewrite Hm in Hfail. discriminate. Qed.

Lemma handleCreatePortalProject_unless p args :
  p <> "" -> normalize p = p ->
  keptUnlessSuccess (projectIs p) (handleCreatePortalProject args).
Proof.
  intros Hp Hnormal.
  assert (Hemit : forall evs s, projectIs p s -> projectIs p (emit evs s))
    by (intros; assumption).
  assert (Hos : forall (o : OS) s, projectIs p s -> projectIs p (set_os o s))
    by (intros; assumption).
  assert (Hpython : forall v s, projectIs p s -> projectIs p (set_pythonCommand v s))
    by (intros; assumption).
  assert (Hdetect : forall s, projectIs p s -> projectIs p (detectPortalPaths s))
    by (intros; apply detect_keeps_project; assumption).
  unfold handleCreatePortalProject.
  apply unless_bind; [apply keeps_modify, Hdetect | intros _].
  apply unless_bind; [apply getArg_keeps | intros argFb].
  apply unless_bind; [apply chooseFbExportData_keeps | intros fb].
  apply unless_bind;
    [destruct (truthy fb); [apply existsM_keeps, Hemit | apply keeps_ret] | intros fbExists].
  destruct (negb fbExists); [apply unless_keeps, fbExportDataNotFound_keeps |].
  apply unless_bind; [apply getArg_keeps | intros argOutputDir].
  apply unless_bind; [apply keeps_gets | intros rememberedProject].
  apply unless_bind; [apply keeps_gets | intros sdk].
  cbv zeta.
  apply unless_bind; [apply mkdirM_keeps; assumption | intros _].
  apply unless_bind; [apply getGdConverterScriptPath_keeps; assumption | intros converterScript].
  destruct (negb (truthy converterScript)); [apply unless_keeps, fail_keeps |].
  apply unless_bind; [apply getArg_keeps | intros overwriteLevels].
  apply unless_tryCatch; [| intros e; apply fail_keeps].
  apply unless_bind; [apply runPythonScript_keeps; assumption | intros [[stdout stderr] exitCode]].
  destruct (negb (exitCode =? 0)%nat); [apply unless_keeps, fail_keeps |].
  apply unless_success. intros s. reflexivity.
Qed.

Lemma runPythonScript_closed scriptPath args s stdout stderr exitCode s' :
  runPythonScript scriptPath args s = (Ok (stdout, stderr, exitCode), s') ->
  exists o python code,
    fst (spawnPython o python (scriptPath :: args)) = PyClosed stdout stderr code /\
    default 0 code = exitCode.
Proof.
  unfold runPythonScript. intros Hrun.
  apply bind_inv in Hrun as (python & s1 & _ & Hrun).
  apply bind_inv in Hrun as (result & s2 & Hspawn & Hrun).
  inversion Hspawn; subst result s2; clear Hspawn.
  destruct (spawnPython (os s1) python (scriptPath :: args)) as [result o'] eqn:Hspawn.
  simpl in Hrun. destruct result as [out err code | message]; [| discriminate].
  inversion Hrun; subst. exists (os s1), python, code.
  rewrite Hspawn. split; reflexivity.
Qed.

(** A successful [create_portal_project]: the directory that was created
    is the one that is remembered, normalised, and the converter was run
    on it and exited with code 0. *)
Lemma handleCreatePortalProject_success args s r s' :
  handleCreatePortalProject args s = (Ok r, s') ->
  isError r = false ->
  exists outputDir,
    recorded (EvMkdir outputDir) s' /\
    portalProjectPath s' = Some (normalize outputDir) /\
    (forall props d,
       normalizeArgs args = Some (JObj props) ->
       Obj.get "outputDir" props = Some (JStr d) ->
       String.eqb (Str.trim d) "" = false ->
       outputDir = normalize d) /\
    (exists o python script fbExportData flags stdout stderr code,
       fst (spawnPython o python (script :: fbExportData :: outputDir :: flags))
         = PyClosed stdout stderr code /\
       default 0 code = 0).
Proof.
  intros Hrun Hok. unfold handleCreatePortalProject in Hrun.
  apply bind_inv in Hrun as ([] & s1 & _ & Hrun).
  apply bind_inv in Hrun as (argFb & s2 & _ & Hrun).
  apply bind_inv in Hrun as (fb & s3 & _ & Hrun).
  apply bind_inv in Hrun as (fbExists & s4 & _ & Hrun).
  destruct (negb fbExists).
  { apply fail_inv in Hrun as [Herr _]. congruence. }
  apply bind_inv in Hrun as (argOutputDir & s5 & HargOut & Hrun).
  apply bind_inv in Hrun as (rememberedProject & s6 & _ & Hrun).
  apply bind_inv in Hrun as (sdk & s7 & _ & Hrun).
  cbv zeta in Hrun.
  match type of Hrun with
  | (mkdirM ?dir ≫= _) _ = _ => set (outputDir := dir) in *
  end.
  apply bind_inv in Hrun as ([] & s8 & Hmkdir & Hrun).
  apply bind_inv in Hrun as (converterScript & s9 & Hconverter & Hrun).
  destruct (negb (truthy converterScript)).
  { apply fail_inv in Hrun as [Herr _]. congruence. }
  apply bind_inv in Hrun as (overwriteLevels & s10 & Hoverwrite & Hrun).
  apply tryCatch_inv in Hrun as [Hrun | (e & s11 & _ & Hrun)];
    [| apply fail_inv in Hrun as [Herr _]; congruence].
  apply bind_inv in Hrun as ([[stdout stderr] exitCode] & s11 & Hpython & Hrun).
  destruct (exitCode =? 0)%nat eqn:Hcode; cbn [negb] in Hrun;
    [| apply fail_inv in Hrun as [Herr _]; congruence].
  apply Nat.eqb_eq in Hcode. subst exitCode.
  apply bind_inv in Hrun as ([] & s12 & Hset & Hrun).
  inversion Hset; subst s12; clear Hset.
  inversion Hrun; subst r s'; clear Hrun.
  exists outputDir.
  assert (Hemit : forall ev evs s, recorded ev s -> recorded ev (emit evs s))
    by (intros; apply emit_keeps_recorded; assumption).
  assert (Hmade : recorded (EvMkdir outputDir) s8).
  { unfold mkdirM in Hmkdir. destruct (mkdirSync (os s7) outputDir); inversion Hmkdir.
    unfold recorded. cbn [trace emit set_os]. apply in_or_app. right. left. reflexivity. }
  assert (Hstill : recorded (EvMkdir outputDir) s11).
  { pose proof (getGdConverterScriptPath_keeps (recorded (EvMkdir outputDir))
                  (Hemit _) (detect_keeps_recorded _) "create_godot.py" s8 Hmade) as H9.
    rewrite Hconverter in H9. simpl in H9.
    pose proof (getArg_keeps (recorded (EvMkdir outputDir)) (normalizeArgs args)
                  "overwriteLevels" s9 H9) as H10.
    rewrite Hoverwrite in H10. simpl in H10.
    match type of Hpython with
    | runPythonScript ?script ?scriptArgs _ = _ =>
        pose proof (runPythonScript_keeps (recorded (EvMkdir outputDir)) (Hemit _)
                      (fun o s Hs => Hs) (fun v s Hs => Hs) script scriptArgs s10 H10) as H11
    end.
    rewrite Hpython in H11. exact H11. }
  split; [exact Hstill |].
  split; [reflexivity |].
  split.
  - intros props d Hargs Hget Hblank.
    rewrite Hargs in HargOut. unfold getArg in HargOut.
    inversion HargOut; subst argOutputDir.
    unfold outputDir. rewrite Hget. cbn [nonBlankString]. rewrite Hblank. reflexivity.
  - apply runPythonScript_closed in Hpython as (o & python & code & Hspawn & Hexit).
    cbn [app] in Hspawn.
    exists o, python, (opt converterScript), (opt fb),
      (if isTrue overwriteLevels then ["--overwrite-levels"] else []), stdout, stderr, code.
    split; [exact Hspawn | exact Hexit].
Qed.


End RememberedProject.

(** * The theorems on the example machine *)

Section Examples.

(** The running game exits: the next [get_debug_output] is the error. *)
Lemma C1_output_unreachable_after_exit_witness :
  activeProcess runningServer = Some 0 /\
  handleGetDebugOutput (deliver (ProcessExit 0) runningServer)
  = (Ok noActiveProcess, deliver (ProcessExit 0) runningServer).
Proof.
  assert (Hactive : activeProcess runningServer = Some 0) by (vm_compute; reflexivity).
  split; [exact Hactive |].
  destruct (C1_output_unreachable_after_exit (H := plainHost) runningServer 0 (ProcessExit 0)
              Hactive (or_introl eq_refl)) as (_ & Hpoll & _).
  exact Hpoll.
Defined.

(** C1 as the specification words it does not hold: the two lines that the
    game printed can be read while it runs, and the read that follows its
    exit is answered with the error, not with these lines. *)
Lemma C1_poll_after_exit_is_an_error :
  let printed := afterEvents runningServer [StdoutData 0 ("ready" +:+ Str.nl +:+ "go")] in
  let exited := afterEvents printed [ProcessExit 0] in
  fst (handleGetDebugOutput printed) = Ok (snapshot ["ready"; "go"] []) /\
  fst (handleGetDebugOutput exited) = Ok noActiveProcess /\
  fst (handleGetDebugOutput exited) <> Ok (snapshot ["ready"; "go"] []) /\
  isError noActiveProcess = true.
Proof.
  vm_compute. repeat split; try reflexivity. discriminate.
Qed.

(** [launch_editor] with [../etc] as the project path. *)
Lemma C2_unsafe_paths_witness :
  exists r,
    callTool "launch_editor" unsafeProject (startedServer [] "/work")
    = (Ok r, startedServer [] "/work") /\ isError r = true.
Proof.
  assert (Hargs : normalizeArgs unsafeProject = Some (JObj [("projectPath", JStr "../etc")]))
    by (vm_compute; reflexivity).
  assert (Htyped : pathsAreStrings [("projectPath", JStr "../etc")] = true)
    by (vm_compute; reflexivity).
  assert (Hdots : Str.includes ".." "../etc" = true) by (vm_compute; reflexivity).
  destruct (C2_unsafe_paths (H := plainHost) unsafeProject _ "../etc" (startedServer [] "/work")
              Hargs Htyped Hdots) as [Hchecked _].
  apply (Hchecked "launch_editor" "projectPath").
  - simpl. left. reflexivity.
  - vm_compute. reflexivity.
Defined.

(** C2 as the specification words it does not hold: [run_project] with
    [../x] in its [scene] field answers with a success and has started
    Godot. *)
Lemma C2_unsafe_scene_is_not_rejected :
  Str.includes ".." "../x" = true /\
  exists r s',
    callTool "run_project" unsafeScene (startedServer [] "/work") = (Ok r, s') /\
    isError r = false /\
    last (trace s') = Some (EvSpawn "/usr/bin/godot" ["-d"; "--path"; "/game"]).
Proof.
  split; [reflexivity |].
  eexists. eexists. vm_compute. repeat split; reflexivity.
Qed.


(** No Godot on the machine: the default configuration falls back to
    [/usr/bin/godot], warns and serves, with [DEBUG=true] too; strict
    validation stops the process. *)
Lemma C5_no_candidate_validates_witness :
  (exists s',
     detectGodotPath bareServer = (Ok tt, s') /\
     godotPath s' = Some "/usr/bin/godot" /\
     console s'
     = [ "[SERVER] Could not find Godot in common locations for linux";
         "[SERVER] Set GODOT_PATH=/path/to/godot environment variable or pass { godotPath: '/path/to/godot' } in the config to specify the correct path.";
         "[SERVER] Using default path: /usr/bin/godot, but this may not work.";
         "[SERVER] This fallback behavior will be removed in a future version. Set strictPathValidation: true to opt-in to the new behavior." ] /\
     fst (run bareServer) = Serving) /\
  (exists s' before,
     detectGodotPath debugServer = (Ok tt, s') /\
     console s'
     = before ++
       [ "[DEBUG] Warning: Could not find Godot in common locations for linux";
         "[SERVER] Could not find Godot in common locations for linux";
         "[SERVER] Set GODOT_PATH=/path/to/godot environment variable or pass { godotPath: '/path/to/godot' } in the config to specify the correct path.";
         "[DEBUG] Using default path: /usr/bin/godot, but this may not work.";
         "[SERVER] Using default path: /usr/bin/godot, but this may not work.";
         "[SERVER] This fallback behavior will be removed in a future version. Set strictPathValidation: true to opt-in to the new behavior." ]) /\
  fst (detectGodotPath strictServer)
  = Throw "Could not find a valid Godot executable. Set GODOT_PATH or provide a valid path in config." /\
  fst (run strictServer) = Exit 1.
Proof.
  assert (Hbare : noneValidates (godotCandidates bareServer) bareServer)
    by (vm_compute; repeat split).
  assert (Hdebug : noneValidates (godotCandidates debugServer) debugServer)
    by (vm_compute; repeat split).
  assert (Hstrict : noneValidates (godotCandidates strictServer) strictServer)
    by (vm_compute; repeat split).
  split; [| split].
  - destruct (C5_no_candidate_validates (H := plainHost) bareServer "/usr/bin/godot" Hbare
                ltac:(vm_compute; reflexivity) ltac:(discriminate))
      as (s' & Hdetect & Hpath & Hquiet & _ & Hrun).
    exists s'. split; [exact Hdetect |]. split; [exact Hpath |].
    split; [| exact Hrun].
    rewrite Hquiet by (vm_compute; discriminate). vm_compute. reflexivity.
  - destruct (C5_no_candidate_validates (H := debugHost) debugServer "/usr/bin/godot" Hdebug
                ltac:(vm_compute; reflexivity) ltac:(discriminate))
      as (s' & Hdetect & _ & _ & Hloud & _).
    destruct (Hloud ltac:(vm_compute; reflexivity)) as (probes & _ & Hconsole).
    exists s', (console debugServer ++ probes). split; [exact Hdetect |].
    rewrite Hconsole, <- app_assoc. reflexivity.
  - exact (C5_no_candidate_validates (H := plainHost) strictServer "/usr/bin/godot" Hstrict
             ltac:(vm_compute; reflexivity) ltac:(discriminate)).
Defined.

(** [/sdk] is found by the upward search from [/sdk/GodotProject], after
    the stale [/old-sdk] of the environment. *)
Lemma C6_sdk_root_detected_witness :
  fst (isValidPortalSdkRoot (os staleServer) "/sdk") = true /\
  portalSdkPath (detectPortalPaths staleServer) = Some "/sdk" /\
  portalProjectPath (detectPortalPaths staleServer) = Some "/sdk/GodotProject" /\
  fbExportDataPath (detectPortalPaths staleServer) = Some "/sdk/SDK/deps/FbExportData".
Proof.
  assert (Hroot : "/sdk" <> "") by discriminate.
  destruct (C6_sdk_root_detected (H := staleHost) staleServer "/sdk" Hroot
              ltac:(vm_compute; reflexivity) ltac:(vm_compute; reflexivity)
              ltac:(vm_compute; reflexivity) ltac:(vm_compute; reflexivity))
    as [Hvalid Hdetect].
  split; [exact Hvalid |].
  destruct (Hdetect ["/old-sdk"] [] ltac:(vm_compute; reflexivity)) as (Hsdk & Hproject & Hfb).
  - intros c [<- | []]. vm_compute. reflexivity.
  - split; [exact Hsdk |]. split.
    + apply Hproject; vm_compute; reflexivity.
    + apply Hfb; vm_compute; reflexivity.
Defined.

(** Started in [/sdk] with [PORTAL_PROJECT_PATH=/game]: the argument wins
    over the environment, the environment over the project of the SDK
    found from the working directory. With [PORTAL_SDK_PATH=/sdk] the
    project is the one of that SDK. *)
Lemma C8_project_path_precedence_witness :
  resolveProjectPath (Some (JStr "/other//game")) inProjectHost
    = (Ok (Some "/other/game"), inProjectHost) /\
  fst (resolveProjectPath None inProjectHost) = Ok (Some "/game") /\
  portalSdkPath (detectPortalPaths inSdkHost) = Some "/sdk" /\
  fst (resolveProjectPath None inSdkHost) = Ok (Some "/sdk/GodotProject").
Proof.
  destruct (C8_project_path_precedence (H := projectHost) inProjectHost)
    as (Hexplicit & Hproject & _).
  destruct (C8_project_path_precedence (H := sdkHost) inSdkHost) as (_ & _ & Hsdk).
  split; [apply (Hexplicit "/other//game"); discriminate |].
  split.
  { apply (Hproject "/game");
      [vm_compute; reflexivity | vm_compute; reflexivity | vm_compute; reflexivity
      | discriminate | vm_compute; reflexivity]. }
  destruct (Hsdk "/sdk" ltac:(vm_compute; reflexivity) ltac:(vm_compute; reflexivity)
              ltac:(vm_compute; reflexivity) ltac:(discriminate)
              ltac:(vm_compute; reflexivity) ltac:(vm_compute; reflexivity))
    as [Hroot Hderived].
  split; [exact Hroot |].
  apply Hderived;
    [vm_compute; reflexivity | vm_compute; reflexivity | vm_compute; reflexivity
    | vm_compute; reflexivity | vm_compute; discriminate].
Defined.

(** [/opt/godot] was found invalid; Godot is then installed there, and the
    answer stays [false]. *)
Lemma C9_invalid_verdict_is_final_witness :
  let s' := afterAll probedServer installAndUse in
  existsSync (os s') "/opt/godot" = true /\
  isValidGodotPath "/opt/godot" s' = (Ok false, s') /\
  setGodotPath "/opt//godot" s' = (Ok false, s').
Proof.
  intros s'.
  destruct (C9_invalid_verdict_is_final (H := plainHost) "/opt/godot" probedServer installAndUse
              ltac:(vm_compute; reflexivity)) as (Hagain & Hset & _).
  split; [vm_compute; reflexivity |].
  split; [exact Hagain |].
  apply Hset; [discriminate | vm_compute; reflexivity].
Defined.


End Examples.

(** * Further properties of the code *)

(** ** Objects in the order of enumeration *)

Section ObjectOrder.

Context `{H : Host}.

Lemma JSON_nested_ind (P : JSON -> Prop) :
  P JNull -> (forall b, P (JBool b)) -> (forall r, P (JNum r)) -> (forall s, P (JStr s)) ->
  (forall items, Forall P items -> P (JArr items)) ->
  (forall props, Forall (fun kv => P (snd kv)) props -> P (JObj props)) ->
  forall v, P v.
Proof.
  intros Hnull Hbool Hnum Hstr Harr Hobj.
  refine (fix IH (v : JSON) : P v :=
            match v with
            | JNull => Hnull
            | JBool b => Hbool b
            | JNum r => Hnum r
            | JStr s => Hstr s
            | JArr items =>
                Harr items
                  ((fix all (l : list JSON) : Forall P l :=
                      match l with
                      | [] => @List.Forall_nil _ _
                      | x :: l0 => @List.Forall_cons _ _ x l0 (IH x) (all l0)
                      end) items)
            | JObj props =>
                Hobj props
                  ((fix all (l : list (string * JSON)) : Forall (fun kv => P (snd kv)) l :=
                      match l with
                      | [] => @List.Forall_nil _ _
                      | kv :: l0 => @List.Forall_cons _ _ kv l0 (IH (snd kv)) (all l0)
                      end) props)
            end).
Qed.

Lemma indexOf_text k n : Obj.indexOf k = Some n -> k = Str.ofN n.
Proof.
  unfold Obj.indexOf. destruct (NilZero.uint_of_string k); [| discriminate].
  destruct (String.eqb _ k && _) eqn:Hcheck; [| discriminate].
  intros [= <-]. apply andb_true_iff in Hcheck as [Heq _].
  apply String.eqb_eq in Heq. symmetry. exact Heq.
Qed.

Lemma keyBefore_neq k1 k2 : keyBefore k1 k2 -> k1 <> k2.
Proof.
  unfold keyBefore. intros Hbefore ->.
  destruct (Obj.indexOf k2); [lia | contradiction].
Qed.

Lemma has_false {A} k (o : list (string * A)) :
  Forall (fun k' => k' <> k) (map fst o) -> Obj.has k o = false.
Proof.
  induction o as [| [k' v'] o IH]; [reflexivity |].
  cbn. intros Hne. inversion Hne as [| ? ? Hk Hrest]; subst.
  rewrite (IH Hrest), orb_false_r. apply String.eqb_neq. congruence.
Qed.

Lemma has_true_In {A} k (o : list (string * A)) :
  Obj.has k o = true <-> In k (map fst o).
Proof.
  induction o as [| [k' v'] o IH]; cbn; [split; [discriminate | tauto] |].
  rewrite orb_true_iff, IH, String.eqb_eq. split; intros [? | ?]; auto.
Qed.

Lemma replace_keys {A} k (v : A) o : map fst (Obj.replace k v o) = map fst o.
Proof.
  induction o as [| [k' v'] o IH]; [reflexivity |].
  cbn. destruct (String.eqb k k'); cbn; [reflexivity | rewrite IH; reflexivity].
Qed.

Lemma insertIndex_keys_In {A} n k (v : A) o x :
  In x (map fst (Obj.insertIndex n k v o)) <-> x = k \/ In x (map fst o).
Proof.
  induction o as [| [k' v'] o IH]; simpl; [intuition congruence |].
  destruct (Obj.indexOf k') as [n' |]; [destruct (n' <? n)%N |]; simpl; rewrite ?IH;
    intuition congruence.
Qed.

Lemma insertIndex_enumerated {A} n k (v : A) o :
  Obj.indexOf k = Some n ->
  ~ In k (map fst o) ->
  enumerated o -> enumerated (Obj.insertIndex n k v o).
Proof.
  intros Hk. unfold enumerated.
  induction o as [| [k' v'] o IH]; intros Hfresh Ho.
  - cbn. auto.
  - cbn in Ho, Hfresh. destruct Ho as [Hfirst Hrest].
    assert (Hfirst' : forall x, In x (map fst o) -> keyBefore k' x)
      by (apply List.Forall_forall, Hfirst).
    cbn [Obj.insertIndex].
    destruct (Obj.indexOf k') as [n' |] eqn:Hk'.
    + destruct (n' <? n)%N eqn:Hlt.
      * cbn. split; [| apply IH; tauto].
        apply List.Forall_forall. intros x Hx. apply insertIndex_keys_In in Hx as [-> | Hx].
        -- unfold keyBefore. rewrite Hk', Hk. apply N.ltb_lt, Hlt.
        -- apply Hfirst', Hx.
      * assert (Hlt' : (n < n')%N).
        { apply N.ltb_ge in Hlt. destruct (N.eq_dec n n') as [-> |]; [| lia].
          exfalso. apply Hfresh. left.
          rewrite (indexOf_text _ _ Hk), (indexOf_text _ _ Hk'). reflexivity. }
        cbn. split; [| split; assumption].
        constructor.
        -- unfold keyBefore. rewrite Hk, Hk'. exact Hlt'.
        -- apply List.Forall_forall. intros x Hx. specialize (Hfirst' x Hx).
           unfold keyBefore in *. rewrite Hk. rewrite Hk' in Hfirst'.
           destruct (Obj.indexOf x); [lia | trivial].
    + cbn. split; [| split; assumption].
      constructor.
      * unfold keyBefore. rewrite Hk, Hk'. trivial.
      * apply List.Forall_forall. intros x Hx. specialize (Hfirst' x Hx).
        unfold keyBefore in *. rewrite Hk. rewrite Hk' in Hfirst'.
        destruct (Obj.indexOf x); [contradiction | trivial].
Qed.

Lemma enumeratedKeys_snoc keys k :
  enumeratedKeys keys -> Forall (fun x => keyBefore x k) keys -> enumeratedKeys (keys ++ [k]).
Proof.
  induction keys as [| x keys IH]; cbn; [auto |].
  intros [Hfirst Hrest] Hall. inversion Hall as [| ? ? Hx Hkeys]; subst.
  split; [| apply IH; assumption].
  apply List.Forall_app. split; [exact Hfirst | constructor; [exact Hx | constructor]].
Qed.

Lemma enumeratedKeys_app_inv keys k rest :
  enumeratedKeys (keys ++ k :: rest) ->
  enumeratedKeys (keys ++ [k]) /\ Forall (fun x => keyBefore x k) keys.
Proof.
  induction keys as [| x keys IH]; cbn.
  - intros _. repeat split; constructor.
  - intros [Hfirst Hrest]. destruct (IH Hrest) as [Hsnoc Hall].
    apply List.Forall_app in Hfirst as [Hkeys Hk]. inversion Hk; subst.
    split; [split; [| exact Hsnoc] | constructor; assumption].
    apply List.Forall_app. split; [exact Hkeys | constructor; [assumption | constructor]].
Qed.

Lemma set_enumerated {A} (o : list (string * A)) k v :
  enumerated o -> enumerated (Obj.set o k v).
Proof.
  intros Ho. unfold Obj.set.
  destruct (Obj.has k o) eqn:Hhas.
  - unfold enumerated. rewrite replace_keys. exact Ho.
  - assert (Hfresh : ~ In k (map fst o)).
    { intros Hin. apply has_true_In in Hin. congruence. }
    destruct (Obj.indexOf k) as [n |] eqn:Hk.
    + apply insertIndex_enumerated; assumption.
    + unfold enumerated. rewrite map_app. cbn.
      apply enumeratedKeys_snoc; [exact Ho |].
      apply List.Forall_forall. intros x Hx. unfold keyBefore. rewrite Hk.
      destruct (Obj.indexOf x); [trivial | congruence].
Qed.

Lemma insertIndex_last {A} n k (v : A) o :
  Obj.indexOf k = Some n ->
  Forall (fun x => keyBefore x k) (map fst o) ->
  Obj.insertIndex n k v o = o ++ [(k, v)].
Proof.
  intros Hk. induction o as [| [k' v'] o IH]; cbn; [reflexivity |].
  intros Hall. inversion Hall as [| ? ? Hk' Hrest]; subst.
  unfold keyBefore in Hk'. rewrite Hk in Hk'.
  destruct (Obj.indexOf k') as [n' |]; [| contradiction].
  apply N.ltb_lt in Hk'. rewrite Hk', (IH Hrest). reflexivity.
Qed.

Lemma set_last {A} (o : list (string * A)) k v :
  Forall (fun x => keyBefore x k) (map fst o) ->
  Obj.set o k v = o ++ [(k, v)].
Proof.
  intros Hall. unfold Obj.set.
  rewrite has_false.
  - destruct (Obj.indexOf k) eqn:Hk; [apply insertIndex_last; assumption | reflexivity].
  - eapply List.Forall_impl; [| exact Hall]. intros x. apply keyBefore_neq.
Qed.

Lemma set_Forall {A} (Q : string * A -> Prop) (o : list (string * A)) k v :
  Forall Q o -> Q (k, v) -> Forall Q (Obj.set o k v).
Proof.
  intros Ho Hkv. unfold Obj.set.
  destruct (Obj.has k o).
  - induction Ho as [| [k' v'] o Hx Ho IH]; cbn; [constructor |].
    destruct (String.eqb k k') eqn:Heq; constructor; auto.
    apply String.eqb_eq in Heq. subst k'. exact Hkv.
  - destruct (Obj.indexOf k) as [n |].
    + induction Ho as [| [k' v'] o Hx Ho IH]; cbn; [repeat constructor; exact Hkv |].
      destruct (Obj.indexOf k') as [n' |]; [destruct (n' <? n)%N |];
        repeat constructor; auto.
    + apply List.Forall_app. split; [exact Ho | repeat constructor; exact Hkv].
Qed.

Lemma assign_enumerated {A} (o : list (string * A)) k v :
  enumerated o -> enumerated (Obj.assign o k v).
Proof.
  intros Ho. unfold Obj.assign.
  destruct (String.eqb k "__proto__"); [exact Ho | apply set_enumerated, Ho].
Qed.

Lemma assign_Forall {A} (Q : string * A -> Prop) (o : list (string * A)) k v :
  Forall Q o -> (k <> "__proto__" -> Q (k, v)) -> Forall Q (Obj.assign o k v).
Proof.
  intros Ho Hkv. unfold Obj.assign.
  destruct (String.eqb k "__proto__") eqn:Hproto; [exact Ho |].
  apply set_Forall; [exact Ho |]. apply Hkv. apply String.eqb_neq, Hproto.
Qed.

Lemma renameProps_enumerated keyOf conv props acc :
  enumerated acc -> enumerated (renameProps keyOf conv props acc).
Proof.
  revert acc. induction props as [| [k v] props IH]; intros acc Hacc; cbn; [exact Hacc |].
  apply IH, assign_enumerated, Hacc.
Qed.

Lemma renameProps_Forall (Q : string * JSON -> Prop) keyOf conv props acc :
  Forall Q acc ->
  Forall (fun kv => Q (keyOf (fst kv), conv (snd kv))) props ->
  Forall Q (renameProps keyOf conv props acc).
Proof.
  revert acc. induction props as [| [k v] props IH]; intros acc Hacc Hprops; cbn;
    [exact Hacc |].
  inversion Hprops as [| ? ? Hkv Hrest]; subst.
  apply IH; [apply assign_Forall; auto | exact Hrest].
Qed.

(** No assignment makes a property named [__proto__]. *)
Lemma renameProps_no_proto keyOf conv props acc :
  Forall (fun kv => fst kv <> "__proto__") acc ->
  Forall (fun kv => fst kv <> "__proto__") (renameProps keyOf conv props acc).
Proof.
  revert acc. induction props as [| [k v] props IH]; intros acc Hacc; cbn; [exact Hacc |].
  apply IH, assign_Forall; auto.
Qed.

(** Renaming an object that is already in the order of enumeration, with
    names and values that the renaming leaves alone, gives the object
    back. *)
Lemma renameProps_stable keyOf conv props acc :
  enumerated (acc ++ props) ->
  Forall (fun kv => keyOf (fst kv) = fst kv /\ conv (snd kv) = snd kv) props ->
  Forall (fun kv => fst kv <> "__proto__") props ->
  renameProps keyOf conv props acc = acc ++ props.
Proof.
  revert acc. induction props as [| [k v] props IH]; intros acc Hall Hfixed Hnames; cbn.
  - rewrite app_nil_r. reflexivity.
  - inversion Hfixed as [| ? ? [Hk Hv] Hrest]; subst. cbn in Hk, Hv. rewrite Hk, Hv.
    inversion Hnames as [| ? ? Hname Hnames']; subst. cbn in Hname.
    apply String.eqb_neq in Hname. unfold Obj.assign. rewrite Hname.
    unfold enumerated in Hall. rewrite map_app in Hall. cbn in Hall.
    destruct (enumeratedKeys_app_inv _ _ _ Hall) as [_ Hbefore].
    rewrite (set_last acc k v Hbefore).
    rewrite IH; [rewrite <- app_assoc; reflexivity | | exact Hrest | exact Hnames'].
    unfold enumerated. rewrite <- app_assoc, map_app. cbn. exact Hall.
Qed.

Lemma get_In {A} k (o : list (string * A)) v : Obj.get k o = Some v -> In v (map snd o).
Proof.
  induction o as [| [k' v'] o IH]; cbn; [discriminate |].
  destruct (String.eqb k k'); [intros [= <-]; left; reflexivity | right; auto].
Qed.

Lemma inherited_In k v :
  Obj.inherited k = Some v ->
  In v ("[object Object]" :: Obj.nativeFn "Object" ::
        map Obj.nativeFn
          ["__defineGetter__"; "__defineSetter__"; "__lookupGetter__";
           "__lookupSetter__"; "hasOwnProperty"; "isPrototypeOf";
           "propertyIsEnumerable"; "toLocaleString"; "toString"; "valueOf"]).
Proof.
  unfold Obj.inherited.
  destruct (String.eqb k "__proto__"); [intros [= <-]; left; reflexivity |].
  destruct (String.eqb k "constructor"); [intros [= <-]; right; left; reflexivity |].
  destruct (existsb _ _) eqn:Hnative; [| discriminate].
  intros [= <-]. right. right. apply in_map.
  apply existsb_exists in Hnative as (x & Hx & Heq).
  apply String.eqb_eq in Heq. subst x. exact Hx.
Qed.

Lemma lookupKey_stable key k :
  Obj.lookupKey parameterMappings key = Some k -> normalizedKey k = k.
Proof.
  unfold Obj.lookupKey.
  destruct (Obj.get key parameterMappings) as [v |] eqn:Hget.
  - destruct (String.eqb v ""); [discriminate |]. intros [= <-].
    apply get_In in Hget. cbn in Hget.
    repeat (destruct Hget as [<- | Hget]; [reflexivity |]). destruct Hget.
  - intros Hk. apply inherited_In in Hk. cbn in Hk.
    repeat (destruct Hk as [<- | Hk]; [vm_compute; reflexivity |]). destruct Hk.
Qed.

Lemma normalizedKey_stable key : normalizedKey (normalizedKey key) = normalizedKey key.
Proof.
  unfold normalizedKey at 2 3.
  destruct (Str.includes "_" key) eqn:Hunderscore.
  - destruct (Obj.lookupKey parameterMappings key) as [k |] eqn:Hk.
    + apply (lookupKey_stable key), Hk.
    + unfold normalizedKey. rewrite Hunderscore, Hk. reflexivity.
  - unfold normalizedKey. rewrite Hunderscore. reflexivity.
Qed.

Lemma normalizeNested_idempotent v : normalizeNested (normalizeNested v) = normalizeNested v.
Proof.
  induction v as [| b | r | s | items _ | props IH] using JSON_nested_ind; try reflexivity.
  cbn [normalizeNested]. f_equal.
  apply (renameProps_stable normalizedKey normalizeNested _ []).
  - apply renameProps_enumerated. exact I.
  - apply renameProps_Forall; [constructor |].
    eapply List.Forall_impl; [| exact IH].
    intros [k x] Hx. cbn in *. split; [apply normalizedKey_stable | exact Hx].
  - apply renameProps_no_proto. constructor.
Qed.


Lemma renameProps_normalized props :
  let result := renameProps normalizedKey normalizeNested props [] in
  enumerated result /\
  Forall (fun kv => normalizedKey (fst kv) = fst kv /\ normalizeNested (snd kv) = snd kv)
         result.
Proof.
  split.
  - apply renameProps_enumerated. exact I.
  - apply renameProps_Forall; [constructor |].
    apply List.Forall_forall. intros [k x] _. cbn.
    split; [apply normalizedKey_stable | apply normalizeNested_idempotent].
Qed.

(** X1. [normalizeParameters] is idempotent: normalising what it returned
    changes nothing, whatever the value (an object, an array, a scalar,
    [null]), nested objects included. *)
Theorem normalizeParameters_idempotent params :
  normalizeParameters (normalizeParameters params) = normalizeParameters params.
Proof.
  assert (Hstable : forall props,
            normalizeParameters (JObj (renameProps normalizedKey normalizeNested props []))
            = JObj (renameProps normalizedKey normalizeNested props [])).
  { intros props. cbn [normalizeParameters]. f_equal.
    destruct (renameProps_normalized props) as [Horder Hfixed].
    apply (renameProps_stable normalizedKey normalizeNested _ []);
      [assumption | assumption | apply renameProps_no_proto; constructor]. }
  destruct params; try reflexivity; apply Hstable.
Qed.

(** X2. The object that [normalizeParameters] returns lists its names in
    the order of enumeration, none twice, and holds no snake-case name of
    the table [parameterMappings]: such a name was replaced by its
    camel-case form. *)
Theorem normalized_object_has_no_snake_names params props snake camel :
  normalizeParameters params = JObj props ->
  In (snake, camel) parameterMappings ->
  snake <> camel ->
  enumerated props /\ Obj.get snake props = None.
Proof.
  assert (Hkeys : forall given,
            let result := renameProps normalizedKey normalizeNested given [] in
            enumerated result /\ (In (snake, camel) parameterMappings -> snake <> camel ->
                                  Obj.get snake result = None)).
  { intros given result. destruct (renameProps_normalized given) as [Horder Hfixed].
    split; [exact Horder |].
    intros Hin Hne.
    destruct (Obj.get snake result) as [v |] eqn:Hget; [| reflexivity].
    exfalso.
    assert (Hkey : normalizedKey snake = snake).
    { fold result in Hfixed. clear - Hfixed Hget.
      induction Hfixed as [| [k x] rest [Hk _] _ IH]; cbn in Hget; [discriminate |].
      destruct (String.eqb snake k) eqn:Heq; [| auto].
      apply String.eqb_eq in Heq. subst k. exact Hk. }
    apply Hne. rewrite <- Hkey. apply normalizedKey_table, Hin. }
  intros Hprops Hin Hne.
  destruct params; try discriminate; cbn [normalizeParameters] in Hprops;
    injection Hprops as <-; (split; [apply Hkeys | apply Hkeys; assumption]).
Qed.

Lemma get_set_eq {A} (o : list (string * A)) k v : Obj.get k (Obj.set o k v) = Some v.
Proof.
  unfold Obj.set. destruct (Obj.has k o) eqn:Hhas.
  - induction o as [| [k' v'] o IH]; cbn in *; [discriminate |].
    destruct (String.eqb k k') eqn:Heq; cbn; rewrite Heq; [reflexivity | auto].
  - destruct (Obj.indexOf k) as [n |].
    + induction o as [| [k' v'] o IH]; cbn in *; [rewrite String.eqb_refl; reflexivity |].
      apply orb_false_iff in Hhas as [Hne Hhas].
      destruct (Obj.indexOf k') as [n' |]; [destruct (n' <? n)%N |]; cbn;
        rewrite ?Hne, ?String.eqb_refl; auto.
    + induction o as [| [k' v'] o IH]; cbn in *; [rewrite String.eqb_refl; reflexivity |].
      apply orb_false_iff in Hhas as [Hne Hhas]. rewrite Hne. auto.
Qed.

Lemma get_set_ne {A} (o : list (string * A)) k k' v :
  k <> k' -> Obj.get k (Obj.set o k' v) = Obj.get k o.
Proof.
  intros Hne. apply String.eqb_neq in Hne. unfold Obj.set.
  destruct (Obj.has k' o).
  - induction o as [| [k0 v0] o IH]; cbn; [reflexivity |].
    destruct (String.eqb k' k0) eqn:Heq; cbn.
    + apply String.eqb_eq in Heq. subst k0. rewrite Hne. reflexivity.
    + rewrite IH. reflexivity.
  - destruct (Obj.indexOf k') as [n |].
    + induction o as [| [k0 v0] o IH]; cbn; [rewrite Hne; reflexivity |].
      destruct (Obj.indexOf k0) as [n0 |]; [destruct (n0 <? n)%N |]; cbn;
        rewrite ?Hne, ?IH; reflexivity.
    + induction o as [| [k0 v0] o IH]; cbn; [rewrite Hne; reflexivity |].
      rewrite IH. reflexivity.
Qed.

Lemma get_In_pair {A} k (o : list (string * A)) v : Obj.get k o = Some v -> In (k, v) o.
Proof.
  induction o as [| [k' v'] o IH]; cbn; [discriminate |].
  destruct (String.eqb k k') eqn:Heq; [| right; auto].
  apply String.eqb_eq in Heq. intros [= <-]. left. congruence.
Qed.

Lemma normalizedKey_preimage snake camel key :
  In (snake, camel) parameterMappings ->
  normalizedKey key = camel -> key = snake \/ key = camel.
Proof.
  intros Hin. unfold normalizedKey.
  destruct (Str.includes "_" key); [| auto].
  unfold Obj.lookupKey.
  destruct (Obj.get key parameterMappings) as [v |] eqn:Hget.
  - destruct (String.eqb v ""); [auto |]. intros ->. left.
    apply get_In_pair in Hget. clear - Hin Hget.
    unfold parameterMappings in *. cbn in Hin, Hget.
    repeat (destruct Hin as [Hin | Hin]; [inversion Hin; subst; clear Hin;
      repeat (destruct Hget as [Hget | Hget]; [inversion Hget; reflexivity |]);
      destruct Hget |]).
    destruct Hin.
  - destruct (Obj.inherited key) as [v |] eqn:Hinherited; [| auto].
    intros ->. exfalso. apply inherited_In in Hinherited. clear - Hin Hinherited.
    unfold parameterMappings in Hin. cbn in Hin, Hinherited.
    repeat (destruct Hin as [Hin | Hin]; [inversion Hin; subst; clear Hin;
      repeat (destruct Hinherited as [Hinherited | Hinherited]; [discriminate |]);
      destruct Hinherited |]).
    destruct Hin.
Qed.

Lemma renameProps_app keyOf conv l1 l2 acc :
  renameProps keyOf conv (l1 ++ l2) acc = renameProps keyOf conv l2 (renameProps keyOf conv l1 acc).
Proof.
  revert acc. induction l1 as [| [k v] l1 IH]; intros acc; cbn; [reflexivity | apply IH].
Qed.

Lemma renameProps_get_untouched keyOf conv name props acc :
  Forall (fun kv => keyOf (fst kv) <> name) props ->
  Obj.get name (renameProps keyOf conv props acc) = Obj.get name acc.
Proof.
  revert acc. induction props as [| [k v] props IH]; intros acc Hprops; cbn; [reflexivity |].
  inversion Hprops as [| ? ? Hk Hrest]; subst. cbn in Hk.
  rewrite (IH _ Hrest). unfold Obj.assign.
  destruct (String.eqb (keyOf k) "__proto__"); [reflexivity |].
  apply get_set_ne. congruence.
Qed.

Lemma get_split {A} k (o : list (string * A)) v :
  Obj.get k o = Some v ->
  exists before after, o = before ++ (k, v) :: after /\ ~ In k (map fst before).
Proof.
  induction o as [| [k' v'] o IH]; cbn; [discriminate |].
  destruct (String.eqb k k') eqn:Heq.
  - apply String.eqb_eq in Heq. subst k'. intros [= <-].
    exists [], o. split; [reflexivity | intros []].
  - intros Hget. destruct (IH Hget) as (before & after & -> & Hfresh).
    exists ((k', v') :: before), after. split; [reflexivity |].
    cbn. intros [-> | Hin]; [| contradiction].
    rewrite String.eqb_refl in Heq. discriminate.
Qed.

Lemma get_None_In {A} k (o : list (string * A)) : Obj.get k o = None -> ~ In k (map fst o).
Proof.
  intros Hget Hin. apply has_true_In in Hin.
  induction o as [| [k' v'] o IH]; cbn in *; [discriminate |].
  destruct (String.eqb k k'); [discriminate | auto].
Qed.

(** X3. A value that a request gives under a snake-case name of the table
    is what the handlers read under the camel-case name after
    normalisation, when the object holds no name twice and does not hold
    the camel-case name as well. *)
Theorem snake_case_argument_is_read props snake camel v s :
  In (snake, camel) parameterMappings ->
  NoDup (map fst props) ->
  Obj.get snake props = Some v ->
  (snake <> camel -> Obj.get camel props = None) ->
  getArg (normalizeArgs (Some (JObj props))) camel s = (Ok (Some (normalizeNested v)), s).
Proof.
  intros Hin Hdistinct Hget Habsent.
  cbn [normalizeArgs option_map normalizeParameters getArg].
  unfold mret, M_ret, ret. f_equal. f_equal.
  destruct (get_split _ _ _ Hget) as (before & after & -> & _).
  rewrite renameProps_app. cbn [renameProps].
  rewrite (normalizedKey_table _ _ Hin).
  rewrite renameProps_get_untouched;
    [unfold Obj.assign; rewrite (proj2 (table_keys_not_proto _ _ Hin)); apply get_set_eq |].
  apply List.Forall_forall. intros [k x] Hk Hcamel. cbn in Hcamel.
  rewrite map_app in Hdistinct. cbn in Hdistinct.
  apply NoDup_app in Hdistinct as (_ & Hapart & Hafter).
  apply NoDup_cons in Hafter as [Hfresh _].
  assert (Hkey : In k (map fst after)) by (apply (in_map fst _ _ Hk)).
  destruct (normalizedKey_preimage _ _ _ Hin Hcamel) as [-> | ->].
  - apply Hfresh. apply list_elem_of_In. exact Hkey.
  - destruct (string_dec snake camel) as [-> | Hne].
    + apply Hfresh. apply list_elem_of_In. exact Hkey.
    + apply (get_None_In _ _ (Habsent Hne)).
      rewrite map_app, in_app_iff. right. right. exact Hkey.
Qed.
End ObjectOrder.

(** ** The supervised child, further *)

Section SupervisorMore.

Context `{H : Host}.

Lemma handleStopProject_idle s :
  activeProcess s = None ->
  exists r, handleStopProject s = (Ok r, s) /\ isError r = true.
Proof.
  intros Hidle. unfold handleStopProject, mbind, M_bind, bind, gets. rewrite Hidle.
  eexists. split; reflexivity.
Qed.

(** X4. [stop_project] with an active child answers with the lines that
    [get_debug_output] showed just before, sends the child the kill signal
    and nothing else, and leaves no active process: the next
    [get_debug_output], and the next [stop_project], are errors. *)
Theorem stop_project_hands_over_the_lines s handle c :
  activeProcess s = Some handle ->
  children s !! handle = Some c ->
  exists s',
    handleGetDebugOutput s = (Ok (snapshot (output c) (errors c)), s) /\
    handleStopProject s = (Ok (stoppedResponse c), s') /\
    activeProcess s' = None /\
    trace s' = trace s ++ [EvKill handle] /\
    children s' = <[handle := mkChild (output c) (errors c) true (argv c)]> (children s) /\
    handleGetDebugOutput s' = (Ok noActiveProcess, s') /\
    exists r, handleStopProject s' = (Ok r, s') /\ isError r = true.
Proof.
  intros Hactive Hchild.
  eexists. split; [apply (handleGetDebugOutput_active s handle c Hactive Hchild) |].
  assert (Hkids : alter (fun c => mkChild (output c) (errors c) true (argv c)) handle (children s)
                  = <[handle := mkChild (output c) (errors c) true (argv c)]> (children s)).
  { apply list_eq. intros i. destruct (decide (i = handle)) as [-> | Hne].
    - rewrite list_lookup_alter_eq, Hchild. cbn.
      symmetry. apply list_lookup_insert_eq. eapply lookup_lt_Some, Hchild.
    - rewrite list_lookup_alter_ne, list_lookup_insert_ne by congruence. reflexivity. }
  split.
  { unfold handleStopProject, kill, mbind, M_bind, bind, gets, modify, mret, M_ret, ret.
    rewrite Hactive. cbn.
    rewrite list_lookup_alter_eq, Hchild. cbn. reflexivity. }
  cbn. split; [reflexivity |]. split; [reflexivity |]. split; [exact Hkids |].
  split; [apply handleGetDebugOutput_idle; reflexivity |].
  apply handleStopProject_idle. reflexivity.
Qed.


(** X6. [run_project] for a directory without [project.godot] is an error
    that looks at the project file and does nothing else: the active child,
    if any, is neither killed nor replaced. *)
Theorem run_project_needs_project_file args props p s :
  normalizeArgs args = Some (JObj props) ->
  Obj.get "projectPath" props = Some (JStr p) ->
  Str.includes ".." p = false ->
  p <> "" ->
  normalize p <> "" ->
  existsSync (os s) (join [normalize p; "project.godot"]) = false ->
  exists r s',
    handleRunProject args s = (Ok r, s') /\
    isError r = true /\
    sameChildren s s' /\
    trace s' = trace s ++ [EvExists (join [normalize p; "project.godot"])].
Proof.
  intros Hargs Hp Hsafe Hne Hnorm Hmissing.
  apply String.eqb_neq in Hne. apply String.eqb_neq in Hnorm.
  unfold handleRunProject. rewrite Hargs.
  unfold mbind, M_bind, bind, getArg, mret, M_ret, ret. cbn [Obj.get]. rewrite Hp.
  unfold presentAndInvalid, validatePath, jsTruthy. rewrite Hne. cbn [negb].
  unfold mbind, M_bind, bind, mret, M_ret, ret. rewrite Hsafe. cbn [negb].
  unfold resolveProjectPath, jsTruthy, pathString. rewrite Hne. cbn [negb].
  unfold mbind, M_bind, bind, mret, M_ret, ret. cbn [truthy opt]. rewrite Hnorm. cbn [negb].
  unfold tryCatch, existsM. rewrite Hmissing. cbn [negb].
  eexists. eexists. split; [reflexivity |].
  split; [reflexivity |]. split; [split; reflexivity | reflexivity].
Qed.
End SupervisorMore.

(** ** The Godot executable, further *)

Section GodotPathMore.

Context `{H : Host}.

Lemma isValidGodotPath_extends cache q : keeps (cacheExtends cache) (isValidGodotPath q).
Proof.
  intros s Hs. unfold cacheExtends in *.
  unfold isValidGodotPath, cacheVerdict, exec, mbind, M_bind, bind, gets, modify, mret, M_ret, ret.
  cbn.
  destruct (validatedPaths s !! q) eqn:Hq; cbn; [exact Hs |].
  assert (Hgrow : forall v, cache ⊆ <[q := v]> (validatedPaths s)).
  { intros v. etrans; [exact Hs |]. apply insert_subseteq, Hq. }
  destruct (negb (String.eqb q "godot")); cbn.
  - destruct (negb (existsSync (os s) q)); cbn; [apply Hgrow |].
    destruct (execAsync (os s) _) as [[] ?]; cbn; apply Hgrow.
  - destruct (execAsync (os s) _) as [[] ?]; cbn; apply Hgrow.
Qed.

(** X7. Whatever the server does, the validity cache only grows: no entry
    is removed or changed, so a path that was validated, valid or not, is
    answered from the cache ever after, without a probe. *)
Theorem validity_cache_only_grows s activities :
  let s' := afterAll s activities in
  validatedPaths s ⊆ validatedPaths s' /\
  forall path verdict,
    validatedPaths s !! path = Some verdict ->
    isValidGodotPath path s' = (Ok verdict, s').
Proof.
  intros s'.
  assert (Hgrow : cacheExtends (validatedPaths s) s').
  { apply afterAll_keeps; try (intros; assumption).
    - apply isValidGodotPath_extends.
    - unfold cacheExtends. reflexivity. }
  split; [exact Hgrow |].
  intros path verdict Hpath.
  assert (Hcached : validatedPaths s' !! path = Some verdict)
    by (eapply lookup_weaken; [exact Hpath | exact Hgrow]).
  unfold isValidGodotPath, mbind, M_bind, bind, gets. cbn. rewrite Hcached. reflexivity.
Qed.

(** X8. [isValidGodotPath] never throws and records its verdict: asked
    again at once it gives the same answer from the cache and changes
    nothing. For a path that was not in the cache it makes one probe: the
    command [godot --version] for the word [godot]; for another path a look
    at the file, and the version command only when the file exists, a
    missing file being invalid. *)
Theorem validation_probes_once path s :
  exists verdict s1,
    isValidGodotPath path s = (Ok verdict, s1) /\
    validatedPaths s1 !! path = Some verdict /\
    isValidGodotPath path s1 = (Ok verdict, s1) /\
    (validatedPaths s !! path = None ->
     trace s1 = trace s ++ godotProbe (os s) path /\
     validatedPaths s1 = <[path := verdict]> (validatedPaths s) /\
     (path <> "godot" -> existsSync (os s) path = false -> verdict = false)) /\
    (forall cached, validatedPaths s !! path = Some cached -> verdict = cached /\ s1 = s).
Proof.
  assert (Hagain : forall v s1, validatedPaths s1 !! path = Some v ->
                                isValidGodotPath path s1 = (Ok v, s1)).
  { intros v s1 Hv. unfold isValidGodotPath, mbind, M_bind, bind, gets. cbn.
    rewrite Hv. reflexivity. }
  destruct (validatedPaths s !! path) as [cached |] eqn:Hcache.
  - exists cached, s.
    split; [apply Hagain, Hcache |]. split; [exact Hcache |].
    split; [apply Hagain, Hcache |]. split; [discriminate |].
    intros ? [= <-]. split; reflexivity.
  - unfold godotProbe.
    unfold isValidGodotPath, cacheVerdict, exec, mbind, M_bind, bind, gets, modify,
      mret, M_ret, ret.
    cbn. rewrite Hcache.
    destruct (String.eqb path "godot") eqn:Hgodot; cbn.
    + apply String.eqb_eq in Hgodot.
      destruct (execAsync (os s) _) as [[] o'] eqn:Hexec; cbn;
        eexists; eexists; (split; [reflexivity |]); cbn;
        rewrite lookup_insert_eq;
        (repeat split; try reflexivity; intros; congruence).
    + destruct (existsSync (os s) path) eqn:Hexists; cbn.
      * destruct (execAsync (os s) _) as [[] o'] eqn:Hexec; cbn;
          eexists; eexists; (split; [reflexivity |]); cbn;
          rewrite lookup_insert_eq;
          (repeat split; try reflexivity; try (rewrite <- app_assoc; reflexivity);
           intros; congruence).
      * eexists; eexists; (split; [reflexivity |]); cbn.
        rewrite lookup_insert_eq.
        repeat split; try reflexivity; intros; congruence.
Qed.

Lemma isValidGodotPath_total path s :
  exists verdict s1,
    isValidGodotPath path s = (Ok verdict, s1) /\
    sameSettings s s1 /\
    validatedPaths s1 !! path = Some verdict.
Proof.
  destruct (isValidGodotPath_settings path s) as [[verdict Hverdict] Hsame].
  exists verdict, (snd (isValidGodotPath path s)).
  split; [destruct (isValidGodotPath path s); cbn in *; congruence |].
  split; [exact Hsame |].
  revert Hverdict.
  unfold isValidGodotPath, cacheVerdict, exec, logDebug,
    mbind, M_bind, bind, gets, modify, mret, M_ret, ret.
  cbn.
  destruct (validatedPaths s !! path) eqn:Hcache; cbn; [congruence |].
  destruct (negb (String.eqb path "godot")); cbn;
    [destruct (negb (existsSync (os s) path)); cbn |];
    try (destruct (execAsync (os s) _) as [[] ?]; cbn);
    intros [= <-]; apply lookup_insert_eq.
Qed.

(** X9. [setGodotPath] never throws and does not touch the strict mode.
    The empty path is refused without a probe; a refused path leaves
    [godotPath] as it was; an accepted path is not empty, is stored
    normalised, and is valid in the cache. *)
Theorem setGodotPath_outcomes customPath s :
  exists accepted s',
    setGodotPath customPath s = (Ok accepted, s') /\
    strictPathValidation s' = strictPathValidation s /\
    (customPath = "" -> accepted = false /\ s' = s) /\
    (accepted = false -> godotPath s' = godotPath s) /\
    (accepted = true ->
     customPath <> "" /\
     godotPath s' = Some (normalize customPath) /\
     validatedPaths s' !! normalize customPath = Some true).
Proof.
  unfold setGodotPath.
  destruct (String.eqb customPath "") eqn:Hempty.
  - apply String.eqb_eq in Hempty. exists false, s.
    repeat split; auto; discriminate.
  - apply String.eqb_neq in Hempty.
    destruct (isValidGodotPath_total (normalize customPath) s)
      as (verdict & s1 & Hrun & (Hpath & Hstrict & Hconsole) & Hcache).
    unfold mbind, M_bind, bind. rewrite Hrun.
    destruct verdict; cbn.
    + eexists. eexists. split; [reflexivity |]. cbn.
      split; [exact Hstrict |].
      split; [intros ->; contradiction |]. split; [discriminate |].
      intros _. repeat split; [exact Hempty | exact Hcache].
    + exists false, s1.
      split; [reflexivity |]. split; [exact Hstrict |].
      split; [intros ->; contradiction |]. split; [intros _; exact Hpath | discriminate].
Qed.

Lemma tryPaths_sound paths s :
  exists found s',
    tryPaths paths s = (Ok found, s') /\
    strictPathValidation s' = strictPathValidation s /\
    debugOnly s s' /\
    (found = true -> validated s') /\
    (found = false -> godotPath s' = godotPath s).
Proof.
  revert s. induction paths as [| path rest IH]; intros s.
  - exists false, s. repeat split; auto using debugOnly_refl; discriminate.
  - cbn [tryPaths].
    destruct (isValidGodotPath_total (normalize path) s)
      as (verdict & s1 & Hrun & (Hpath & Hstrict & Hconsole) & Hcache).
    unfold mbind, M_bind, bind. rewrite Hrun.
    destruct verdict; cbn.
    + eexists. eexists. split; [reflexivity |]. cbn.
      split; [exact Hstrict |].
      split; [eapply debugOnly_trans; [exact Hconsole | eapply debugOnly_logged; reflexivity] |].
      split; [| discriminate].
      intros _. exists (normalize path). split; [reflexivity | exact Hcache].
    + destruct (IH s1) as (found & s' & Hrest & Hstrict' & Hconsole' & Hyes & Hno).
      exists found, s'. split; [exact Hrest |].
      split; [congruence |]. split; [eapply debugOnly_trans; eassumption |].
      split; [exact Hyes |]. intros Hfound. rewrite (Hno Hfound). exact Hpath.
Qed.

(** X10. [detectGodotPath] ends in one of three ways. Either [godotPath]
    is a path that the cache holds as valid, and only debug lines were
    written. Or, without strict mode, [godotPath] is the default path of
    the platform, normalised, and the console got the two not-found
    warnings and the two fallback warnings, in this order, with
    [DEBUG=true] each pair behind its debug copy and the debug lines of
    the probes before them. Or, in strict mode, the not-found error is
    thrown and [godotPath] is as it was. *)
Theorem detected_path_is_validated s :
  exists r s',
    detectGodotPath s = (r, s') /\
    match r with
    | Ok _ =>
        validated s' /\ debugOnly s s' \/
        strictPathValidation s = false /\
        exists fallback probes,
          fallback = normalize (if String.eqb platform "win32"
                                then "C:\Program Files\Godot\Godot.exe"
                                else if String.eqb platform "darwin"
                                     then "/Applications/Godot.app/Contents/MacOS/Godot"
                                     else "/usr/bin/godot") /\
          godotPath s' = Some fallback /\
          Forall (fun line => Str.startsWith "[DEBUG] " line = true) probes /\
          (getenv "DEBUG" <> Some "true" ->
           console s'
           = console s ++
             [ "[SERVER] Could not find Godot in common locations for " +:+ platform;
               "[SERVER] Set GODOT_PATH=/path/to/godot environment variable or pass { godotPath: '/path/to/godot' } in the config to specify the correct path.";
               "[SERVER] Using default path: " +:+ fallback +:+ ", but this may not work.";
               "[SERVER] This fallback behavior will be removed in a future version. Set strictPathValidation: true to opt-in to the new behavior." ]) /\
          (getenv "DEBUG" = Some "true" ->
           console s'
           = console s ++ probes ++
             [ "[DEBUG] Warning: Could not find Godot in common locations for " +:+ platform;
               "[SERVER] Could not find Godot in common locations for " +:+ platform;
               "[SERVER] Set GODOT_PATH=/path/to/godot environment variable or pass { godotPath: '/path/to/godot' } in the config to specify the correct path.";
               "[DEBUG] Using default path: " +:+ fallback +:+ ", but this may not work.";
               "[SERVER] Using default path: " +:+ fallback +:+ ", but this may not work.";
               "[SERVER] This fallback behavior will be removed in a future version. Set strictPathValidation: true to opt-in to the new behavior." ])
    | Throw message =>
        message = "Could not find a valid Godot executable. Set GODOT_PATH or provide a valid path in config." /\
        strictPathValidation s = true /\
        godotPath s' = godotPath s
    end.
Proof.
  unfold detectGodotPath.
  unfold mbind at 1, M_bind at 1, bind at 1, gets at 1.
  assert (Hfirst : exists kept s1,
            (if truthy (godotPath s) then isValidGodotPath (opt (godotPath s)) else mret false) s
            = (Ok kept, s1) /\
            sameSettings s s1 /\ (kept = true -> validated s1)).
  { destruct (godotPath s) as [current |] eqn:Hcurrent; cbn [truthy].
    - destruct (negb (String.eqb current "")).
      + destruct (isValidGodotPath_total current s)
          as (verdict & s1 & Hrun & Hsame & Hcache).
        exists verdict, s1. cbn [opt]. split; [exact Hrun |]. split; [exact Hsame |].
        intros ->. exists current. destruct Hsame as (Hpath & _). split; [congruence | exact Hcache].
      + exists false, s. split; [reflexivity |]. split; [apply sameSettings_refl | discriminate].
    - exists false, s. split; [reflexivity |]. split; [apply sameSettings_refl | discriminate]. }
  destruct Hfirst as (kept & s1 & Hrun1 & (Hpath1 & Hstrict1 & Hconsole1) & Hkept).
  unfold mbind at 1, M_bind at 1, bind at 1. rewrite Hrun1.
  destruct kept.
  { eexists. eexists. split; [reflexivity |]. left. split.
    - destruct (Hkept eq_refl) as (p & Hp & Hcache). exists p. auto.
    - eapply debugOnly_trans; [exact Hconsole1 | eapply debugOnly_logged; reflexivity]. }
  assert (Hsecond : exists fromEnv s2,
            (if truthy (getenv "GODOT_PATH") then
               logDebug ("Checking GODOT_PATH environment variable: "
                         +:+ normalize (opt (getenv "GODOT_PATH"))) ;;
               valid ← isValidGodotPath (normalize (opt (getenv "GODOT_PATH")));
               if valid : bool
               then
                 modify (set_godotPath (Some (normalize (opt (getenv "GODOT_PATH"))))) ;;
                 logDebug ("Using Godot path from environment: "
                           +:+ normalize (opt (getenv "GODOT_PATH"))) ;;
                 mret true
               else
                 logDebug "GODOT_PATH environment variable is invalid" ;;
                 mret false
             else mret false) s1 = (Ok fromEnv, s2) /\
            strictPathValidation s2 = strictPathValidation s1 /\
            debugOnly s1 s2 /\
            (fromEnv = true -> validated s2) /\
            (fromEnv = false -> godotPath s2 = godotPath s1)).
  { destruct (truthy (getenv "GODOT_PATH")).
    - unfold mbind at 1, M_bind at 1, bind at 1, logDebug at 1, modify at 1.
      set (s1' := print _ s1).
      destruct (isValidGodotPath_total (normalize (opt (getenv "GODOT_PATH"))) s1')
        as (verdict & s2 & Hrun & (Hpath & Hstrict & Hconsole) & Hcache).
      unfold mbind at 1, M_bind at 1, bind at 1. rewrite Hrun.
      assert (Hbefore : debugOnly s1 s2).
      { eapply debugOnly_trans; [| exact Hconsole]. eapply debugOnly_logged. reflexivity. }
      destruct verdict;
        unfold mbind, M_bind, bind, logDebug, modify, mret, M_ret, ret;
        eexists; eexists; (split; [reflexivity |]); cbn [strictPathValidation print set_godotPath].
      + split; [exact Hstrict |].
        split; [eapply debugOnly_trans; [exact Hbefore | eapply debugOnly_logged; reflexivity] |].
        split; [| discriminate].
        intros _. eexists. split; [reflexivity | exact Hcache].
      + split; [exact Hstrict |].
        split; [eapply debugOnly_trans; [exact Hbefore | eapply debugOnly_logged; reflexivity] |].
        split; [discriminate |]. intros _. exact Hpath.
    - exists false, s1. repeat split; auto using debugOnly_refl; discriminate. }
  destruct Hsecond as (fromEnv & s2 & Hrun2 & Hstrict2 & Hconsole2 & Henv & Hpath2).
  cbv iota. unfold mbind at 1, M_bind at 1, bind at 1. rewrite Hrun2.
  destruct fromEnv.
  { exists (Ok tt), s2. split; [reflexivity |]. left. split; [auto |].
    eapply debugOnly_trans; eassumption. }
  cbv iota. unfold mbind at 1, M_bind at 1, bind at 1, logDebug at 1, modify at 1.
  set (s2' := print _ s2).
  destruct (tryPaths_sound possiblePaths s2')
    as (found & s3 & Hrun3 & Hstrict3 & Hconsole3 & Hyes & Hpath3).
  unfold mbind at 1, M_bind at 1, bind at 1. rewrite Hrun3.
  assert (Hquiet : debugOnly s s3).
  { eapply debugOnly_trans; [exact Hconsole1 |].
    eapply debugOnly_trans; [exact Hconsole2 |].
    eapply debugOnly_trans; [| exact Hconsole3]. eapply debugOnly_logged. reflexivity. }
  destruct found.
  { exists (Ok tt), s3. split; [reflexivity |]. left. auto. }
  assert (Hdefault : defaultGodotPath
                     = normalize (if String.eqb platform "win32"
                                  then "C:\Program Files\Godot\Godot.exe"
                                  else if String.eqb platform "darwin"
                                       then "/Applications/Godot.app/Contents/MacOS/Godot"
                                       else "/usr/bin/godot")).
  { unfold defaultGodotPath.
    destruct (String.eqb platform "win32"); [reflexivity |].
    destruct (String.eqb platform "darwin"); reflexivity. }
  unfold fallbackWarnings. rewrite !Hdefault.
  set (fallback := normalize (if String.eqb platform "win32" then _ else _)) in *.
  cbv iota. unfold mbind, M_bind, bind, logDebug, modify, gets, mret, M_ret, ret, throw. cbn.
  assert (Hstrict : strictPathValidation s3 = strictPathValidation s)
    by (cbn in Hstrict3; congruence).
  rewrite Hstrict.
  destruct (strictPathValidation s).
  - eexists. eexists. split; [reflexivity |]. cbn.
    split; [reflexivity |]. split; [reflexivity |].
    rewrite (Hpath3 eq_refl). cbn. rewrite (Hpath2 eq_refl). exact Hpath1.
  - eexists. eexists. split; [reflexivity |]. right. cbn [godotPath console print set_godotPath].
    split; [reflexivity |].
    destruct Hquiet as (probes & Hprobes & Hdebug & Hoff).
    exists fallback, probes. split; [reflexivity |]. split; [reflexivity |].
    split.
    { apply List.Forall_forall. intros line Hline.
      rewrite forallb_forall in Hdebug. apply (Hdebug line Hline). }
    split.
    + intros Hunset.
      assert (Hmode : DEBUG_MODE = false).
      { destruct DEBUG_MODE eqn:Hd; [| reflexivity].
        apply DEBUG_MODE_true in Hd. contradiction. }
      rewrite Hprobes, (Hoff Hmode), !debugLines_off by exact Hmode.
      rewrite !app_nil_r, <- !app_assoc. reflexivity.
    + intros Hset. apply DEBUG_MODE_true in Hset.
      unfold debugLines. rewrite Hset, Hprobes, <- !app_assoc. reflexivity.
Qed.

(** X11. A server that [run] leaves serving has a Godot path, not empty;
    the strict mode is as it was, and in strict mode that path is valid in
    the cache. *)
Theorem serving_has_godot_path s s' :
  run s = (Serving, s') ->
  truthy (godotPath s') = true /\
  strictPathValidation s' = strictPathValidation s /\
  (strictPathValidation s = true ->
   validatedPaths s' !! opt (godotPath s') = Some true).
Proof.
  unfold run. intros Hserving.
  destruct (detectGodotPath s) as [r s1] eqn:Hdetect.
  assert (Hstrict1 : strictPathValidation s1 = strictPathValidation s).
  { assert (Hk : keeps (fun st => strictPathValidation st = strictPathValidation s)
                   detectGodotPath).
    { apply detectGodotPath_keeps; try (intros; assumption).
      intros q st Hst.
      destruct (isValidGodotPath_total q st) as (v & st' & Hq & (_ & Hs & _) & _).
      rewrite Hq. cbn. congruence. }
    specialize (Hk s eq_refl). rewrite Hdetect in Hk. exact Hk. }
  unfold mbind at 1, M_bind at 1, bind at 1 in Hserving. rewrite Hdetect in Hserving.
  destruct r as [[] | message]; [| cbn in Hserving; discriminate].
  unfold mbind at 1, M_bind at 1, bind at 1, gets at 1 in Hserving.
  destruct (truthy (godotPath s1)) eqn:Hset; cbn [negb] in Hserving;
    [| cbn in Hserving; discriminate].
  destruct (isValidGodotPath_total (opt (godotPath s1)) s1)
    as (verdict & s2 & Hrun & (Hpath & Hstrict & Hconsole) & Hcache).
  unfold mbind at 1, M_bind at 1, bind at 1 in Hserving. rewrite Hrun in Hserving.
  unfold mbind at 1, M_bind at 1, bind at 1, gets at 1 in Hserving.
  destruct (negb verdict && strictPathValidation s2) eqn:Hstop;
    [cbn in Hserving; discriminate |].
  cbn in Hserving. injection Hserving as <-. cbn.
  rewrite Hpath, Hset, Hstrict, Hstrict1.
  split; [reflexivity |]. split; [reflexivity |].
  intros Hmode. rewrite Hstrict, Hstrict1, Hmode in Hstop.
  destruct verdict; [exact Hcache | discriminate].
Qed.

Lemma print_nothing s : print [] s = s.
Proof. destruct s. unfold print. cbn. rewrite app_nil_r. reflexivity. Qed.

Lemma DEBUG_MODE_unset : getenv "DEBUG" <> Some "true" -> DEBUG_MODE = false.
Proof.
  intros Hunset. destruct DEBUG_MODE eqn:Hmode; [| reflexivity].
  apply DEBUG_MODE_true in Hmode. contradiction.
Qed.

(** X12. Detection keeps a Godot path that is set and still validates,
    looking at nothing else; with no path set, a [GODOT_PATH] that
    validates is taken, normalised, before any path of the platform is
    tried. Unless [DEBUG=true], detection does nothing but the validation
    and, for [GODOT_PATH], the assignment; with [DEBUG=true] it also
    writes its debug lines, one after the validation of the path that is
    kept, one before and one after the validation of [GODOT_PATH]. *)
Theorem godot_path_precedence s :
  (forall current,
     godotPath s = Some current -> current <> "" ->
     fst (isValidGodotPath current s) = Ok true ->
     (getenv "DEBUG" <> Some "true" ->
      detectGodotPath s = (Ok tt, snd (isValidGodotPath current s))) /\
     (getenv "DEBUG" = Some "true" ->
      detectGodotPath s
      = (Ok tt, print ["[DEBUG] Using existing Godot path: " +:+ current]
                  (snd (isValidGodotPath current s))))) /\
  (forall e,
     truthy (godotPath s) = false ->
     getenv "GODOT_PATH" = Some e -> e <> "" ->
     fst (isValidGodotPath (normalize e) s) = Ok true ->
     (getenv "DEBUG" <> Some "true" ->
      detectGodotPath s
      = (Ok tt, set_godotPath (Some (normalize e)) (snd (isValidGodotPath (normalize e) s)))) /\
     (getenv "DEBUG" = Some "true" ->
      detectGodotPath s
      = (Ok tt, print ["[DEBUG] Using Godot path from environment: " +:+ normalize e]
                  (set_godotPath (Some (normalize e))
                     (snd (isValidGodotPath (normalize e)
                             (print ["[DEBUG] Checking GODOT_PATH environment variable: "
                                     +:+ normalize e] s))))))).
Proof.
  split.
  - intros current Hcurrent Hne Hvalid.
    apply String.eqb_neq in Hne.
    assert (Hdetect : detectGodotPath s
                      = (Ok tt, print (debugLines ("Using existing Godot path: " +:+ current))
                                  (snd (isValidGodotPath current s)))).
    { unfold detectGodotPath, mbind, M_bind, bind, gets.
      rewrite Hcurrent. cbn [truthy opt]. rewrite Hne. cbn [negb].
      destruct (isValidGodotPath current s) as [r s1]. cbn in Hvalid. subst r. reflexivity. }
    split.
    + intros Hunset. rewrite Hdetect, debugLines_off by (apply DEBUG_MODE_unset, Hunset).
      rewrite print_nothing. reflexivity.
    + intros Hset. apply DEBUG_MODE_true in Hset.
      rewrite Hdetect. unfold debugLines. rewrite Hset. reflexivity.
  - intros e Hunset Henv Hne Hvalid.
    apply String.eqb_neq in Hne.
    set (s0 := print (debugLines ("Checking GODOT_PATH environment variable: " +:+ normalize e)) s).
    assert (Hvalid0 : fst (isValidGodotPath (normalize e) s0) = Ok true).
    { destruct (isValidGodotPath_quiet (normalize e) s s0 eq_refl) as [Hfst _]. congruence. }
    assert (Hdetect : detectGodotPath s
              = (Ok tt, print (debugLines ("Using Godot path from environment: " +:+ normalize e))
                          (set_godotPath (Some (normalize e))
                             (snd (isValidGodotPath (normalize e) s0))))).
    { unfold detectGodotPath, mbind, M_bind, bind, gets, logDebug, modify.
      rewrite Hunset, Henv. cbn [truthy opt]. rewrite Hne. cbn [negb].
      unfold mret at 1, M_ret at 1, ret at 1. fold s0.
      destruct (isValidGodotPath (normalize e) s0) as [r s1]. cbn in Hvalid0. subst r.
      reflexivity. }
    split.
    + intros Hquiet. rewrite Hdetect. unfold s0.
      rewrite !debugLines_off by (apply DEBUG_MODE_unset, Hquiet).
      rewrite !print_nothing. reflexivity.
    + intros Hset. apply DEBUG_MODE_true in Hset.
      rewrite Hdetect. unfold s0, debugLines. rewrite Hset. reflexivity.
Qed.
End GodotPathMore.

(** ** What no request changes *)

Section Fixed.

Context `{H : Host}.

Lemma isValidGodotPath_keeps_fields {A} (field : St -> A) (a : A) q :
  (forall cache s, field (set_validatedPaths cache s) = field s) ->
  (forall evs s, field (emit evs s) = field s) ->
  (forall o s, field (set_os o s) = field s) ->
  (forall lines s, field (print lines s) = field s) ->
  keeps (fun s => field s = a) (isValidGodotPath q).
Proof.
  intros Hcache Hemit Hos Hprint s Hs.
  unfold isValidGodotPath, cacheVerdict, exec, logDebug,
    mbind, M_bind, bind, gets, modify, mret, M_ret, ret.
  cbn.
  destruct (validatedPaths s !! q); cbn; [exact Hs |].
  destruct (negb (String.eqb q "godot")); cbn;
    [destruct (negb (existsSync (os s) q)); cbn |];
    try (destruct (execAsync (os s) _) as [[] ?]; cbn);
    repeat first [rewrite Hprint | rewrite Hcache | rewrite Hemit | rewrite Hos]; exact Hs.
Qed.

(** X13. Nothing that happens to a server changes its strict mode or the
    configuration it was built with. *)
Theorem configuration_is_fixed s activities :
  strictPathValidation (afterAll s activities) = strictPathValidation s /\
  initialConfig (afterAll s activities) = initialConfig s.
Proof.
  split.
  - apply (afterAll_keeps (fun st => strictPathValidation st = strictPathValidation s));
      try (intros; assumption); [| reflexivity].
    intros q. apply isValidGodotPath_keeps_fields; reflexivity.
  - apply (afterAll_keeps (fun st => initialConfig st = initialConfig s));
      try (intros; assumption); [| reflexivity].
    intros q. apply isValidGodotPath_keeps_fields; reflexivity.
Qed.

Lemma detect_keeps_exportData p s :
  p <> "" -> normalize p = p -> exportDataIs p s -> exportDataIs p (detectPortalPaths s).
Proof.
  unfold exportDataIs. intros Hne Hnormal Hs.
  assert (Htruthy : truthy (Some p) = true) by (apply truthy_Some, Hne).
  unfold detectPortalPaths. cbn. unfold overridden. rewrite Hs.
  repeat (rewrite Htruthy; cbn [negb andb]).
  rewrite !andb_false_r. cbn.
  unfold renormalized. rewrite Htruthy. cbn [opt]. rewrite Hnormal. reflexivity.
Qed.

(** X14. Once the export-data directory is remembered (not empty, in
    normal form), nothing changes it: detection does not look for it
    again, whatever happens to the SDK. *)
Theorem export_data_path_is_sticky p s activities :
  p <> "" -> normalize p = p ->
  fbExportDataPath s = Some p ->
  fbExportDataPath (afterAll s activities) = Some p.
Proof.
  intros Hne Hnormal Hs.
  apply (afterAll_keeps (exportDataIs p)); try (intros; assumption).
  - intros st. apply detect_keeps_exportData; assumption.
  - intros q. apply (isValidGodotPath_keeps_fields fbExportDataPath); reflexivity.
Qed.
End Fixed.

(** ** The Python interpreter *)

Section Python.

Context `{H : Host}.

Lemma tryPython_first candidates tested s :
  (forall c, In c tested -> execFileVersion (os s) c = false) ->
  match tryPython candidates tested s with
  | (Ok command, s') =>
      command <> "" /\ firstAnswering (os s) candidates command /\
      pythonCommand s' = Some command /\ os s' = os s
  | (Throw _, s') =>
      pythonCommand s' = pythonCommand s /\ os s' = os s /\
      forall c, In c candidates -> c <> "" -> execFileVersion (os s) c = false
  end.
Proof.
  revert tested s. induction candidates as [| candidate rest IH]; intros tested s Htested.
  - cbn. repeat split. intros c [].
  - cbn [tryPython].
    assert (Hskip : forall tested' s1,
              os s1 = os s -> pythonCommand s1 = pythonCommand s ->
              (forall c, In c tested' -> execFileVersion (os s) c = false) ->
              (candidate <> "" -> execFileVersion (os s) candidate = false) ->
              match tryPython rest tested' s1 with
              | (Ok command, s') =>
                  command <> "" /\ firstAnswering (os s) (candidate :: rest) command /\
                  pythonCommand s' = Some command /\ os s' = os s
              | (Throw _, s') =>
                  pythonCommand s' = pythonCommand s /\ os s' = os s /\
                  forall c, In c (candidate :: rest) -> c <> "" ->
                            execFileVersion (os s) c = false
              end).
    { intros tested' s1 Hos Hpy Htested' Hcandidate.
      specialize (IH tested' s1). rewrite Hos in IH. specialize (IH Htested').
      destruct (tryPython rest tested' s1) as [[command | message] s'].
      - destruct IH as (Hne & (before & after & -> & Hyes & Hno) & Hset & Hos').
        split; [exact Hne |]. split; [| split; assumption].
        exists (candidate :: before), after. split; [reflexivity |]. split; [exact Hyes |].
        intros b [<- | Hb]; auto.
      - destruct IH as (Hset & Hos' & Hnone).
        split; [congruence |]. split; [exact Hos' |].
        intros c [<- | Hc]; auto. }
    destruct (String.eqb candidate "") eqn:Hempty.
    { apply Hskip; auto. apply String.eqb_eq in Hempty. intros Hne. contradiction. }
    apply String.eqb_neq in Hempty.
    destruct (existsb (String.eqb candidate) tested) eqn:Hseen.
    { apply Hskip; auto. intros _. apply Htested.
      apply existsb_exists in Hseen. destruct Hseen as (c & Hc & Heq).
      apply String.eqb_eq in Heq. subst c. exact Hc. }
    unfold mbind at 1, M_bind at 1, bind at 1, validatePythonCommand at 1.
    destruct (execFileVersion (os s) candidate) eqn:Hanswer.
    + cbn. split; [exact Hempty |]. split; [| split; reflexivity].
      exists [], rest. split; [reflexivity |]. split; [exact Hanswer |]. intros b [].
    + apply Hskip; auto.
      intros c [<- | Hc]; auto.
Qed.

Lemma tryPython_message candidates tested s :
  match tryPython candidates tested s with
  | (Ok _, _) => True
  | (Throw message, _) =>
      message = "Unable to locate a Python interpreter. Set PYTHON_PATH or pythonPath in the server configuration."
  end.
Proof.
  revert tested s. induction candidates as [| candidate rest IH]; intros tested s.
  - reflexivity.
  - cbn [tryPython]. destruct (String.eqb candidate ""); [apply IH |].
    destruct (existsb (String.eqb candidate) tested); [apply IH |].
    unfold mbind at 1, M_bind at 1, bind at 1, validatePythonCommand at 1.
    destruct (execFileVersion (os s) candidate); [exact I | apply IH].
Qed.

(** X15. The command that [ensurePythonCommand] returns answered
    [--version] during the call and is remembered. A remembered command
    that still answers has priority: it is returned after that one probe,
    whatever the candidates are. Otherwise the result is the first
    candidate that answers (configuration, [PYTHON_PATH], [python3],
    [python]). The call throws only when the remembered command, if any,
    and neither [python3] nor [python] answer, and then remembers nothing
    new. The machine is left as it was. *)
Theorem python_command_is_checked s :
  match ensurePythonCommand s with
  | (Ok command, s') =>
      command <> "" /\ execFileVersion (os s) command = true /\
      pythonCommand s' = Some command /\ os s' = os s /\
      (if truthy (pythonCommand s) && execFileVersion (os s) (opt (pythonCommand s))
       then pythonCommand s = Some command /\
            s' = emit [EvExecFile command ["--version"]] s
       else firstAnswering (os s) (pythonCandidates s) command)
  | (Throw message, s') =>
      truthy (pythonCommand s) && execFileVersion (os s) (opt (pythonCommand s)) = false /\
      message = "Unable to locate a Python interpreter. Set PYTHON_PATH or pythonPath in the server configuration." /\
      pythonCommand s' = pythonCommand s /\ os s' = os s /\
      execFileVersion (os s) "python3" = false /\
      execFileVersion (os s) "python" = false
  end.
Proof.
  unfold ensurePythonCommand.
  unfold mbind at 1, M_bind at 1, bind at 1, gets at 1.
  assert (Hrest : forall s1, os s1 = os s -> pythonCommand s1 = pythonCommand s ->
                             initialConfig s1 = initialConfig s ->
            match (config ← gets initialConfig;
                   tryPython ((if truthy (cfg config cfg_pythonPath)
                               then [opt (cfg config cfg_pythonPath)] else [])
                              ++ (if truthy (getenv "PYTHON_PATH")
                                  then [opt (getenv "PYTHON_PATH")] else [])
                              ++ ["python3"; "python"]) []) s1 with
            | (Ok command, s') =>
                command <> "" /\ execFileVersion (os s) command = true /\
                pythonCommand s' = Some command /\ os s' = os s /\
                firstAnswering (os s) (pythonCandidates s) command
            | (Throw message, s') =>
                message = "Unable to locate a Python interpreter. Set PYTHON_PATH or pythonPath in the server configuration." /\
                pythonCommand s' = pythonCommand s /\ os s' = os s /\
                execFileVersion (os s) "python3" = false /\
                execFileVersion (os s) "python" = false
            end).
  { intros s1 Hos Hpy Hconfig.
    unfold mbind, M_bind, bind, gets. rewrite Hconfig.
    pose proof (tryPython_first (pythonCandidates s) [] s1) as Htry.
    pose proof (tryPython_message (pythonCandidates s) [] s1) as Hmessage.
    rewrite Hos in Htry. specialize (Htry (fun c (Hc : In c []) => match Hc with end)).
    unfold pythonCandidates in Htry at 1. unfold pythonCandidates in Hmessage.
    destruct (tryPython _ [] s1) as [[command | message] s'].
    - destruct Htry as (Hne & Hfirst & Hset & Hos').
      split; [exact Hne |]. destruct Hfirst as (before & after & Heq & Hyes & Hno).
      split; [exact Hyes |]. split; [exact Hset |]. split; [exact Hos' |].
      exists before, after. auto.
    - destruct Htry as (Hset & Hos' & Hnone).
      split; [exact Hmessage |].
      split; [congruence |]. split; [exact Hos' |].
      split; apply Hnone; try discriminate;
        unfold pythonCandidates; rewrite !in_app_iff; right; right; simpl; auto. }
  destruct (pythonCommand s) as [current |] eqn:Hcurrent; cbn [truthy].
  - destruct (negb (String.eqb current "")) eqn:Hne.
    + unfold validatePythonCommand at 1.
      unfold mbind at 1, M_bind at 1, bind at 1. cbn [opt andb].
      destruct (execFileVersion (os s) current) eqn:Hanswer.
      * unfold mret, M_ret, ret. cbn.
        split; [intros ->; discriminate |]. auto.
      * specialize (Hrest (emit [EvExecFile current ["--version"]] s)
                      eq_refl Hcurrent eq_refl).
        destruct ((config ← gets initialConfig; _) _) as [[command | message] s'];
          [| split; [reflexivity |]]; exact Hrest.
    + unfold mbind at 1, M_bind at 1, bind at 1. cbn [andb].
      specialize (Hrest s eq_refl Hcurrent eq_refl).
      unfold mret at 1, M_ret at 1, ret at 1.
      destruct ((config ← gets initialConfig; _) _) as [[command | message] s'];
        [| split; [reflexivity |]]; exact Hrest.
  - unfold mbind at 1, M_bind at 1, bind at 1. cbn [andb].
    specialize (Hrest s eq_refl Hcurrent eq_refl).
    unfold mret at 1, M_ret at 1, ret at 1.
    destruct ((config ← gets initialConfig; _) _) as [[command | message] s'];
      [| split; [reflexivity |]]; exact Hrest.
Qed.
End Python.

(** ** Portal SDK roots, further *)

Section SdkRoots.

Context `{H : Host}.

Lemma walkUp_sound fuel o current visited root :
  fst (walkUp fuel o current visited) = Some root ->
  fst (isValidPortalSdkRoot o root) = true.
Proof.
  revert current visited.
  induction fuel as [| fuel IH]; intros current visited; cbn [walkUp]; [discriminate |].
  destruct (existsb (String.eqb current) visited); [discriminate |].
  destruct (fst (isValidPortalSdkRoot o current)) eqn:Hhere.
  { cbn. intros [= <-]. exact Hhere. }
  destruct (fst (isValidPortalSdkRoot o (join [current; "PortalSDK"]))) eqn:Hchild.
  { cbn. intros [= <-]. exact Hchild. }
  destruct (String.eqb (dirname current) current); [discriminate |].
  cbn. apply IH.
Qed.

Lemma firstValidRoot_sound o candidates root :
  fst (firstValidRoot o candidates) = Some root ->
  In root candidates /\ fst (isValidPortalSdkRoot o root) = true.
Proof.
  induction candidates as [| candidate rest IH]; cbn [firstValidRoot]; [discriminate |].
  destruct (fst (isValidPortalSdkRoot o candidate)) eqn:Hvalid.
  - cbn. intros [= <-]. split; [left; reflexivity | exact Hvalid].
  - cbn. intros Hrest. destruct (IH Hrest). split; [right |]; assumption.
Qed.

(** X16. The directory that the upward search returns passes
    [isValidPortalSdkRoot]; [detectPortalPaths] leaves the SDK root as it
    was or sets it to one of its candidates that passes the check. *)
Theorem sdk_root_is_checked s startDir :
  (forall root,
     fst (resolvePortalSdkRootFrom (os s) startDir) = Some root ->
     fst (isValidPortalSdkRoot (os s) root) = true) /\
  (portalSdkPath (detectPortalPaths s) = portalSdkPath s \/
   exists root,
     portalSdkPath (detectPortalPaths s) = Some root /\
     In root (fst (candidateRoots s)) /\
     fst (isValidPortalSdkRoot (os s) root) = true).
Proof.
  split.
  - intros root. unfold resolvePortalSdkRootFrom.
    destruct (String.eqb startDir ""); [discriminate |].
    apply walkUp_sound.
  - rewrite detect_sdk.
    destruct (fst (firstValidRoot (os s) (fst (candidateRoots s)))) as [root |] eqn:Hfound.
    + right. exists root. split; [reflexivity |]. apply firstValidRoot_sound, Hfound.
    + left. reflexivity.
Qed.

End SdkRoots.

(** ** Responses and exceptions *)

Section Responses.

Context `{H : Host}.

Lemma returns_ret {A} (a : A) : returns (mret a).
Proof. intros s. exists a, s. reflexivity. Qed.

Lemma returns_gets {A} (f : St -> A) : returns (gets f).
Proof. intros s. exists (f s), s. reflexivity. Qed.

Lemma returns_modify f : returns (modify f).
Proof. intros s. exists tt, (f s). reflexivity. Qed.

Lemma returns_bind {A B} (m : M A) (k : A -> M B) :
  returns m -> (forall a, returns (k a)) -> returns (m ≫= k).
Proof.
  intros Hm Hk s. destruct (Hm s) as (a & s1 & Hrun).
  unfold mbind, M_bind, bind. rewrite Hrun. apply Hk.
Qed.

Lemma returns_tryCatch {A} (body : M A) handler :
  (forall e, returns (handler e)) -> returns (tryCatch body handler).
Proof.
  intros Hh s. unfold tryCatch. destruct (body s) as [[a | e] s1]; [eauto | apply Hh].
Qed.

Lemma returns_fail message solutions : returns (fail message solutions).
Proof. apply returns_ret. Qed.

Lemma returns_existsM path : returns (existsM path).
Proof. intros s. eexists. eexists. reflexivity. Qed.

Lemma returns_getArg {B} props name (k : option JSON -> M B) :
  returns (k (Obj.get name props)) -> returns (getArg (Some (JObj props)) name ≫= k).
Proof. intros Hk s. exact (Hk s). Qed.

Lemma returns_validatePath v : stringOrAbsent v = true -> returns (validatePath v).
Proof.
  intros Hv. unfold validatePath.
  destruct v as [[] |]; try discriminate; cbn; [| apply returns_ret].
  destruct (negb (negb (String.eqb s ""))); apply returns_ret.
Qed.

Lemma returns_presentAndInvalid v : stringOrAbsent v = true -> returns (presentAndInvalid v).
Proof.
  intros Hv. unfold presentAndInvalid.
  destruct (jsTruthy v); [| apply returns_ret].
  apply returns_bind; [apply returns_validatePath, Hv | intros; apply returns_ret].
Qed.

Lemma returns_resolveProjectPath v : stringOrAbsent v = true -> returns (resolveProjectPath v).
Proof.
  intros Hv. unfold resolveProjectPath.
  destruct (jsTruthy v) eqn:Htruthy.
  - destruct v as [[] |]; try discriminate.
    unfold pathString. apply returns_bind; [apply returns_ret | intros; apply returns_ret].
  - apply returns_bind; [apply returns_modify |]. intros _.
    apply returns_bind; [apply returns_gets | intros; apply returns_ret].
Qed.

Lemma returns_toAbsolutePathArg p v :
  stringOrAbsent v = true -> negb (jsTruthy v) = false -> returns (toAbsolutePathArg p v).
Proof.
  intros Hv Htruthy. destruct v as [[] |]; try discriminate. apply returns_ret.
Qed.

Lemma returns_mkdirM path :
  (forall o p, exists o', mkdirSync o p = inr o') -> returns (mkdirM path).
Proof.
  intros Hmkdir s. unfold mkdirM. destruct (Hmkdir (os s) path) as (o' & ->). eauto.
Qed.

Lemma typed_field props name :
  pathsAreStrings props = true -> In name pathFields ->
  stringOrAbsent (Obj.get name props) = true.
Proof.
  unfold pathsAreStrings. rewrite forallb_forall. auto.
Qed.


Lemma returns_chooseFbExportData v : returns (chooseFbExportData v).
Proof.
  unfold chooseFbExportData.
  apply returns_bind; [apply returns_gets | intros; apply returns_ret].
Qed.

Lemma returns_getGdConverterScriptPath name : returns (getGdConverterScriptPath name).
Proof.
  unfold getGdConverterScriptPath.
  apply returns_bind; [apply returns_modify | intros _].
  apply returns_bind; [apply returns_gets | intros sdk].
  destruct (negb (truthy sdk)); [apply returns_ret |].
  apply returns_bind; [apply returns_existsM | intros; apply returns_ret].
Qed.

Ltac typed :=
  solve [ assumption
        | apply typed_field; [assumption | simpl; tauto] ].

Ltac returns_step :=
  first
    [ apply returns_ret
    | apply returns_fail
    | apply returns_gets
    | apply returns_modify
    | apply returns_existsM
    | apply returns_chooseFbExportData
    | apply returns_getGdConverterScriptPath
    | apply returns_tryCatch; intros ?
    | apply returns_getArg
    | apply returns_validatePath; typed
    | apply returns_presentAndInvalid; typed
    | apply returns_resolveProjectPath; typed
    | apply returns_toAbsolutePathArg; typed
    | apply returns_mkdirM; assumption
    | apply returns_bind; [| intros ?]
    | match goal with
      | |- returns (if ?b then _ else _) => destruct b eqn:?
      | |- returns (match ?x with _ => _ end) => destruct x eqn:?
      | |- returns (let _ := _ in _) => cbv zeta
      end ].

Ltac returns_handler Hargs := cbv zeta; rewrite Hargs; repeat returns_step.

Section Typed.

Variable args : option JSON.
Variable props : list (string * JSON).
Hypothesis Hargs : normalizeArgs args = Some (JObj props).
Hypothesis Htyped : pathsAreStrings props = true.

Lemma handleLaunchEditor_returns : returns (handleLaunchEditor args).
Proof. unfold handleLaunchEditor. returns_handler Hargs. Qed.

Lemma handleRunProject_returns : returns (handleRunProject args).
Proof. unfold handleRunProject. returns_handler Hargs. Qed.

Lemma handleListProjects_returns : returns (handleListProjects args).
Proof. unfold handleListProjects. returns_handler Hargs. Qed.

Lemma handleGetProjectInfo_returns : returns (handleGetProjectInfo args).
Proof. unfold handleGetProjectInfo. returns_handler Hargs. Qed.

Lemma handleCreateScene_returns : returns (handleCreateScene args).
Proof. unfold handleCreateScene, inProject. returns_handler Hargs. Qed.

Lemma handleAddNode_returns : returns (handleAddNode args).
Proof. unfold handleAddNode, inProject. returns_handler Hargs. Qed.

Lemma handleLoadSprite_returns : returns (handleLoadSprite args).
Proof. unfold handleLoadSprite, inProject. returns_handler Hargs. Qed.

Lemma handleExportMeshLibrary_returns : returns (handleExportMeshLibrary args).
Proof. unfold handleExportMeshLibrary, inProject. returns_handler Hargs. Qed.

Lemma handleSaveScene_returns : returns (handleSaveScene args).
Proof. unfold handleSaveScene, inProject. returns_handler Hargs. Qed.

Lemma handleGetUid_returns : returns (handleGetUid args).
Proof. unfold handleGetUid. returns_handler Hargs. Qed.

Lemma handleUpdateProjectUids_returns : returns (handleUpdateProjectUids args).
Proof. unfold handleUpdateProjectUids. returns_handler Hargs. Qed.

Lemma handleListPortalLevels_returns : returns (handleListPortalLevels args).
Proof. unfold handleListPortalLevels. returns_handler Hargs. Qed.

Hypothesis Hmkdir : forall o p, exists o', mkdirSync o p = inr o'.

Lemma handleExportPortalLevel_returns : returns (handleExportPortalLevel args).
Proof. unfold handleExportPortalLevel. returns_handler Hargs. Qed.

Lemma handleCreatePortalProject_returns : returns (handleCreatePortalProject args).
Proof. unfold handleCreatePortalProject. returns_handler Hargs. Qed.

End Typed.

Lemma handleGetDebugOutput_returns : returns handleGetDebugOutput.
Proof. unfold handleGetDebugOutput. repeat returns_step. Qed.

Lemma handleStopProject_returns : returns handleStopProject.
Proof. unfold handleStopProject, kill. repeat returns_step. Qed.

Lemma handleGetGodotVersion_returns : returns handleGetGodotVersion.
Proof. unfold handleGetGodotVersion. repeat returns_step. Qed.

Lemma handleGetPortalSdkInfo_returns : returns handleGetPortalSdkInfo.
Proof. unfold handleGetPortalSdkInfo. repeat returns_step. Qed.


(** X17. With an object as arguments whose path fields are strings, as
    the schemas declare, every tool that is listed answers with a response,
    success or error, and no exception leaves its handler (for the two
    tools that create a directory first: when the directory can be
    created); a name that is not listed throws the unknown-tool error and
    changes nothing. *)
Theorem listed_tools_answer name args props s :
  normalizeArgs args = Some (JObj props) ->
  pathsAreStrings props = true ->
  (In name directoryMakers -> forall o p, exists o', mkdirSync o p = inr o') ->
  if existsb (String.eqb name) listedTools
  then exists r s', callTool name args s = (Ok r, s')
  else callTool name args s = (Throw ("Unknown tool: " +:+ name), s).
Proof.
  intros Hargs Htyped Hmkdir.
  unfold listedTools, callTool. cbn [existsb].
  repeat match goal with
         | |- context [String.eqb name ?tool] =>
             destruct (String.eqb name tool) eqn:?; cbn [orb]
         end;
    try reflexivity;
    lazymatch goal with
    | |- exists r s', handleGetDebugOutput _ = _ => apply handleGetDebugOutput_returns
    | |- exists r s', handleStopProject _ = _ => apply handleStopProject_returns
    | |- exists r s', handleGetGodotVersion _ = _ => apply handleGetGodotVersion_returns
    | |- exists r s', handleGetPortalSdkInfo _ = _ => apply handleGetPortalSdkInfo_returns
    | |- exists r s', handleLaunchEditor _ _ = _ =>
        eapply handleLaunchEditor_returns; eassumption
    | |- exists r s', handleRunProject _ _ = _ =>
        eapply handleRunProject_returns; eassumption
    | |- exists r s', handleListProjects _ _ = _ =>
        eapply handleListProjects_returns; eassumption
    | |- exists r s', handleGetProjectInfo _ _ = _ =>
        eapply handleGetProjectInfo_returns; eassumption
    | |- exists r s', handleCreateScene _ _ = _ =>
        eapply handleCreateScene_returns; eassumption
    | |- exists r s', handleAddNode _ _ = _ =>
        eapply handleAddNode_returns; eassumption
    | |- exists r s', handleLoadSprite _ _ = _ =>
        eapply handleLoadSprite_returns; eassumption
    | |- exists r s', handleExportMeshLibrary _ _ = _ =>
        eapply handleExportMeshLibrary_returns; eassumption
    | |- exists r s', handleSaveScene _ _ = _ =>
        eapply handleSaveScene_returns; eassumption
    | |- exists r s', handleGetUid _ _ = _ =>
        eapply handleGetUid_returns; eassumption
    | |- exists r s', handleUpdateProjectUids _ _ = _ =>
        eapply handleUpdateProjectUids_returns; eassumption
    | |- exists r s', handleListPortalLevels _ _ = _ =>
        eapply handleListPortalLevels_returns; eassumption
    | |- exists r s', handleExportPortalLevel _ _ = _ =>
        eapply handleExportPortalLevel_returns; try eassumption
    | |- exists r s', handleCreatePortalProject _ _ = _ =>
        eapply handleCreatePortalProject_returns; try eassumption
    end;
    apply Hmkdir;
    match goal with
    | Hname : String.eqb name _ = true |- _ => apply String.eqb_eq in Hname; subst name
    end; simpl; auto.
Qed.

(** X18. A tool whose schema requires a field answers with an error, and
    does nothing else, when the field is missing, [null], empty, [false]
    or zero. *)
Theorem required_fields_are_enforced tool field args props s :
  In (tool, field) requiredFields ->
  normalizeArgs args = Some (JObj props) ->
  jsTruthy (Obj.get field props) = false ->
  exists r, callTool tool args s = (Ok r, s) /\ isError r = true.
Proof.
  intros Hin Hargs Hmissing.
  unfold requiredFields in Hin. cbn [In] in Hin.
  repeat (destruct Hin as [Heq | Hin];
          [ inversion Heq; subst tool field; clear Heq;
            unfold callTool; cbn [String.eqb Ascii.eqb Bool.eqb];
            unfold handleListProjects, handleCreateScene, handleAddNode, handleLoadSprite,
              handleExportMeshLibrary, handleSaveScene, handleGetUid, handleExportPortalLevel;
            rewrite Hargs;
            unfold mbind, M_bind, bind, getArg, mret, M_ret, ret, fail;
            rewrite Hmissing; cbn [negb orb];
            repeat match goal with
                   | |- context [jsTruthy ?v] => destruct (jsTruthy v)
                   end;
            cbn [negb orb]; eexists; split; reflexivity | ]).
  destruct Hin.
Qed.

(** X19. A request without an arguments object makes the handlers that
    read a field throw a [TypeError], also for the tools whose schema
    requires no field: for four of them nothing has happened yet, the two
    Portal tools have run the path detection. *)
Theorem omitted_arguments_throw tool field s :
  In (tool, field) optionalArguments ->
  callTool tool None s
  = (Throw ("Cannot read properties of undefined (reading '" +:+ field +:+ "')"), s) /\
  callTool "list_portal_levels" None s
  = (Throw "Cannot read properties of undefined (reading 'fbExportDataPath')",
     detectPortalPaths s) /\
  callTool "create_portal_project" None s
  = (Throw "Cannot read properties of undefined (reading 'fbExportDataPath')",
     detectPortalPaths s).
Proof.
  intros Hin. split; [| split; reflexivity].
  unfold optionalArguments in Hin. cbn [In] in Hin.
  repeat (destruct Hin as [Heq | Hin]; [inversion Heq; subst tool field; reflexivity |]).
  destruct Hin.
Qed.
End Responses.

(** ** Godot versions *)

Section Versions.

Context `{H : Host}.

Lemma digitsPrefix_digits d rest acc seen :
  endsNumber rest = true ->
  d <> Decimal.Nil \/ seen = true ->
  digitsPrefix (NilEmpty.string_of_uint d +:+ rest) acc seen
  = Some (decimalValue d acc, rest).
Proof.
  intros Hrest. revert acc seen.
  induction d as [| d IH | d IH | d IH | d IH | d IH | d IH | d IH | d IH | d IH | d IH];
    intros acc seen Hseen;
    try (cbn; rewrite IH by (right; reflexivity); reflexivity).
  destruct Hseen as [Hnil | ->]; [contradiction |].
  cbn. destruct rest as [| c rest]; [reflexivity |].
  cbn in Hrest. cbn [digitsPrefix]. apply negb_true_iff in Hrest. rewrite Hrest. reflexivity.
Qed.

Lemma decimalValue_acc d p : N.pos (Pos.of_uint_acc d p) = decimalValue d (N.pos p).
Proof.
  revert p.
  induction d as [| d IH | d IH | d IH | d IH | d IH | d IH | d IH | d IH | d IH | d IH];
    intros p; cbn [Pos.of_uint_acc decimalValue]; [reflexivity | ..];
    rewrite IH; f_equal; lia.
Qed.

Lemma decimalValue_of_uint d : N.of_uint d = decimalValue d 0.
Proof.
  unfold N.of_uint.
  induction d as [| d IH | d IH | d IH | d IH | d IH | d IH | d IH | d IH | d IH | d IH];
    cbn [Pos.of_uint decimalValue]; [reflexivity | exact IH | ..];
    rewrite decimalValue_acc; f_equal.
Qed.

Lemma digitsPrefix_ofN n rest :
  endsNumber rest = true ->
  digitsPrefix (Str.ofN n +:+ rest) 0 false = Some (n, rest).
Proof.
  intros Hrest. unfold Str.ofN.
  assert (Hnonnil : N.to_uint n <> Decimal.Nil).
  { destruct n as [| p]; [discriminate | apply DecimalPos.Unsigned.to_uint_nonnil]. }
  assert (Htext : NilZero.string_of_uint (N.to_uint n) = NilEmpty.string_of_uint (N.to_uint n)).
  { unfold NilZero.string_of_uint. destruct (N.to_uint n); [contradiction | reflexivity ..]. }
  rewrite Htext, digitsPrefix_digits by auto.
  rewrite <- decimalValue_of_uint, DecimalN.Unsigned.of_to. reflexivity.
Qed.

(** X20. For a version text that starts with two decimal numbers with a
    dot between them, [isGodot44OrLater] says whether the first number is
    above 4, or is 4 with the second at least 4, whatever follows; a text
    that does not start with a digit is not 4.4 or later. *)
Theorem version_check_reads_major_and_minor major minor rest :
  endsNumber rest = true ->
  isGodot44OrLater (Str.ofN major +:+ "." +:+ Str.ofN minor +:+ rest)
  = (4 <? major)%N || ((major =? 4)%N && (4 <=? minor)%N) /\
  forall c text, isDigit c = false -> isGodot44OrLater (String c text) = false.
Proof.
  intros Hrest. split.
  - unfold isGodot44OrLater.
    rewrite digitsPrefix_ofN by reflexivity.
    cbn [String.append]. rewrite digitsPrefix_ofN by exact Hrest. reflexivity.
  - intros c text Hc. unfold isGodot44OrLater. cbn [digitsPrefix]. rewrite Hc. reflexivity.
Qed.

(** X21. [update_project_uids] on a Godot that reports a version below 4.4
    answers with the error that names the version; it has looked at the
    project file and asked for the version, and has run no operation. *)
Theorem uid_update_needs_godot_44 args props p g s stdout stderr o' :
  normalizeArgs args = Some (JObj props) ->
  Obj.get "projectPath" props = Some (JStr p) ->
  Str.includes ".." p = false ->
  p <> "" -> normalize p <> "" ->
  godotPath s = Some g -> g <> "" ->
  existsSync (os s) (join [normalize p; "project.godot"]) = true ->
  execAsync (os s) (versionCommand (Some g)) = (ExecOk stdout stderr, o') ->
  isGodot44OrLater (Str.trim stdout) = false ->
  exists r s',
    handleUpdateProjectUids args s = (Ok r, s') /\
    isError r = true /\
    head (content r)
    = Some ("UIDs are only supported in Godot 4.4 or later. Current version: "
            +:+ Str.trim stdout) /\
    trace s' = trace s ++ [ EvExists (join [normalize p; "project.godot"]);
                            EvExec (versionCommand (Some g)) ].
Proof.
  intros Hargs Hp Hsafe Hne Hnorm Hgodot Hg Hproject Hversion Hold.
  apply String.eqb_neq in Hne. apply String.eqb_neq in Hnorm. apply String.eqb_neq in Hg.
  unfold handleUpdateProjectUids. rewrite Hargs.
  unfold mbind, M_bind, bind, getArg, mret, M_ret, ret. cbn [Obj.get]. rewrite Hp.
  unfold presentAndInvalid, validatePath, jsTruthy. rewrite Hne. cbn [negb].
  unfold mbind, M_bind, bind, mret, M_ret, ret. rewrite Hsafe. cbn [negb].
  unfold resolveProjectPath, jsTruthy, pathString. rewrite Hne. cbn [negb].
  unfold mbind, M_bind, bind, mret, M_ret, ret. cbn [truthy opt]. rewrite Hnorm. cbn [negb].
  unfold tryCatch, ensureGodotPath, existsM, requireUidSupport, execStdout, exec,
    mbind, M_bind, bind, gets, mret, M_ret, ret.
  rewrite Hgodot. cbn [truthy]. rewrite Hg. cbn [negb os emit set_os].
  rewrite Hproject. cbn [negb godotPath emit os]. rewrite ?Hgodot. rewrite Hversion.
  cbn [fst snd].
  rewrite Hold. cbn [negb].
  eexists. eexists. split; [reflexivity |]. cbn.
  split; [reflexivity |]. split; [reflexivity |]. rewrite <- app_assoc. reflexivity.
Qed.
End Versions.

(** ** Directory scans *)

Section ScanFacts.

Context `{H : Host}.

Lemma Node_nested_ind (P : Node -> Prop) :
  P RegularFile -> P Special ->
  (forall projectFile, P (Directory projectFile None)) ->
  (forall projectFile entries,
     Forall (fun entry => P (snd entry)) entries ->
     P (Directory projectFile (Some entries))) ->
  forall node, P node.
Proof.
  intros Hfile Hspecial Hclosed Hopen.
  refine (fix IH (node : Node) : P node :=
            match node with
            | RegularFile => Hfile
            | Special => Hspecial
            | Directory projectFile None => Hclosed projectFile
            | Directory projectFile (Some entries) =>
                Hopen projectFile entries
                  ((fix all (l : list (string * Node))
                      : Forall (fun entry => P (snd entry)) l :=
                      match l with
                      | [] => @List.Forall_nil _ _
                      | entry :: l0 => @List.Forall_cons _ _ entry l0 (IH (snd entry)) (all l0)
                      end) entries)
            end).
Qed.

Lemma projectsBelow_visible directory node project :
  In project (projectsBelow directory node) -> Str.startsWith "." (snd project) = false.
Proof.
  revert directory.
  induction node as [| | projectFile | projectFile entries IH] using Node_nested_ind;
    intros directory; cbn [projectsBelow]; try (intros []).
  rewrite in_flat_map. intros ([name child] & Hentry & Hfound). cbn [fst snd] in Hfound.
  rewrite List.Forall_forall in IH. specialize (IH _ Hentry). cbn [snd] in IH.
  destruct child as [| | childProject childEntries]; try destruct Hfound.
  destruct (Str.startsWith "." name) eqn:Hhidden; [destruct Hfound |].
  destruct childProject.
  - destruct Hfound as [<- | []]. exact Hhidden.
  - eapply IH, Hfound.
Qed.

(** X22. Every project that the flat listing of [findGodotProjects]
    reports is reported by the recursive listing too, unless its name
    starts with a dot: the flat listing does not skip hidden directories.
    Below the directory itself the recursive listing reports no name that
    starts with a dot. When the directory cannot be read, both listings
    hold the directory itself, if it is a project, and nothing else. *)
Theorem recursive_listing_extends_flat_listing directory node :
  (forall project,
     In project (findGodotProjects directory node false) ->
     In project (findGodotProjects directory node true) \/
     Str.startsWith "." (snd project) = true) /\
  (forall project,
     In project (findGodotProjects directory node true) ->
     project = (directory, basename directory) \/ Str.startsWith "." (snd project) = false) /\
  (forall projectFile recursive,
     findGodotProjects directory (Directory projectFile None) recursive
     = if projectFile then [(directory, basename directory)] else []).
Proof.
  split; [| split].
  - intros project Hflat.
    destruct node as [| | projectFile entries]; try destruct Hflat.
    cbn [findGodotProjects] in *. rewrite !in_app_iff in *.
    destruct Hflat as [Hroot | Hinside]; [left; left; exact Hroot |].
    destruct entries as [entries |]; [| destruct Hinside].
    unfold projectsInside in Hinside. rewrite in_flat_map in Hinside.
    destruct Hinside as ([name child] & Hentry & Hfound). cbn [fst snd] in Hfound.
    destruct child as [| | childProject childEntries]; try (destruct Hfound; fail).
    destruct childProject; [| destruct Hfound].
    destruct Hfound as [<- | []]. cbn [snd].
    destruct (Str.startsWith "." name) eqn:Hhidden; [right; reflexivity |].
    left. right. cbn [projectsBelow]. rewrite in_flat_map.
    exists (name, Directory true childEntries). split; [exact Hentry |].
    cbn [fst snd]. rewrite Hhidden. left. reflexivity.
  - intros project Hfound.
    destruct node as [| | projectFile entries]; try destruct Hfound.
    cbn [findGodotProjects] in Hfound. rewrite in_app_iff in Hfound.
    destruct Hfound as [Hroot | Hbelow].
    + destruct projectFile; [| destruct Hroot]. destruct Hroot as [<- | []]. left. reflexivity.
    + right. eapply projectsBelow_visible, Hbelow.
  - intros projectFile recursive. cbn. destruct recursive; rewrite app_nil_r; reflexivity.
Qed.

Lemma countFile_total name c : total (countFile name c) = S (total c).
Proof.
  unfold countFile, total.
  repeat match goal with |- context [if ?b then _ else _] => destruct b end; cbn; lia.
Qed.

Lemma scanDirectory_counts node c :
  match scanDirectory node c with
  | Some c' => readable node = true /\ total c' = total c + visibleFiles node
  | None => readable node = false
  end.
Proof.
  revert c.
  induction node as [| | projectFile | projectFile entries IH] using Node_nested_ind;
    intros c; try reflexivity.
  cbn [scanDirectory readable visibleFiles].
  match goal with
  | |- context [fold_left ?f entries (Some c)] => set (step := f)
  end.
  match goal with
  | |- context [forallb ?g entries] => set (ok := g)
  end.
  match goal with
  | |- context [map ?h entries] => set (files := h)
  end.
  assert (Hfold : forall acc,
            match fold_left step entries acc with
            | Some c' =>
                exists c0, acc = Some c0 /\ forallb ok entries = true /\
                           total c' = total c0 + list_sum (map files entries)
            | None => acc = None \/ forallb ok entries = false
            end).
  { induction IH as [| [name child] rest Hchild _ IHrest]; intros acc.
    - cbn. destruct acc as [c0 |]; [| left; reflexivity].
      exists c0. repeat split. lia.
    - cbn [fold_left map forallb].
      change (list_sum (files (name, child) :: map files rest))
        with (files (name, child) + list_sum (map files rest)).
      specialize (IHrest (step acc (name, child))).
      destruct (fold_left step rest (step acc (name, child))) as [c' |].
      + destruct IHrest as (c1 & Hstep & Hrest & Htotal).
        destruct acc as [c0 |]; [| discriminate].
        exists c0. split; [reflexivity |].
        unfold step, ok, files in *. cbn [fst snd] in *.
        destruct (Str.startsWith "." name).
        * injection Hstep as <-. cbn [orb andb]. split; [exact Hrest | lia].
        * destruct child as [| | childProject childEntries].
          -- injection Hstep as <-. cbn [orb andb]. rewrite countFile_total in Htotal.
             split; [exact Hrest | lia].
          -- injection Hstep as <-. cbn [orb andb]. split; [exact Hrest | lia].
          -- specialize (Hchild c0). cbn [snd] in Hchild. rewrite Hstep in Hchild.
             destruct Hchild as [Hreadable Hcount].
             cbn [orb]. rewrite Hreadable. cbn [andb]. split; [exact Hrest | lia].
      + destruct acc as [c0 |]; [| left; reflexivity]. right.
        destruct IHrest as [Hstep | Hrest]; [| rewrite Hrest; apply andb_false_r].
        unfold step, ok in *. cbn [fst snd] in *.
        destruct (Str.startsWith "." name); [discriminate |].
        destruct child as [| | childProject childEntries]; try discriminate.
        specialize (Hchild c0). cbn [snd] in Hchild. rewrite Hstep in Hchild.
        cbn [orb]. rewrite Hchild. reflexivity. }
  specialize (Hfold (Some c)).
  destruct (fold_left step entries (Some c)) as [c' |].
  - destruct Hfold as (c0 & [= <-] & Hok & Htotal). split; assumption.
  - destruct Hfold as [Hacc | Hok]; [discriminate | exact Hok].
Qed.

(** X23. When every directory that the scan reaches can be read, the
    four counters of [getProjectStructureAsync] add up to the number of
    regular files whose name, and the names of the directories above them,
    do not start with a dot: each is counted once. When one of these
    directories cannot be read, the result is the error object with four
    zeros, whatever was counted before. *)
Theorem structure_counts_every_visible_file node :
  (readable node = true ->
   exists c,
     getProjectStructureAsync node = JObj (countsJson c) /\
     scenes c + scripts c + assets c + other c = visibleFiles node) /\
  (readable node = false ->
   getProjectStructureAsync node
   = JObj (("error", JStr "Failed to get project structure")
           :: countsJson (mkCounts 0 0 0 0))).
Proof.
  unfold getProjectStructureAsync.
  pose proof (scanDirectory_counts node (mkCounts 0 0 0 0)) as Hscan.
  destruct (scanDirectory node (mkCounts 0 0 0 0)) as [c |].
  - destruct Hscan as [Hreadable Htotal]. split; [| congruence].
    intros _. exists c. split; [reflexivity | exact Htotal].
  - split; [congruence | reflexivity].
Qed.

End ScanFacts.

(** ** The remembered project and the other tools *)

Section OtherTools.

Context `{H : Host}.

Lemma callTool_keeps_project p name args :
  p <> "" -> normalize p = p ->
  name <> "create_portal_project" ->
  keeps (projectIs p) (callTool name args).
Proof.
  intros Hne Hnormal Hname.
  assert (Hdetect : forall s, projectIs p s -> projectIs p (detectPortalPaths s))
    by (intros s; apply detect_keeps_project; assumption).
  assert (Hvalid : forall q, keeps (projectIs p) (isValidGodotPath q))
    by (intros q; apply (isValidGodotPath_keeps_fields portalProjectPath); reflexivity).
  unfold callTool.
  repeat match goal with
         | |- keeps _ (if String.eqb name ?tool then _ else _) =>
             destruct (String.eqb name tool) eqn:?
         end;
    lazymatch goal with
    | |- keeps _ (throw _) => apply keeps_throw
    | |- keeps _ (handleLaunchEditor _) => apply handleLaunchEditor_keeps
    | |- keeps _ (handleRunProject _) => apply handleRunProject_keeps
    | |- keeps _ handleGetDebugOutput => apply handleGetDebugOutput_keeps
    | |- keeps _ handleStopProject => apply handleStopProject_keeps
    | |- keeps _ handleGetGodotVersion => apply handleGetGodotVersion_keeps
    | |- keeps _ (handleListProjects _) => apply handleListProjects_keeps
    | |- keeps _ (handleGetProjectInfo _) => apply handleGetProjectInfo_keeps
    | |- keeps _ (handleCreateScene _) => apply handleCreateScene_keeps
    | |- keeps _ (handleAddNode _) => apply handleAddNode_keeps
    | |- keeps _ (handleLoadSprite _) => apply handleLoadSprite_keeps
    | |- keeps _ (handleExportMeshLibrary _) => apply handleExportMeshLibrary_keeps
    | |- keeps _ (handleSaveScene _) => apply handleSaveScene_keeps
    | |- keeps _ (handleGetUid _) => apply handleGetUid_keeps
    | |- keeps _ (handleUpdateProjectUids _) => apply handleUpdateProjectUids_keeps
    | |- keeps _ handleGetPortalSdkInfo => apply handleGetPortalSdkInfo_keeps
    | |- keeps _ (handleListPortalLevels _) => apply handleListPortalLevels_keeps
    | |- keeps _ (handleExportPortalLevel _) => apply handleExportPortalLevel_keeps
    | |- keeps _ (handleCreatePortalProject _) =>
        exfalso; apply Hname, String.eqb_eq; assumption
    end;
    try assumption; intros; assumption.
Qed.

(** X24. A remembered Portal project path (not empty, in normal form)
    stays as it is through everything but a call of
    [create_portal_project]: the other tools, also with a [projectPath]
    argument of their own, validation, detection, start-up, events of a
    child and changes of the machine; a request without [projectPath]
    still resolves to it. *)
Theorem other_tools_keep_the_project p s activities :
  p <> "" -> normalize p = p ->
  portalProjectPath s = Some p ->
  Forall notCreateProject activities ->
  portalProjectPath (afterAll s activities) = Some p /\
  fst (resolveProjectPath None (afterAll s activities)) = Ok (Some p).
Proof.
  intros Hne Hnormal Hs Hothers.
  assert (Hdetect : forall st, projectIs p st -> projectIs p (detectPortalPaths st))
    by (intros st; apply detect_keeps_project; assumption).
  assert (Hvalid : forall q, keeps (projectIs p) (isValidGodotPath q))
    by (intros q; apply (isValidGodotPath_keeps_fields portalProjectPath); reflexivity).
  assert (Hkept : projectIs p (afterAll s activities)).
  { unfold afterAll. revert s Hs.
    induction Hothers as [| a rest Ha _ IH]; intros s Hs; cbn [fold_left]; [exact Hs |].
    apply IH. destruct a as [name args | q | | q | | e | o]; cbn [after].
    - apply callTool_keeps_project; assumption.
    - apply Hvalid, Hs.
    - apply detectGodotPath_keeps; try assumption; intros; assumption.
    - apply setGodotPath_keeps; try assumption; intros; assumption.
    - apply run_keeps; try assumption; intros; assumption.
    - apply deliver_keeps; try assumption; intros; assumption.
    - exact Hs. }
  split; [exact Hkept |].
  rewrite resolveProjectPath_absent. cbn [fst].
  pose proof (Hdetect _ Hkept) as Hafter. unfold projectIs in Hafter.
  rewrite Hafter, (truthy_Some _ Hne). reflexivity.
Qed.
End OtherTools.

(** ** The constructor *)

Section Constructor.

Context `{H : Host}.

Lemma framed_refl s : framed s s.
Proof.
  repeat split; [| apply debugOnly_refl].
  exists []. rewrite app_nil_r. split; [reflexivity | apply onlyReads_nil].
Qed.

Lemma framed_trans s1 s2 s3 : framed s1 s2 -> framed s2 s3 -> framed s1 s3.
Proof.
  intros (Hg1 & Ho1 & Ha1 & Hc1 & (r1 & Ht1 & Hr1) & Hd1)
         (Hg2 & Ho2 & Ha2 & Hc2 & (r2 & Ht2 & Hr2) & Hd2).
  repeat split; try congruence; [| eapply debugOnly_trans; eassumption].
  exists (r1 ++ r2). rewrite Ht2, Ht1, <- app_assoc.
  split; [reflexivity | apply onlyReads_app; assumption].
Qed.

Lemma framed_same s s' :
  godotPath s' = godotPath s -> os s' = os s ->
  activeProcess s' = activeProcess s -> children s' = children s ->
  trace s' = trace s -> console s' = console s -> framed s s'.
Proof.
  intros Hg Ho Ha Hc Ht Hl. repeat split; try assumption.
  - exists []. rewrite app_nil_r. split; [exact Ht | apply onlyReads_nil].
  - exists []. rewrite app_nil_r. auto.
Qed.

Lemma framed_logged message s : framed s (print (debugLines message) s).
Proof.
  repeat split.
  - exists []. rewrite app_nil_r. split; [reflexivity | apply onlyReads_nil].
  - eapply debugOnly_logged. reflexivity.
Qed.

Lemma framed_detect s : framed s (detectPortalPaths s).
Proof.
  destruct (detectPortalPaths_reads s) as (reads & Htrace & Hreads).
  repeat split; [exists reads; auto |].
  unfold detectPortalPaths. cbv zeta. cbn [console print emit set_fbExportDataPath
    set_portalProjectPath set_portalSdkPath].
  eexists. split; [reflexivity |]. split.
  - rewrite !forallb_app.
    repeat match goal with
           | |- context [match ?x with Some _ => _ | None => _ end] => destruct x
           | |- context [if ?b then _ else _] => destruct b
           end; rewrite ?debugLines_debug; reflexivity.
  - intros Hoff.
    repeat match goal with
           | |- context [match ?x with Some _ => _ | None => _ end] => destruct x
           | |- context [if ?b then _ else _] => destruct b
           end; rewrite ?debugLines_off by exact Hoff; reflexivity.
Qed.

Lemma quietM_ret : quietM (mret tt).
Proof. intros s. exists s. split; [reflexivity | apply framed_refl]. Qed.

Lemma quietM_modify f : (forall s, framed s (f s)) -> quietM (modify f).
Proof. intros Hf s. exists (f s). split; [reflexivity | apply Hf]. Qed.

Lemma quietM_logDebug message : quietM (logDebug message).
Proof. apply quietM_modify. intros s. apply framed_logged. Qed.

Lemma quietM_bind (m : M unit) (k : unit -> M unit) :
  quietM m -> quietM (k tt) -> quietM (m ≫= k).
Proof.
  intros Hm Hk s. destruct (Hm s) as (s1 & H1 & F1). destruct (Hk s1) as (s2 & H2 & F2).
  exists s2. unfold mbind, M_bind, bind. rewrite H1. split; [exact H2 |].
  eapply framed_trans; eassumption.
Qed.

Lemma quietM_if (b : bool) (m1 m2 : M unit) : quietM m1 -> quietM m2 -> quietM (if b then m1 else m2).
Proof. destruct b; auto. Qed.

Lemma quietM_run (m : M unit) (k : unit -> M unit) s :
  quietM m -> exists s1, framed s s1 /\ (m ≫= k) s = k tt s1.
Proof.
  intros Hm. destruct (Hm s) as (s1 & Hrun & Hframed).
  exists s1. split; [exact Hframed |]. unfold mbind, M_bind, bind. rewrite Hrun. reflexivity.
Qed.

Lemma quietM_set_path (given : option string) (set : option string -> St -> St) message :
  (forall v s, framed s (set v s)) ->
  quietM (if truthy given then
            modify (set (Some (normalize (opt given)))) ;;
            logDebug (message +:+ normalize (opt given))
          else mret tt).
Proof.
  intros Hset. apply quietM_if; [| apply quietM_ret].
  apply quietM_bind; [apply quietM_modify; intros s; apply Hset | apply quietM_logDebug].
Qed.

Lemma without_debug_lines lines :
  forallb isDebugLine lines = true ->
  List.filter (fun line => negb (Str.startsWith "[DEBUG] " line)) lines = [].
Proof.
  induction lines as [| line rest IH]; [reflexivity |]. cbn [forallb List.filter].
  intros Hall. apply andb_prop in Hall as [Hline Hrest].
  unfold isDebugLine in Hline. rewrite Hline. cbn [negb]. apply IH, Hrest.
Qed.

(** The block for [config.godotPath]. *)
Lemma customGodotPath_run given s :
  exists s',
    customGodotPath given s = (Ok tt, s') /\
    os s' = os s /\ activeProcess s' = activeProcess s /\ children s' = children s /\
    (exists reads, trace s' = trace s ++ reads /\ onlyReads reads) /\
    (truthy given = false -> s' = s) /\
    (truthy given = true ->
     let valid := String.eqb (normalize (opt given)) "godot"
                  || existsSync (os s) (normalize (opt given)) in
     godotPath s' = (if valid then Some (normalize (opt given)) else None) /\
     exists lines,
       forallb isDebugLine lines = true /\ (DEBUG_MODE = false -> lines = []) /\
       console s'
       = console s ++ lines ++
         (if valid then []
          else ["[SERVER] Invalid custom Godot path provided: " +:+ normalize (opt given)])).
Proof.
  unfold customGodotPath. destruct (truthy given).
  - set (p := normalize (opt given)).
    unfold isValidGodotPathSync, existsM, logDebug, mbind, M_bind, bind, modify, mret, M_ret, ret.
    destruct (String.eqb p "godot") eqn:Hgodot; cbn [negb orb].
    + eexists. split; [reflexivity |]. cbn [os activeProcess children trace console godotPath
                                            print set_godotPath].
      repeat split; try discriminate.
      * exists []. rewrite app_nil_r. split; [reflexivity | apply onlyReads_nil].
      * exists (debugLines ("Custom Godot path provided: " +:+ p)
                ++ debugLines ("Quick-validating Godot path: " +:+ p)).
        split; [rewrite forallb_app, !debugLines_debug; reflexivity |].
        split; [intros Hoff; rewrite !debugLines_off by exact Hoff; reflexivity |].
        rewrite app_nil_r, <- app_assoc. reflexivity.
    + cbn [os emit print set_godotPath].
      destruct (existsSync (os s) p) eqn:Hexists; cbn [negb];
        (eexists; split; [reflexivity |];
         cbn [os activeProcess children trace console godotPath print set_godotPath emit];
         repeat split; try discriminate;
         [ exists [EvExists p]; split; [reflexivity | repeat constructor]
         | exists (debugLines ("Custom Godot path provided: " +:+ p)
                   ++ debugLines ("Quick-validating Godot path: " +:+ p));
           split; [rewrite forallb_app, !debugLines_debug; reflexivity |];
           split; [intros Hoff; rewrite !debugLines_off by exact Hoff; reflexivity |];
           rewrite <- ?app_assoc, ?app_nil_r; reflexivity ]).
  - exists s. split; [reflexivity |]. repeat split; try discriminate.
    exists []. rewrite app_nil_r. split; [reflexivity | apply onlyReads_nil].
Qed.

(** X25. [new GodotServer(config)] only looks at the file system: it
    starts no process and has no child. The Godot path it keeps is the
    configured one, normalised, and is the word [godot] or a file that
    exists; a configured path that does not exist is dropped, and the
    line that says so is the only line on the console that is not a debug
    line. There is no debug line at all unless [DEBUG=true] or the
    configuration sets [debugMode]; with [debugMode] set, the last line is
    the path of the operations script. *)
Theorem constructor_only_reads config o :
  let s := construct config o in
  onlyReads (trace s) /\
  os s = o /\
  activeProcess s = None /\
  children s = [] /\
  (forall p, godotPath s = Some p ->
     exists given,
       cfg config cfg_godotPath = Some given /\ given <> "" /\ p = normalize given /\
       (p = "godot" \/ existsSync o p = true)) /\
  (forall given,
     cfg config cfg_godotPath = Some given -> given <> "" ->
     normalize given <> "godot" -> existsSync o (normalize given) = false ->
     godotPath s = None /\
     List.filter (fun line => negb (Str.startsWith "[DEBUG] " line)) (console s)
     = ["[SERVER] Invalid custom Godot path provided: " +:+ normalize given]) /\
  (getenv "DEBUG" <> Some "true" ->
   (forall c, config = Some c -> cfg_debugMode c <> Some true) ->
   List.filter (Str.startsWith "[DEBUG] ") (console s) = []) /\
  (forall c, config = Some c -> cfg_debugMode c = Some true ->
   last (console s)
   = Some ("[DEBUG] Operations script path: "
           +:+ join [scriptDir; "scripts"; "godot_operations.gd"])).
Proof.
  intros s.
  set (s0 := declaredFields o).
  set (debugMode := match config with
                    | Some c => default DEBUG_MODE (cfg_debugMode c)
                    | None => DEBUG_MODE
                    end).
  assert (Hsteps : exists s1 s2 s3,
            framed s0 s1 /\
            customGodotPath (cfg config cfg_godotPath) s1 = (Ok tt, s2) /\
            framed s2 s3 /\
            s = if debugMode
                then print ["[DEBUG] Operations script path: " +:+ operationsScriptPath] s3
                else s3).
  { unfold s, construct, constructor. fold debugMode. fold s0.
    assert (Hset : forall (set : option string -> St -> St),
              (forall v st, godotPath (set v st) = godotPath st /\ os (set v st) = os st /\
                            activeProcess (set v st) = activeProcess st /\
                            children (set v st) = children st /\
                            trace (set v st) = trace st /\ console (set v st) = console st) ->
              forall v st, framed st (set v st)).
    { intros set Hfields v st.
      destruct (Hfields v st) as (? & ? & ? & ? & ? & ?). apply framed_same; assumption. }
    lazymatch goal with
    | |- context [mbind ?k ?m s0] =>
        destruct (quietM_run m k s0) as (sa & Hsa & Hrun);
          [apply quietM_modify; intros st; apply framed_same; reflexivity |];
          rewrite Hrun; clear Hrun
    end.
    destruct config as [c |]; cbn [cfg].
    - unfold mbind at 1, M_bind at 1, bind at 1.
      lazymatch goal with
      | |- context [mbind ?k ?m sa] =>
          destruct (quietM_run m k sa) as (s1 & Hs1 & Hrun);
            [destruct (cfg_strictPathValidation c);
               [apply quietM_modify; intros st; apply framed_same; reflexivity
               | apply quietM_ret] |];
            rewrite Hrun; clear Hrun
      end.
      destruct (customGodotPath_run (cfg_godotPath c) s1) as (s2 & Hgodot & _).
      unfold mbind at 1, M_bind at 1, bind at 1. rewrite Hgodot.
      lazymatch goal with
      | |- context [mbind ?k ?m s2] => assert (Hrest : quietM (mbind k m))
      end.
      { apply quietM_bind;
          [apply quietM_set_path; apply Hset; intros; repeat split |].
        apply quietM_bind;
          [apply quietM_set_path; apply Hset; intros; repeat split |].
        apply quietM_bind;
          [apply quietM_set_path; apply Hset; intros; repeat split |].
        apply quietM_if; [| apply quietM_ret].
        apply quietM_bind; [| apply quietM_logDebug].
        apply quietM_modify. intros st. apply framed_same; reflexivity. }
      destruct (Hrest s2) as (s3 & Hrun & Hs3). rewrite Hrun. clear Hrun.
      exists s1, s2, (detectPortalPaths s3).
      split; [eapply framed_trans; eassumption |]. split; [exact Hgodot |].
      split; [eapply framed_trans; [exact Hs3 | apply framed_detect] |].
      unfold mbind, M_bind, bind, modify, mret, M_ret, ret.
      destruct debugMode; reflexivity.
    - exists sa, sa, (detectPortalPaths sa).
      split; [exact Hsa |]. split; [reflexivity |]. split; [apply framed_detect |].
      unfold mbind, M_bind, bind, modify, mret, M_ret, ret.
      destruct debugMode; reflexivity. }
  destruct Hsteps as (s1 & s2 & s3 & Hs1 & Hgodot & Hs3 & Hs).
  destruct Hs1 as (Hg1 & Ho1 & Ha1 & Hc1 & (r1 & Ht1 & Hr1) & (l1 & Hl1 & Hd1 & Hoff1)).
  destruct Hs3 as (Hg3 & Ho3 & Ha3 & Hc3 & (r3 & Ht3 & Hr3) & (l3 & Hl3 & Hd3 & Hoff3)).
  destruct (customGodotPath_run (cfg config cfg_godotPath) s1)
    as (s2' & Hgodot' & Ho2 & Ha2 & Hc2 & (r2 & Ht2 & Hr2) & Hnone & Hsome).
  rewrite Hgodot in Hgodot'. injection Hgodot' as <-.
  cbn in Hg1, Ho1, Ha1, Hc1, Ht1, Hl1.
  assert (Hfields : os s = os s3 /\ activeProcess s = activeProcess s3 /\
                    children s = children s3 /\ trace s = trace s3 /\
                    godotPath s = godotPath s3).
  { rewrite Hs. destruct debugMode; repeat split. }
  destruct Hfields as (Hos & Hactive & Hchildren & Htrace & Hpath).
  split.
  { rewrite Htrace, Ht3, Ht2, Ht1. repeat apply onlyReads_app; assumption. }
  split; [congruence |]. split; [congruence |]. split; [congruence |].
  assert (Hgiven : forall given, cfg config cfg_godotPath = Some given -> given <> "" ->
                                 truthy (cfg config cfg_godotPath) = true).
  { intros given -> Hne. apply truthy_Some, Hne. }
  split; [| split; [| split]].
  - intros p Hp. rewrite Hpath, Hg3 in Hp.
    destruct (truthy (cfg config cfg_godotPath)) eqn:Htruthy.
    + destruct (Hsome eq_refl) as [Hvalid _]. cbv zeta in Hvalid. rewrite Hvalid in Hp.
      destruct (cfg config cfg_godotPath) as [given |] eqn:Hcfg; [| discriminate].
      cbn [opt] in *.
      destruct (String.eqb (normalize given) "godot" || existsSync (os s1) (normalize given))
        eqn:Hok; [| discriminate].
      injection Hp as <-. exists given. split; [reflexivity |].
      split; [intros ->; discriminate |]. split; [reflexivity |].
      apply orb_prop in Hok as [Hok | Hok]; [left; apply String.eqb_eq, Hok |].
      right. rewrite <- Ho1. exact Hok.
    + rewrite (Hnone eq_refl), Hg1 in Hp. discriminate.
  - intros given Hcfg Hne Hgodot_name Hmissing.
    destruct (Hsome (Hgiven given Hcfg Hne)) as [Hvalid (lines & Hd2 & _ & Hl2)].
    cbv zeta in Hvalid, Hl2. rewrite Hcfg in Hvalid, Hl2. cbn [opt] in Hvalid, Hl2.
    apply String.eqb_neq in Hgodot_name.
    rewrite Ho1, Hgodot_name, Hmissing in Hvalid, Hl2. cbn [orb] in Hvalid, Hl2.
    split; [congruence |].
    assert (Hconsole : console s
                       = l1 ++ lines
                         ++ ["[SERVER] Invalid custom Godot path provided: " +:+ normalize given]
                         ++ l3
                         ++ (if debugMode
                             then ["[DEBUG] Operations script path: " +:+ operationsScriptPath]
                             else [])).
    { rewrite Hs. destruct debugMode; cbn [console print];
        rewrite Hl3, Hl2, Hl1, <- ?app_assoc, ?app_nil_r; reflexivity. }
    rewrite Hconsole, !List.filter_app.
    rewrite (without_debug_lines l1 Hd1), (without_debug_lines lines Hd2),
      (without_debug_lines l3 Hd3).
    assert (Hops : List.filter (fun line => negb (Str.startsWith "[DEBUG] " line))
                     (if debugMode
                      then ["[DEBUG] Operations script path: " +:+ operationsScriptPath]
                      else []) = []).
    { destruct debugMode; reflexivity. }
    rewrite Hops. cbn [List.filter app].
    assert (Hkeep : Str.startsWith "[DEBUG] "
                      ("[SERVER] Invalid custom Godot path provided: " +:+ normalize given)
                    = false) by reflexivity.
    rewrite Hkeep. reflexivity.
  - intros Hunset Hflag.
    assert (Hoff : DEBUG_MODE = false) by (apply DEBUG_MODE_unset, Hunset).
    assert (Hmode : debugMode = false).
    { unfold debugMode. destruct config as [c |]; [| exact Hoff].
      specialize (Hflag c eq_refl).
      destruct (cfg_debugMode c) as [[] |]; cbn; [contradiction | reflexivity | exact Hoff]. }
    assert (Hl2 : exists lines, console s2 = console s1 ++ lines /\
                                List.filter (Str.startsWith "[DEBUG] ") lines = []).
    { destruct (truthy (cfg config cfg_godotPath)) eqn:Htruthy.
      - destruct (Hsome eq_refl) as [_ (lines & _ & Hnothing & Hl2)]. cbv zeta in Hl2.
        rewrite (Hnothing Hoff) in Hl2. eexists. split; [exact Hl2 |].
        cbn [app]. destruct (_ || _); reflexivity.
      - rewrite (Hnone eq_refl). exists []. rewrite app_nil_r. auto. }
    destruct Hl2 as (lines & Hl2 & Hquiet).
    rewrite Hs, Hmode, Hl3, Hl2, Hl1, (Hoff1 Hoff), (Hoff3 Hoff), !app_nil_r.
    exact Hquiet.
  - intros c Hconfig Hflag.
    assert (Hmode : debugMode = true).
    { unfold debugMode. rewrite Hconfig, Hflag. reflexivity. }
    rewrite Hs, Hmode. cbn [console print]. apply last_snoc.
Qed.
End Constructor.

(** ** Operations of the Godot script *)

Section Operations.

Context `{H : Host}.

(** X26. [create_scene] with a safe scene path, a project that exists and
    a Godot path runs one command, the operations script with
    [create_scene], and reads the outcome off its stderr alone: the answer
    is an error exactly when stderr holds [Failed to], whether the command
    succeeded or failed; otherwise it is the success text with the
    command's stdout. *)
Theorem create_scene_reads_stderr args props p scene g s :
  normalizeArgs args = Some (JObj props) ->
  Obj.get "projectPath" props = Some (JStr p) ->
  Obj.get "scenePath" props = Some (JStr scene) ->
  Str.includes ".." p = false -> Str.includes ".." scene = false ->
  p <> "" -> scene <> "" -> normalize p <> "" ->
  godotPath s = Some g -> g <> "" ->
  existsSync (os s) (join [normalize p; "project.godot"]) = true ->
  let rootNodeType := Obj.get "rootNodeType" props in
  let params := [ ("scenePath", JStr scene);
                  ("rootNodeType", if jsTruthy rootNodeType then default JNull rootNodeType
                                   else JStr "Node2D") ] in
  let command := operationCommand platform g (normalize p) operationsScriptPath
                   "create_scene" params in
  let outputs := outputsOf (fst (execAsync (os s) command)) in
  exists r s',
    handleCreateScene args s = (Ok r, s') /\
    isError r = reportsFailure (snd outputs) /\
    (isError r = false ->
     content r = ["Scene created successfully at: " +:+ scene +:+ Str.nl +:+ Str.nl
                  +:+ "Output: " +:+ fst outputs]) /\
    trace s' = trace s ++ [EvExists (join [normalize p; "project.godot"]); EvExec command].
Proof.
  intros Hargs Hp Hscene Hsafe Hsafe' Hne Hne' Hnorm Hgodot Hg Hproject
    rootNodeType params command outputs.
  subst outputs command params rootNodeType.
  apply String.eqb_neq in Hne. apply String.eqb_neq in Hne'.
  apply String.eqb_neq in Hnorm. apply String.eqb_neq in Hg.
  unfold handleCreateScene. rewrite Hargs.
  unfold mbind, M_bind, bind, getArg, mret, M_ret, ret. cbn [Obj.get]. rewrite Hscene, Hp.
  unfold presentAndInvalid, validatePath, jsTruthy. rewrite Hne, Hne'. cbn [negb].
  unfold mbind, M_bind, bind, mret, M_ret, ret. rewrite Hsafe, Hsafe'. cbn [negb].
  unfold resolveProjectPath, jsTruthy, pathString. rewrite Hne. cbn [negb].
  unfold mbind, M_bind, bind, mret, M_ret, ret. cbn [truthy opt]. rewrite Hnorm. cbn [negb].
  unfold inProject, tryCatch, existsM, executeOperation, ensureGodotPath, exec,
    mbind, M_bind, bind, gets, mret, M_ret, ret.
  cbn [os emit]. rewrite Hproject. cbn [negb godotPath emit os]. rewrite Hgodot.
  cbn [truthy]. rewrite Hg. cbn [negb godotPath emit os set_os opt property app].
  rewrite Hgodot. cbn [opt].
  destruct (execAsync (os s) _) as [[stdout stderr | message stdout stderr] o'].
  - cbn [fst snd outputsOf].
    destruct (reportsFailure stderr) eqn:Hfailure.
    + unfold fail, mret, M_ret, ret. eexists. eexists. split.
      * reflexivity.
      * cbn [isError content trace emit set_os createErrorResponse textResponse].
        split.
        -- reflexivity.
        -- split.
           ++ discriminate.
           ++ rewrite <- app_assoc. reflexivity.
    + eexists. eexists. split.
      * reflexivity.
      * cbn [isError content trace emit set_os createErrorResponse textResponse].
        split.
        -- reflexivity.
        -- split.
           ++ reflexivity.
           ++ rewrite <- app_assoc. reflexivity.
  - cbn [fst snd outputsOf].
    destruct (reportsFailure stderr) eqn:Hfailure.
    + unfold fail, mret, M_ret, ret. eexists. eexists. split.
      * reflexivity.
      * cbn [isError content trace emit set_os createErrorResponse textResponse].
        split.
        -- reflexivity.
        -- split.
           ++ discriminate.
           ++ rewrite <- app_assoc. reflexivity.
    + eexists. eexists. split.
      * reflexivity.
      * cbn [isError content trace emit set_os createErrorResponse textResponse].
        split.
        -- reflexivity.
        -- split.
           ++ reflexivity.
           ++ rewrite <- app_assoc. reflexivity.
Qed.
End Operations.

(** ** Paths of a project *)

Section ProjectPaths.

Context `{H : Host}.

Lemma substring_all (text : string) : String.substring 0 (String.length text) text = text.
Proof. induction text as [| c text IH]; cbn; [reflexivity | rewrite IH; reflexivity]. Qed.

(** X27. [toAbsolutePath] resolves [res://p] inside the base directory,
    to the same file as a relative path [p] that is not empty; an absolute
    path without [res://] is the same for every base directory; the empty
    string is returned as it is. *)
Theorem res_paths_are_project_relative (basePath path : string) :
  toAbsolutePath basePath ("res://" +:+ path) = normalize (join [basePath; path]) /\
  (path <> "" -> isAbsolutePath path = false ->
   toAbsolutePath basePath ("res://" +:+ path) = toAbsolutePath basePath path) /\
  (isAbsolutePath path = true -> Str.startsWith "res://" path = false ->
   forall otherBase, toAbsolutePath otherBase path = toAbsolutePath basePath path) /\
  toAbsolutePath basePath "" = "".
Proof.
  assert (Hres : toAbsolutePath basePath ("res://" +:+ path) = normalize (join [basePath; path])).
  { unfold toAbsolutePath. cbn. rewrite Nat.sub_0_r, substring_all.
    destruct path; reflexivity. }
  split; [exact Hres |]. split; [| split; [| reflexivity]].
  - intros Hne Hrelative. rewrite Hres. unfold toAbsolutePath. rewrite Hrelative.
    apply String.eqb_neq in Hne. rewrite Hne.
    unfold isAbsolutePath in Hrelative. rewrite Hne in Hrelative.
    destruct (Str.startsWith "res://" path); [| reflexivity].
    rewrite orb_true_r in Hrelative. discriminate.
  - intros Habsolute Hscheme otherBase. unfold toAbsolutePath.
    rewrite Hscheme, Habsolute.
    destruct (String.eqb path ""); reflexivity.
Qed.
End ProjectPaths.

(** ** Debug lines of a validation *)

Section ValidationLog.

Context `{H : Host}.

(** X28. What a validation of a path that is not in the cache writes to
    the console: nothing unless [DEBUG=true]; with [DEBUG=true] the line
    that names the path and then one line for the outcome, for an invalid
    path either that the file does not exist or the error of the version
    command. *)
Theorem validation_log path command s :
  validatedPaths s !! path = None ->
  command = (if String.eqb path "godot" then "godot --version"
             else Str.dq +:+ path +:+ Str.dq +:+ " --version") ->
  (getenv "DEBUG" <> Some "true" ->
   console (snd (isValidGodotPath path s)) = console s) /\
  (getenv "DEBUG" = Some "true" ->
   exists outcome,
     console (snd (isValidGodotPath path s))
     = console s ++ ["[DEBUG] Validating Godot path: " +:+ path; outcome] /\
     match fst (isValidGodotPath path s) with
     | Ok true => outcome = "[DEBUG] Valid Godot path: " +:+ path
     | Ok false =>
         path <> "godot" /\ existsSync (os s) path = false /\
         outcome = "[DEBUG] Path does not exist: " +:+ path
         \/
         exists message stdout stderr,
           (path = "godot" \/ existsSync (os s) path = true) /\
           fst (execAsync (os s) command) = ExecError message stdout stderr /\
           outcome = "[DEBUG] Invalid Godot path: " +:+ path +:+ ", error: "
                     +:+ (if String.eqb message "" then "Error" else "Error: " +:+ message)
     | Throw _ => False
     end).
Proof.
  intros Hfresh ->.
  unfold isValidGodotPath, cacheVerdict, exec, logDebug, debugLines,
    mbind, M_bind, bind, gets, modify, mret, M_ret, ret.
  split.
  - intros Hunset. apply DEBUG_MODE_unset in Hunset. rewrite Hunset.
    cbn. rewrite Hfresh.
    destruct (String.eqb path "godot"); cbn;
      [| destruct (existsSync (os s) path); cbn];
      try (destruct (execAsync (os s) _) as [[] ?]; cbn);
      rewrite !app_nil_r; reflexivity.
  - intros Hset. apply DEBUG_MODE_true in Hset. rewrite Hset.
    cbn. rewrite Hfresh.
    destruct (String.eqb path "godot") eqn:Hgodot; cbn.
    + destruct (execAsync (os s) _) as [[out err | message out err] o'] eqn:Hexec; cbn;
        eexists; (split; [rewrite <- app_assoc; reflexivity |]).
      * reflexivity.
      * right. exists message, out, err.
        split; [left; apply String.eqb_eq, Hgodot | split; reflexivity].
    + destruct (existsSync (os s) path) eqn:Hexists; cbn.
      * destruct (execAsync (os s) _) as [[out err | message out err] o'] eqn:Hexec; cbn;
          eexists; (split; [rewrite <- app_assoc; reflexivity |]).
        -- reflexivity.
        -- right. exists message, out, err.
           split; [right; reflexivity | split; reflexivity].
      * eexists. split; [rewrite <- app_assoc; reflexivity |].
        left. split; [| split; reflexivity].
        intros ->. discriminate.
Qed.
End ValidationLog.

(** ** The parameters handed to the Godot script *)

Section Blob.

Context `{H : Host}.

(** X29. The object that [convertCamelToSnakeCase] returns lists its names
    in the order of enumeration, none twice, and has no property named
    [__proto__]: a parameter whose snake-case name is [__proto__], like
    [_Proto__], leaves the object as it is. *)
Theorem converted_object_has_no_proto params props :
  convertCamelToSnakeCase params = JObj props ->
  enumerated props /\
  Obj.get "__proto__" props = None /\
  forall v, convertCamelToSnakeCase (params ++ [("_Proto__", v)]) = JObj props.
Proof.
  unfold convertCamelToSnakeCase. intros [= <-].
  split; [apply renameProps_enumerated; exact I |].
  split.
  - assert (Hclean : Forall (fun kv : string * JSON => fst kv <> "__proto__")
                       (renameProps snakeKey convertNested params []))
      by (apply renameProps_no_proto; constructor).
    destruct (Obj.get "__proto__" (renameProps snakeKey convertNested params [])) eqn:Hget;
      [| reflexivity].
    apply get_In_pair in Hget. rewrite List.Forall_forall in Hclean.
    specialize (Hclean _ Hget). contradiction.
  - intros v. rewrite renameProps_app. reflexivity.
Qed.
End Blob.


(** ** The further properties on the example machine *)

Section FurtherExamples.

(** A request with [project_path] and [scene]. *)
Lemma normalized_object_has_no_snake_names_witness :
  Obj.get "project_path" [("projectPath", JStr "/game"); ("scene", JStr "main.tscn")] = None.
Proof.
  apply (normalized_object_has_no_snake_names (JObj snakeRequest) _ "project_path" "projectPath").
  - vm_compute. reflexivity.
  - simpl. left. reflexivity.
  - discriminate.
Defined.

(** The same request, read by a handler. *)
Lemma snake_case_argument_is_read_witness :
  getArg (normalizeArgs (Some (JObj snakeRequest))) "projectPath" runningServer
  = (Ok (Some (JStr "/game")), runningServer).
Proof.
  apply (snake_case_argument_is_read (H := plainHost) snakeRequest "project_path" "projectPath"
           (JStr "/game") runningServer).
  - simpl. left. reflexivity.
  - apply NoDup_ListNoDup. repeat constructor; simpl; intuition discriminate.
  - reflexivity.
  - intros _. reflexivity.
Defined.

(** The game is stopped after it printed two lines. *)
Lemma stop_project_hands_over_the_lines_witness :
  exists s',
    handleStopProject printedServer = (Ok (stoppedResponse printedChild), s') /\
    handleGetDebugOutput s' = (Ok noActiveProcess, s').
Proof.
  destruct (stop_project_hands_over_the_lines (H := plainHost) printedServer 0 printedChild
              ltac:(vm_compute; reflexivity) ltac:(vm_compute; reflexivity))
    as (s' & _ & Hstop & _ & _ & _ & Hpoll & _).
  exists s'. split; assumption.
Defined.


(** [run_project] for [/nowhere] while the game runs. *)
Lemma run_project_needs_project_file_witness :
  exists r s',
    handleRunProject runNowhere runningServer = (Ok r, s') /\
    isError r = true /\
    activeProcess s' = Some 0.
Proof.
  destruct (run_project_needs_project_file (H := plainHost) runNowhere
              [("projectPath", JStr "/nowhere")] "/nowhere" runningServer
              ltac:(vm_compute; reflexivity) ltac:(vm_compute; reflexivity)
              ltac:(vm_compute; reflexivity) ltac:(discriminate)
              ltac:(vm_compute; discriminate) ltac:(vm_compute; reflexivity))
    as (r & s' & Hrun & Herror & (Hactive & _) & _).
  exists r, s'. split; [exact Hrun |]. split; [exact Herror |].
  rewrite Hactive. vm_compute. reflexivity.
Defined.

(** Godot is removed from the machine after the start: its path stays valid. *)
Lemma validity_cache_only_grows_witness :
  let s' := afterAll (startedServer [] "/work") godotRemoved in
  existsSync (os s') "/usr/bin/godot" = false /\
  isValidGodotPath "/usr/bin/godot" s' = (Ok true, s').
Proof.
  intros s'.
  destruct (validity_cache_only_grows (H := plainHost) (startedServer [] "/work") godotRemoved)
    as [_ Hcached].
  split; [vm_compute; reflexivity |].
  apply Hcached. vm_compute. reflexivity.
Defined.

(** [/opt/godot] on the machine without Godot. *)
Lemma validation_probes_once_witness :
  exists s1,
    isValidGodotPath "/opt/godot" bareServer = (Ok false, s1) /\
    trace s1 = trace bareServer ++ [EvExists "/opt/godot"].
Proof.
  destruct (validation_probes_once (H := plainHost) "/opt/godot" bareServer)
    as (verdict & s1 & Hrun & _ & _ & Hfresh & _).
  destruct (Hfresh ltac:(vm_compute; reflexivity)) as (Htrace & _ & Hmissing).
  rewrite (Hmissing ltac:(discriminate) ltac:(vm_compute; reflexivity)) in Hrun.
  exists s1. split; [exact Hrun | exact Htrace].
Defined.

(** [/opt/godot] is refused and [/usr/bin/godot] stays. *)
Lemma setGodotPath_outcomes_witness :
  exists s',
    setGodotPath "/opt/godot" (startedServer [] "/work") = (Ok false, s') /\
    godotPath s' = Some "/usr/bin/godot".
Proof.
  destruct (setGodotPath_outcomes (H := linuxHost [] "/work") "/opt/godot"
              (startedServer [] "/work"))
    as (accepted & s' & Hrun & _ & _ & Hrefused & _).
  assert (Haccepted : accepted = false).
  { assert (Hfst : fst (setGodotPath "/opt/godot" (startedServer [] "/work")) = Ok false)
      by (vm_compute; reflexivity).
    rewrite Hrun in Hfst. cbn in Hfst. congruence. }
  subst accepted. exists s'. split; [exact Hrun |].
  rewrite (Hrefused eq_refl). vm_compute. reflexivity.
Defined.

(** The started server of the examples. *)
Lemma serving_has_godot_path_witness :
  truthy (godotPath (startedServer [] "/work")) = true.
Proof.
  apply (serving_has_godot_path (H := linuxHost [] "/work") (freshServer [] "/work")
           (startedServer [] "/work")).
  unfold startedServer.
  destruct (@run (linuxHost [] "/work") (freshServer [] "/work")) as [outcome s'] eqn:Hrun.
  assert (Hfst : fst (@run (linuxHost [] "/work") (freshServer [] "/work")) = Serving)
    by (vm_compute; reflexivity).
  rewrite Hrun in Hfst. cbn in Hfst. subst outcome. reflexivity.
Defined.

(** [GODOT_PATH] is taken; a path that is set is kept. *)
Lemma godot_path_precedence_witness :
  godotPath (snd (detectGodotPath envGodotServer)) = Some "/usr/bin/godot" /\
  detectGodotPath (startedServer [] "/work")
  = (Ok tt, snd (isValidGodotPath "/usr/bin/godot" (startedServer [] "/work"))).
Proof.
  destruct (godot_path_precedence (H := envGodotHost) envGodotServer) as [_ Henv].
  destruct (godot_path_precedence (H := plainHost) (startedServer [] "/work")) as [Hkept _].
  split.
  - destruct (Henv "/usr/bin//godot" ltac:(vm_compute; reflexivity)
                ltac:(vm_compute; reflexivity) ltac:(discriminate)
                ltac:(vm_compute; reflexivity)) as [Hquiet _].
    rewrite Hquiet by (vm_compute; discriminate). reflexivity.
  - destruct (Hkept "/usr/bin/godot" ltac:(vm_compute; reflexivity) ltac:(discriminate)
                ltac:(vm_compute; reflexivity)) as [Hquiet _].
    apply Hquiet. vm_compute. discriminate.
Defined.

(** The SDK disappears; the export-data directory is still remembered. *)
Lemma export_data_path_is_sticky_witness :
  fbExportDataPath
    (afterAll (startedServer [("PORTAL_SDK_PATH", "/sdk")] "/work")
       [ @MachineChange sdkHost bareMachine; ToolCall "get_portal_sdk_info" None ])
  = Some "/sdk/SDK/deps/FbExportData".
Proof.
  apply (export_data_path_is_sticky (H := sdkHost)).
  - discriminate.
  - vm_compute. reflexivity.
  - vm_compute. reflexivity.
Defined.

(** The search from [/sdk/GodotProject] finds [/sdk]. *)
Lemma sdk_root_is_checked_witness :
  fst (resolvePortalSdkRootFrom (os staleServer) "/sdk/GodotProject") = Some "/sdk" /\
  fst (isValidPortalSdkRoot (os staleServer) "/sdk") = true.
Proof.
  assert (Hfound : fst (resolvePortalSdkRootFrom (os staleServer) "/sdk/GodotProject")
                   = Some "/sdk") by (vm_compute; reflexivity).
  split; [exact Hfound |].
  destruct (sdk_root_is_checked (H := staleHost) staleServer "/sdk/GodotProject") as [Hsound _].
  apply Hsound, Hfound.
Defined.

(** A listed tool without any field, and a name that is not listed. *)
Lemma listed_tools_answer_witness :
  (exists r s',
     callTool "create_portal_project" (Some (JObj []))
       (startedServer [("PORTAL_SDK_PATH", "/sdk")] "/work") = (Ok r, s')) /\
  callTool "delete_project" (Some (JObj [])) runningServer
  = (Throw "Unknown tool: delete_project", runningServer).
Proof.
  split.
  - apply (listed_tools_answer (H := sdkHost) "create_portal_project" (Some (JObj [])) []).
    + reflexivity.
    + reflexivity.
    + intros _ o p. eexists. reflexivity.
  - apply (listed_tools_answer (H := plainHost) "delete_project" (Some (JObj [])) []).
    + reflexivity.
    + reflexivity.
    + intros [Heq | [Heq | []]]; discriminate.
Defined.

(** [add_node] with an empty node name. *)
Lemma required_fields_are_enforced_witness :
  exists r,
    callTool "add_node" (Some (JObj [("scene_path", JStr "main.tscn"); ("node_name", JStr "")]))
      runningServer = (Ok r, runningServer) /\
    isError r = true.
Proof.
  apply (required_fields_are_enforced (H := plainHost) "add_node" "nodeName" _
           [("scenePath", JStr "main.tscn"); ("nodeName", JStr "")]).
  - simpl. tauto.
  - vm_compute. reflexivity.
  - reflexivity.
Defined.

(** [launch_editor] without arguments. *)
Lemma omitted_arguments_throw_witness :
  callTool "launch_editor" None runningServer
  = (Throw "Cannot read properties of undefined (reading 'projectPath')", runningServer).
Proof.
  apply (omitted_arguments_throw (H := plainHost) "launch_editor" "projectPath" runningServer).
  simpl. tauto.
Defined.

(** Three version texts. *)
Lemma version_check_reads_major_and_minor_witness :
  isGodot44OrLater "4.3.stable.official" = false /\
  isGodot44OrLater "4.10.1" = true /\
  isGodot44OrLater "v4.4" = false.
Proof.
  destruct (version_check_reads_major_and_minor 4 3 ".stable.official" eq_refl) as [Hold _].
  destruct (version_check_reads_major_and_minor 4 10 ".1" eq_refl) as [Hnew Hother].
  split; [exact Hold |]. split; [exact Hnew |].
  apply Hother. reflexivity.
Defined.

(** [python] was found first and is remembered; it is kept although
    [python3], the earlier candidate, answers now. *)
Lemma python_command_is_checked_witness :
  pythonCommand pythonServer = Some "python" /\
  execFileVersion (os pythonServer) "python3" = true /\
  ensurePythonCommand pythonServer
  = (Ok "python", emit [EvExecFile "python" ["--version"]] pythonServer).
Proof.
  split; [vm_compute; reflexivity |]. split; [vm_compute; reflexivity |].
  pose proof (python_command_is_checked (H := plainHost) pythonServer) as Hchecked.
  assert (Hremembered :
            truthy (pythonCommand pythonServer)
            && execFileVersion (os pythonServer) (opt (pythonCommand pythonServer)) = true)
    by (vm_compute; reflexivity).
  rewrite Hremembered in Hchecked.
  destruct (ensurePythonCommand pythonServer) as [[command | message] s'].
  - destruct Hchecked as (_ & _ & _ & _ & Hkept & ->).
    assert (Hcommand : Some command = Some "python")
      by (rewrite <- Hkept; vm_compute; reflexivity).
    injection Hcommand as ->. reflexivity.
  - destruct Hchecked as [Hnot _]. discriminate.
Defined.

(** Godot 4.3. *)
Lemma uid_update_needs_godot_44_witness :
  exists r s',
    handleUpdateProjectUids updateGame oldGodotServer = (Ok r, s') /\
    isError r = true /\
    head (content r)
    = Some "UIDs are only supported in Godot 4.4 or later. Current version: 4.3.stable.official".
Proof.
  destruct (uid_update_needs_godot_44 (H := plainHost) updateGame
              [("projectPath", JStr "/game")] "/game" "/usr/bin/godot" oldGodotServer
              ("4.3.stable.official" +:+ Str.nl) "" oldGodotMachine
              ltac:(vm_compute; reflexivity) ltac:(vm_compute; reflexivity)
              ltac:(vm_compute; reflexivity) ltac:(discriminate)
              ltac:(vm_compute; discriminate) ltac:(vm_compute; reflexivity)
              ltac:(discriminate) ltac:(vm_compute; reflexivity)
              ltac:(vm_compute; reflexivity) ltac:(vm_compute; reflexivity))
    as (r & s' & Hrun & Herror & Htext & _).
  exists r, s'. split; [exact Hrun |]. split; [exact Herror |].
  rewrite Htext. vm_compute. reflexivity.
Defined.

(** The two listings of the example tree. *)
Lemma recursive_listing_extends_flat_listing_witness :
  findGodotProjects (H := plainHost) "/projects" exampleTree false
  = [("/projects/.cache", ".cache"); ("/projects/game", "game")] /\
  findGodotProjects (H := plainHost) "/projects" exampleTree true
  = [("/projects/game", "game"); ("/projects/tools/demo", "demo")] /\
  In ("/projects/game", "game") (findGodotProjects (H := plainHost) "/projects" exampleTree true).
Proof.
  split; [vm_compute; reflexivity |]. split; [vm_compute; reflexivity |].
  destruct (recursive_listing_extends_flat_listing (H := plainHost) "/projects" exampleTree)
    as [Hextends _].
  destruct (Hextends ("/projects/game", "game")) as [Hfound | Hhidden].
  - vm_compute. right. left. reflexivity.
  - exact Hfound.
  - discriminate Hhidden.
Defined.

(** Four visible files; a directory that cannot be read. *)
Lemma structure_counts_every_visible_file_witness :
  (exists c,
     getProjectStructureAsync exampleTree = JObj (countsJson c) /\
     scenes c + scripts c + assets c + other c = 4) /\
  getProjectStructureAsync lockedTree
  = JObj (("error", JStr "Failed to get project structure") :: countsJson (mkCounts 0 0 0 0)).
Proof.
  destruct (structure_counts_every_visible_file exampleTree) as [Hcounted _].
  destruct (structure_counts_every_visible_file lockedTree) as [_ Hlocked].
  split.
  - destruct (Hcounted eq_refl) as (c & Hresult & Htotal). exists c. split; assumption.
  - apply Hlocked. reflexivity.
Defined.


(** Requests, a detection and the loss of every file: [/game] stays. *)
Lemma other_tools_keep_the_project_witness :
  fst (resolveProjectPath None
         (afterAll (startedServer [("PORTAL_PROJECT_PATH", "/game")] "/sdk") busyDay))
  = Ok (Some "/game").
Proof.
  destruct (other_tools_keep_the_project (H := projectHost) "/game"
              (startedServer [("PORTAL_PROJECT_PATH", "/game")] "/sdk") busyDay
              ltac:(discriminate) ltac:(vm_compute; reflexivity)
              ltac:(vm_compute; reflexivity)) as [_ Hresolved].
  - repeat constructor; simpl; discriminate.
  - exact Hresolved.
Defined.

(** A configured path that exists, and one that does not; the console of
    the second server without and with [DEBUG=true]. *)
Lemma constructor_only_reads_witness :
  godotPath (@construct plainHost (Some (godotAt "/usr/bin//godot")) exampleMachine)
  = Some "/usr/bin/godot" /\
  godotPath (@construct plainHost (Some (godotAt "/opt/godot")) exampleMachine) = None /\
  List.filter (fun line => negb (Str.startsWith "[DEBUG] " line))
    (console (@construct debugHost (Some (godotAt "/opt/godot")) exampleMachine))
  = ["[SERVER] Invalid custom Godot path provided: /opt/godot"] /\
  console (@construct plainHost (Some (godotAt "/opt/godot")) exampleMachine)
  = ["[SERVER] Invalid custom Godot path provided: /opt/godot"] /\
  console (@construct debugHost (Some (godotAt "/opt/godot")) exampleMachine)
  = [ "[DEBUG] Custom Godot path provided: /opt/godot";
      "[DEBUG] Quick-validating Godot path: /opt/godot";
      "[SERVER] Invalid custom Godot path provided: /opt/godot";
      "[DEBUG] Operations script path: /srv/godot-mcp/build/scripts/godot_operations.gd" ].
Proof.
  split; [vm_compute; reflexivity |].
  destruct (constructor_only_reads (H := plainHost) (Some (godotAt "/opt/godot")) exampleMachine)
    as (_ & _ & _ & _ & _ & Hinvalid & _).
  destruct (constructor_only_reads (H := debugHost) (Some (godotAt "/opt/godot")) exampleMachine)
    as (_ & _ & _ & _ & _ & Hloud & _).
  split; [| split; [| split]].
  - apply (Hinvalid "/opt/godot"); [reflexivity | discriminate | vm_compute; discriminate
                                   | vm_compute; reflexivity].
  - apply (Hloud "/opt/godot"); [reflexivity | discriminate | vm_compute; discriminate
                                 | vm_compute; reflexivity].
  - vm_compute. reflexivity.
  - vm_compute. reflexivity.
Defined.

(** The machine has no such command: it fails with nothing on stderr, and
    the answer is the success text. *)
Lemma create_scene_reads_stderr_witness :
  exists r s',
    handleCreateScene newScene oldGodotServer = (Ok r, s') /\
    isError r = false /\
    content r = ["Scene created successfully at: levels/main.tscn" +:+ Str.nl +:+ Str.nl
                 +:+ "Output: "].
Proof.
  pose proof (create_scene_reads_stderr (H := plainHost) newScene
                [("projectPath", JStr "/game"); ("scenePath", JStr "levels/main.tscn")]
                "/game" "levels/main.tscn" "/usr/bin/godot" oldGodotServer
                ltac:(vm_compute; reflexivity) ltac:(vm_compute; reflexivity)
                ltac:(vm_compute; reflexivity) ltac:(vm_compute; reflexivity)
                ltac:(vm_compute; reflexivity) ltac:(discriminate) ltac:(discriminate)
                ltac:(vm_compute; discriminate) ltac:(vm_compute; reflexivity)
                ltac:(discriminate) ltac:(vm_compute; reflexivity)) as Hscene.
  cbv zeta in Hscene. destruct Hscene as (r & s' & Hrun & Herror & Htext & _).
  assert (Hsuccess : isError r = false) by (rewrite Herror; vm_compute; reflexivity).
  exists r, s'. split; [exact Hrun |]. split; [exact Hsuccess |].
  rewrite (Htext Hsuccess). vm_compute. reflexivity.
Defined.

(** A scene of the game project, and a file outside of it. *)
Lemma res_paths_are_project_relative_witness :
  toAbsolutePath (H := plainHost) "/game" "res://levels/a.tscn" = "/game/levels/a.tscn" /\
  toAbsolutePath (H := plainHost) "/game" "res://levels/a.tscn"
  = toAbsolutePath (H := plainHost) "/game" "levels/a.tscn" /\
  toAbsolutePath (H := plainHost) "/elsewhere" "/etc/passwd"
  = toAbsolutePath (H := plainHost) "/game" "/etc/passwd".
Proof.
  destruct (res_paths_are_project_relative (H := plainHost) "/game" "levels/a.tscn")
    as (Hres & Hsame & _).
  destruct (res_paths_are_project_relative (H := plainHost) "/game" "/etc/passwd")
    as (_ & _ & Hbase & _).
  split; [| split].
  - etransitivity; [exact Hres | vm_compute; reflexivity].
  - exact (Hsame ltac:(discriminate) eq_refl).
  - exact (Hbase eq_refl eq_refl "/elsewhere").
Defined.

(** On the machine without Godot, with [DEBUG=true]: a file that does not
    exist, and the word [godot] whose version command fails. *)
Lemma validation_log_witness :
  console (snd (isValidGodotPath "/opt/godot" debugServer))
  = console debugServer
    ++ [ "[DEBUG] Validating Godot path: /opt/godot";
         "[DEBUG] Path does not exist: /opt/godot" ] /\
  console (snd (isValidGodotPath "godot" debugServer))
  = console debugServer
    ++ [ "[DEBUG] Validating Godot path: godot";
         "[DEBUG] Invalid Godot path: godot, error: Error: Command failed: godot --version" ].
Proof.
  split.
  - destruct (validation_log (H := debugHost) "/opt/godot" _ debugServer
                ltac:(vm_compute; reflexivity) eq_refl) as [_ Hloud].
    destruct (Hloud ltac:(vm_compute; reflexivity)) as (outcome & Hconsole & Hcase).
    assert (Hverdict : fst (isValidGodotPath "/opt/godot" debugServer) = Ok false)
      by (vm_compute; reflexivity).
    rewrite Hverdict in Hcase. rewrite Hconsole.
    destruct Hcase as [(_ & _ & ->) | (message & out & err & [Hname | Hexists] & _)].
    + reflexivity.
    + discriminate.
    + vm_compute in Hexists. discriminate.
  - destruct (validation_log (H := debugHost) "godot" _ debugServer
                ltac:(vm_compute; reflexivity) eq_refl) as [_ Hloud].
    destruct (Hloud ltac:(vm_compute; reflexivity)) as (outcome & Hconsole & Hcase).
    assert (Hverdict : fst (isValidGodotPath "godot" debugServer) = Ok false)
      by (vm_compute; reflexivity).
    rewrite Hverdict in Hcase. rewrite Hconsole.
    destruct Hcase as [(Hname & _) | (message & out & err & _ & Hexec & ->)].
    + contradiction.
    + vm_compute in Hexec. injection Hexec as <- _ _. reflexivity.
Defined.

(** A request with a parameter named [_Proto__]. *)
Lemma converted_object_has_no_proto_witness :
  convertCamelToSnakeCase [("nodeType", JStr "Node2D"); ("_Proto__", JObj [("x", JNull)])]
  = JObj [("node_type", JStr "Node2D")] /\
  Obj.get "__proto__" [("node_type", JStr "Node2D")] = None.
Proof.
  destruct (converted_object_has_no_proto [("nodeType", JStr "Node2D")]
              [("node_type", JStr "Node2D")] ltac:(vm_compute; reflexivity))
    as (_ & Hnone & Hdropped).
  split; [exact (Hdropped (JObj [("x", JNull)])) | exact Hnone].
Defined.
End FurtherExamples.
